(** * Daily consumption reconciliation and grid status tracking

    A shallow embedding of [daily_consumption_calculator.js]
    (class [DailyConsumptionCalculator]) and of the status tracker of
    [optimized_monitor.js] ([saveData], [trackGridStatusChange]).

    Conventions of the embedding.
    - A timestamp is the number of milliseconds since the Unix epoch.  The
      source stores [Date.prototype.toISOString] strings, whose text order
      is the order of the instants they denote; [julianday] of such a
      string is that instant in days, so ordering by
      [ABS(julianday(timestamp) - julianday(m))] is ordering by the
      distance in milliseconds.
    - A date string [YYYY-MM-DD] is the number of whole days since the
      epoch; its text order is the order of the day numbers.
    - A JavaScript number / SQLite REAL is a rational: the arithmetic of the
      source (one subtraction, one product, comparisons) is modelled
      exactly, rounding is not.
    - The MD5 digest of a fingerprint key is the key itself, read as the
      tuple of its four parts; a status and a value are kept apart, though
      a status spelling a number gives the key text of that number.
    - Wall-clock time ([Date.now()], [new Date()]) is a parameter.  One
      computation of a day takes one reading [now]; a caller that reads
      the clock itself and then awaits a computation takes a reading of
      its own beside the computation's, and a batch takes both in every
      turn ([Tick]).
    - The tables are lists of rows in insertion order, the ledger a map
      keyed by its UNIQUE [date]; where SQL leaves the choice among rows of
      equal sort key open, the earliest stored row is taken.
    - Every sqlite statement is journalled and may be rejected by the
      storage layer, as an oracle [fails] decides; console output is not
      modelled. *)

From Stdlib Require Import ZArith QArith Qminmax String List Bool Lia Lqa.
From stdpp Require Import base option list gmap strings.

Local Open Scope string_scope.
Local Open Scope list_scope.
Local Open Scope Z_scope.

(** ** Rows of the [power_data] table *)

Inductive Category := availability | consumption | meter_reading | balance | event.
Inductive Source := grid | dg.

#[global] Instance Category_eq_dec : EqDecision Category.
Proof. solve_decision. Defined.
#[global] Instance Source_eq_dec : EqDecision Source.
Proof. solve_decision. Defined.

(** The text [`${data.status || data.value}`] inside a fingerprint key. *)
Inductive Payload :=
| PStatus (s : string)
| PValue (v : Q)
| PUndefined.

(** The key [`${category}_${source}_${payload}_${timestamp.substring(0, 16)}`];
    the first sixteen characters of an ISO timestamp name its minute. *)
Record Fingerprint := mkFingerprint {
  fp_category : Category;
  fp_source : Source;
  fp_payload : Payload;
  fp_minute : Z
}.

Definition payload_eqb (p q : Payload) : bool :=
  match p, q with
  | PStatus s, PStatus t => bool_decide (s = t)
  | PValue v, PValue w => Qeq_bool v w
  | PUndefined, PUndefined => true
  | _, _ => false
  end.

Definition fingerprint_eqb (f g : Fingerprint) : bool :=
  bool_decide (fp_category f = fp_category g)
  && bool_decide (fp_source f = fp_source g)
  && payload_eqb (fp_payload f) (fp_payload g)
  && bool_decide (fp_minute f = fp_minute g).

(** The [metadata] column: [{context}] for scraped data, and the two
    statuses of the transition for an event row. *)
Inductive Metadata :=
| MetaContext
| MetaEvent (previousStatus currentStatus : option string) (eventType : string) (detectedAt : Z).

Record Row := mkRow {
  timestamp : Z;
  category : Category;
  source : Source;
  status : option string;
  consumption_value : option Q;
  consumption_unit : option string;
  period : option string;
  confidence : option Q;
  metadata : Metadata;
  fingerprint : option Fingerprint
}.

(** ** Rows of the [daily_consumption] table (keyed by [date])

    The columns a computation supplies.  The columns the table fills by
    itself ([id], [created_at], [updated_at]) are left out; [INSERT OR
    REPLACE] renews them on every write. *)

Record DailyRow := mkDailyRow {
  midnight_reading : Q;
  midnight_timestamp : Z;
  current_reading : Q;
  current_timestamp : Z;
  calculated_consumption : Q;
  is_complete : bool;
  has_monitoring_gaps : bool;
  confidence_score : Q;
  notes : option Z
}.

(** ** The store and the storage operations issued against it *)

Inductive StoreOp :=
| CreateDailyTable
| CreateDailyIndex
| SelectMidnight (d : Z)
| SelectLatest
| SelectCoverage (d : Z)
| UpsertDaily (d : Z)
| SelectAtOrBefore (t : Z)
| SelectLastStatus
| InsertEvent
| InsertData.

(** [journal] records every statement handed to sqlite, oldest first. *)
Record Store := mkStore {
  power_data : list Row;
  daily_consumption : gmap Z DailyRow;
  journal : list StoreOp
}.

Inductive Error :=
| SqliteError (op : StoreOp)
| UniqueConstraint
| TypeError (what : string)
| RangeError.

Inductive Outcome (A : Type) :=
| Returned (a : A)
| Threw (e : Error).
Arguments Returned {A} a.
Arguments Threw {A} e.

(** An [async] method: it runs against the store and either returns or
    rejects. *)
Definition M (A : Type) : Type := Store → Outcome A * Store.

#[global] Instance M_ret : MRet M := λ A a st, (Returned a, st).
#[global] Instance M_bind : MBind M := λ A B f m st,
  match m st with
  | (Returned a, st') => f a st'
  | (Threw e, st') => (Threw e, st')
  end.

Definition throw {A} (e : Error) : M A := λ st, (Threw e, st).

(** [try { body } catch (error) { handler }] *)
Definition try_catch {A} (body : M A) (handler : Error → M A) : M A := λ st,
  match body st with
  | (Returned a, st') => (Returned a, st')
  | (Threw e, st') => handler e st'
  end.

(** The store after further statements were journalled. *)
Definition journalled (ops : list StoreOp) (st : Store) : Store :=
  mkStore (power_data st) (daily_consumption st) (journal st ++ ops).

(** Which statements the storage layer rejects with an error. *)
Definition Faults : Type := StoreOp → bool.

Definition no_faults : Faults := λ _, false.

(** One [db.get] / [db.run] / [db.all] call wrapped in a promise: the
    statement is journalled, then either rejected or run. *)
Definition sqlite {A} (fails : Faults) (op : StoreOp)
    (run : Store → Outcome A * Store) : M A := λ st,
  let st1 := journalled [op] st in
  if fails op then (Threw (SqliteError op), st1) else run st1.

(** A statement whose callback is the bare [resolve]: the promise is
    fulfilled whether or not sqlite reports an error. *)
Definition sqlite_resolve (op : StoreOp) : M unit := λ st,
  (Returned (), journalled [op] st).

(** ** Queries: WHERE, ORDER BY ... LIMIT 1 *)

(** [ORDER BY key ASC LIMIT 1]: a row of least key, the earliest stored one
    among equals. *)
Fixpoint order_by_limit1 {A} (key : A → Z) (rows : list A) : option A :=
  match rows with
  | [] => None
  | r :: rest =>
      match order_by_limit1 key rest with
      | None => Some r
      | Some b => if key r <=? key b then Some r else Some b
      end
  end.

Definition DAY_MS : Z := 24 * 60 * 60 * 1000.

(** [new Date(ms).toISOString().split('T')[0]] *)
Definition toDateStr (ms : Z) : Z := ms / DAY_MS.

(** [new Date(dateStr).getTime()] *)
Definition dateGetTime (dateStr : Z) : Z := dateStr * DAY_MS.

Definition getTodayDate (now : Z) : Z := toDateStr now.

Definition getMidnightTimestamp (dateStr : Z) : Z := dateGetTime dateStr.

Definition nextMidnightOf (dateStr : Z) : Z :=
  getMidnightTimestamp (toDateStr (dateGetTime dateStr + 24 * 60 * 60 * 1000)).

(** The projection [SELECT consumption_value, timestamp, confidence] of a
    row whose [consumption_value IS NOT NULL]. *)
Record MeterReading := mkMeterReading {
  mr_consumption_value : Q;
  mr_timestamp : Z;
  mr_confidence : option Q
}.

(** [WHERE category = 'meter_reading' AND source = 'grid'
     AND consumption_value IS NOT NULL], projected. *)
Definition grid_meter_reading (r : Row) : option MeterReading :=
  if bool_decide (category r = meter_reading) && bool_decide (source r = grid)
  then match consumption_value r with
       | Some v => Some (mkMeterReading v (timestamp r) (confidence r))
       | None => None
       end
  else None.

Definition in_window (lo hi t : Z) : bool := (lo <=? t) && (t <? hi).

(** ** DailyConsumptionCalculator *)

(** [initDatabase]: [CREATE TABLE IF NOT EXISTS daily_consumption] rejects
    on error; the [CREATE INDEX] that follows resolves whatever happens. *)
Definition initDatabase (fails : Faults) : M unit :=
  _ ← sqlite fails CreateDailyTable (λ st, (Returned (), st));
  sqlite_resolve CreateDailyIndex.

(** [ORDER BY timestamp DESC LIMIT 1] over the grid meter readings. *)
Definition latest_query (rows : list Row) : option MeterReading :=
  order_by_limit1 (λ m, - mr_timestamp m) (omap grid_meter_reading rows).

Definition getLatestMeterReading (fails : Faults) : M (option MeterReading) :=
  sqlite fails SelectLatest (λ st, (Returned (latest_query (power_data st)), st)).

(** The grid meter readings with [timestamp >= midnightTime] and
    [timestamp < nextMidnight]. *)
Definition readings_of_day (dateStr : Z) (rows : list Row) : list MeterReading :=
  List.filter
    (λ m, in_window (getMidnightTimestamp dateStr) (nextMidnightOf dateStr) (mr_timestamp m))
    (omap grid_meter_reading rows).

(** [ORDER BY ABS(julianday(timestamp) - julianday(midnightTime)) ASC LIMIT 1] *)
Definition midnight_query (dateStr : Z) (rows : list Row) : option MeterReading :=
  let midnightTime := getMidnightTimestamp dateStr in
  order_by_limit1 (λ m, Z.abs (mr_timestamp m - midnightTime)) (readings_of_day dateStr rows).

Definition getMidnightMeterReading (fails : Faults) (dateStr : Z) : M (option MeterReading) :=
  sqlite fails (SelectMidnight dateStr) (λ st,
    (Returned (midnight_query dateStr (power_data st)), st)).

Record Coverage := mkCoverage {
  recordCount : Z;
  firstRecord : option Z;
  lastRecord : option Z;
  hasGaps : bool
}.

(** The rows counted by [checkMonitoringCoverage]: here a NULL
    [consumption_value] is counted too. *)
Definition coverage_rows (dateStr : Z) (rows : list Row) : list Row :=
  List.filter
    (λ r, in_window (getMidnightTimestamp dateStr) (nextMidnightOf dateStr) (timestamp r)
          && bool_decide (category r = meter_reading)
          && bool_decide (source r = grid))
    rows.

(** The row count, [MIN(timestamp)], [MAX(timestamp)] and the gap flag
    [row.record_count < 12]. *)
Definition coverage_query (dateStr : Z) (rows : list Row) : Coverage :=
  let rows := coverage_rows dateStr rows in
  let record_count := Z.of_nat (length rows) in
  {| recordCount := record_count;
     firstRecord := timestamp <$> order_by_limit1 timestamp rows;
     lastRecord := timestamp <$> order_by_limit1 (λ r, - timestamp r) rows;
     hasGaps := record_count <? 12 |}.

Definition checkMonitoringCoverage (fails : Faults) (dateStr : Z) : M Coverage :=
  sqlite fails (SelectCoverage dateStr) (λ st,
    (Returned (coverage_query dateStr (power_data st)), st)).

Record DailyResult := mkDailyResult {
  date : Z;
  midnightReading : Q;
  midnightTimestamp : Z;
  currentReading : Q;
  currentTimestamp : Z;
  calculatedConsumption : Q;
  isComplete : bool;
  hasMonitoringGaps : bool;
  confidenceScore : Q;
  coverage : Coverage
}.

(** [INSERT OR REPLACE INTO daily_consumption ...]: [date] is UNIQUE. *)
Definition saveDailyConsumption (fails : Faults) (data : DailyResult) : M unit :=
  sqlite fails (UpsertDaily (date data)) (λ st,
    let row := {| midnight_reading := midnightReading data;
                  midnight_timestamp := midnightTimestamp data;
                  current_reading := currentReading data;
                  current_timestamp := currentTimestamp data;
                  calculated_consumption := calculatedConsumption data;
                  is_complete := isComplete data;
                  has_monitoring_gaps := hasMonitoringGaps data;
                  confidence_score := confidenceScore data;
                  notes := Some (recordCount (coverage data)) |} in
    (Returned (),
     mkStore (power_data st) (<[date data := row]> (daily_consumption st)) (journal st))).

(** [x < y] on numbers. *)
Definition Qltb (x y : Q) : bool := negb (Qle_bool y x).

(** [c || d] for a nullable number [c]: NULL and zero are both falsy. *)
Definition or_default (c : option Q) (d : Q) : Q :=
  match c with
  | Some q => if Qeq_bool q 0 then d else q
  | None => d
  end.

Definition Math_min (x y : Q) : Q := Qmin x y.

(** [calculateDailyConsumption(dateStr = null)].  [initDatabase] is awaited
    before the [try]; the [catch] turns every later rejection into [null].
    A consumption above 100 is only logged. *)
Definition calculateDailyConsumption (fails : Faults) (now : Z) (dateStr : option Z)
    : M (option DailyResult) :=
  let dateStr := default (getTodayDate now) dateStr in
  _ ← initDatabase fails;
  try_catch
    (midnightReading ← getMidnightMeterReading fails dateStr;
     match midnightReading with
     | None => mret None
     | Some midnightReading =>
       currentReading ← getLatestMeterReading fails;
       match currentReading with
       | None => mret None
       | Some currentReading =>
         coverage ← checkMonitoringCoverage fails dateStr;
         let consumption :=
           (mr_consumption_value currentReading - mr_consumption_value midnightReading)%Q in
         if Qltb consumption 0 then mret None
         else
           let confidenceScore :=
             Math_min (or_default (mr_confidence midnightReading) 0.8)
                      (or_default (mr_confidence currentReading) 0.8) in
           let confidenceScore :=
             if hasGaps coverage then (confidenceScore * 0.7)%Q else confidenceScore in
           let result :=
             {| date := dateStr;
                midnightReading := mr_consumption_value midnightReading;
                midnightTimestamp := mr_timestamp midnightReading;
                currentReading := mr_consumption_value currentReading;
                currentTimestamp := mr_timestamp currentReading;
                calculatedConsumption := consumption;
                isComplete := dateStr <? getTodayDate now;
                hasMonitoringGaps := hasGaps coverage;
                confidenceScore := confidenceScore;
                coverage := coverage |} in
           _ ← saveDailyConsumption fails result;
           mret (Some result)
       end
     end)
    (λ error, mret None).

(** Two readings of the wall clock by a caller of a computation: the one
    the caller takes its date from, before it awaits the computation, and
    the one the completeness test of the awaited computation takes. *)
Record Tick := mkTick {
  at_date : Z;
  at_test : Z
}.

(** [backfillDailyConsumptions(days = 7)]: the loop
    [for (let i = days - 1; i >= 0; i--)], [n] iterations being left.  Every
    turn reads [Date.now()] afresh; the clock and the storage faults of a
    turn are named by its [i]. *)
Fixpoint backfill_loop (fails : Z → Faults) (clock : Z → Tick) (i : Z) (n : nat)
    (results : list DailyResult) : M (list DailyResult) :=
  match n with
  | O => mret results
  | S n' =>
      let date := toDateStr (at_date (clock i) - i * 24 * 60 * 60 * 1000) in
      result ← calculateDailyConsumption (fails i) (at_test (clock i)) (Some date);
      backfill_loop fails clock (i - 1) n'
        (match result with Some r => results ++ [r] | None => results end)
  end.

Definition backfillDailyConsumptions (fails : Z → Faults) (clock : Z → Tick) (days : Z)
    : M (list DailyResult) :=
  backfill_loop fails clock (days - 1) (Z.to_nat days) [].

Record TodayConsumption := mkTodayConsumption {
  tc_value : Q;
  tc_timestamp : Z;
  tc_confidence : Q;
  tc_isRealTimeCalculated : bool;
  tc_midnightReading : Q;
  tc_currentReading : Q;
  tc_hasGaps : bool
}.

(** [getTodayConsumption()]: [getTodayDate()] on entry reads the clock at
    [at_date clock], the computation it awaits at [at_test clock]. *)
Definition getTodayConsumption (fails : Faults) (clock : Tick) : M (option TodayConsumption) :=
  let today := getTodayDate (at_date clock) in
  result ← calculateDailyConsumption fails (at_test clock) (Some today);
  match result with
  | Some result =>
      mret (Some {| tc_value := calculatedConsumption result;
                    tc_timestamp := currentTimestamp result;
                    tc_confidence := confidenceScore result;
                    tc_isRealTimeCalculated := true;
                    tc_midnightReading := midnightReading result;
                    tc_currentReading := currentReading result;
                    tc_hasGaps := hasMonitoringGaps result |})
  | None => mret None
  end.

(** The methods the class body defines.  An instance carries only the fields
    [dbPath] and [db], so [this.name] for any other name is [undefined]. *)
Definition class_methods : list string :=
  ["constructor"; "initDatabase"; "getTodayDate"; "getMidnightTimestamp";
   "getLatestMeterReading"; "getMidnightMeterReading"; "checkMonitoringCoverage";
   "calculateDailyConsumption"; "saveDailyConsumption"; "getDailyConsumptions";
   "backfillDailyConsumptions"; "getTodayConsumption"; "getConsumptionAtTime";
   "close"].

(** Those of [class_methods] that take a date string and resolve to a
    reading row. *)
Definition reading_methods (fails : Faults) : list (string * (Z → M (option MeterReading))) :=
  [("getMidnightMeterReading", getMidnightMeterReading fails)].

Fixpoint lookup_method {A} (name : string) (table : list (string * A)) : option A :=
  match table with
  | [] => None
  | (n, f) :: rest => if bool_decide (n = name) then Some f else lookup_method name rest
  end.

(** [await this[name](dateStr)]: calling [undefined] throws a [TypeError]. *)
Definition call_reading_method (fails : Faults) (name : string) (dateStr : Z)
    : M (option MeterReading) :=
  match lookup_method name (reading_methods fails) with
  | Some method => method dateStr
  | None => throw (TypeError ("this." ++ name ++ " is not a function")%string)
  end.

(** [targetTime.toISOString()]: an invalid [Date] ([None]) throws. *)
Definition toISOString (targetTime : option Z) : M Z :=
  match targetTime with
  | Some t => mret t
  | None => throw RangeError
  end.

(** The statement of [getConsumptionAtTime]: [WHERE timestamp <= ?] over the
    grid meter readings, [ORDER BY timestamp DESC LIMIT 1]. *)
Definition at_or_before_query (targetTimestamp : Z) (rows : list Row) : option MeterReading :=
  order_by_limit1 (λ m, - mr_timestamp m)
    (List.filter (λ m, mr_timestamp m <=? targetTimestamp) (omap grid_meter_reading rows)).

Definition selectAtOrBefore (fails : Faults) (targetTimestamp : Z) : M (option MeterReading) :=
  sqlite fails (SelectAtOrBefore targetTimestamp) (λ st,
    (Returned (at_or_before_query targetTimestamp (power_data st)), st)).

(** [getConsumptionAtTime(dateStr, targetTime)]: the comparison with
    [getTodayDate()] reads the clock at [now], the delegate afterwards at
    [clock]. *)
Definition getConsumptionAtTime (fails : Faults) (now : Z) (clock : Tick) (dateStr : Z)
    (targetTime : option Z) : M (option TodayConsumption) :=
  _ ← initDatabase fails;
  try_catch
    (if bool_decide (dateStr = getTodayDate now) then getTodayConsumption fails clock
     else
       let startTime := getMidnightTimestamp dateStr in
       targetTimestamp ← toISOString targetTime;
       midnightReading ← call_reading_method fails "getMidnightReading" dateStr;
       match midnightReading with
       | None => mret None
       | Some midnightReading =>
         targetReading ← selectAtOrBefore fails targetTimestamp;
         match targetReading with
         | None => mret None
         | Some targetReading =>
           let consumption :=
             (mr_consumption_value targetReading - mr_consumption_value midnightReading)%Q in
           if Qltb consumption 0 then mret None
           else
             mret (Some {| tc_value := consumption;
                           tc_timestamp := mr_timestamp targetReading;
                           tc_confidence := 0.9;
                           tc_isRealTimeCalculated := false;
                           tc_midnightReading := mr_consumption_value midnightReading;
                           tc_currentReading := mr_consumption_value targetReading;
                           tc_hasGaps := false |})
         end
       end)
    (λ error, mret None).

(** ** The status tracker of the monitor *)

(** A scraped datum as [saveData] receives it. *)
Record Reading := mkReading {
  data_timestamp : Z;
  data_category : Category;
  data_source : Source;
  data_status : option string;
  data_value : option Q;
  data_unit : option string;
  data_period : option string;
  data_confidence : option Q;
  data_fingerprint : option Fingerprint
}.

(** [timestamp.substring(0, 16)] *)
Definition minute_of (timestamp : Z) : Z := timestamp / 60000.

(** [s || null] on strings and [v || null] on numbers. *)
Definition string_or_null (s : option string) : option string :=
  match s with
  | Some t => if bool_decide (t = "") then None else Some t
  | None => None
  end.

Definition number_or_null (v : option Q) : option Q :=
  match v with
  | Some q => if Qeq_bool q 0 then None else Some q
  | None => None
  end.

Definition generateFingerprint (data : Reading) (timestamp : Z) : Fingerprint :=
  {| fp_category := data_category data;
     fp_source := data_source data;
     fp_payload :=
       match string_or_null (data_status data) with
       | Some s => PStatus s
       | None => match data_value data with Some v => PValue v | None => PUndefined end
       end;
     fp_minute := minute_of timestamp |}.

(** [fingerprint TEXT UNIQUE]: a NULL fingerprint never collides. *)
Definition fingerprint_taken (fp : option Fingerprint) (rows : list Row) : bool :=
  match fp with
  | None => false
  | Some f =>
      existsb (λ r, match fingerprint r with
                    | Some g => fingerprint_eqb f g
                    | None => false
                    end) rows
  end.

(** [INSERT INTO power_data (...) VALUES (...)] *)
Definition insert_power_data (fails : Faults) (op : StoreOp) (row : Row) : M unit :=
  sqlite fails op (λ st,
    if fingerprint_taken (fingerprint row) (power_data st)
    then (Threw UniqueConstraint, st)
    else (Returned (),
          mkStore (power_data st ++ [row]) (daily_consumption st) (journal st))).

Definition grid_availability (r : Row) : bool :=
  bool_decide (category r = availability) && bool_decide (source r = grid).

(** [WHERE category = 'availability' AND source = 'grid'
     ORDER BY timestamp DESC LIMIT 1] *)
Definition last_status_query (rows : list Row) : option Row :=
  order_by_limit1 (λ r, - timestamp r) (List.filter grid_availability rows).

(** [previousStatus === 'online' && currentStatus === 'offline'] and its
    mirror image. *)
Definition classify (previousStatus currentStatus : option string) : option string :=
  if bool_decide (previousStatus = Some "online") && bool_decide (currentStatus = Some "offline")
  then Some "interruption"
  else if bool_decide (previousStatus = Some "offline") && bool_decide (currentStatus = Some "online")
  then Some "restoration"
  else None.

Definition event_row (previousStatus currentStatus : option string) (eventType : string)
    (currentTime : Z) : Row :=
  {| timestamp := currentTime;
     category := event;
     source := grid;
     status := Some eventType;
     consumption_value := None;
     consumption_unit := None;
     period := Some "status_change";
     confidence := Some 1.0%Q;
     metadata := MetaEvent previousStatus currentStatus eventType currentTime;
     fingerprint := Some (mkFingerprint event grid (PStatus eventType) (minute_of currentTime)) |}.

(** [trackGridStatusChange(currentData)]: the whole body sits in a [try]
    whose [catch] only logs.  A NULL previous and an absent current status
    are both [None] here; the source finds them different but names no
    event for the pair. *)
Definition trackGridStatusChange (fails : Faults) (currentData : Reading) : M unit :=
  try_catch
    (lastStatus ← sqlite fails SelectLastStatus (λ st,
       (Returned (last_status_query (power_data st)), st));
     match lastStatus with
     | None => mret ()
     | Some lastStatus =>
       let previousStatus := status lastStatus in
       let currentStatus := data_status currentData in
       let currentTime := data_timestamp currentData in
       if negb (bool_decide (previousStatus = currentStatus)) then
         match classify previousStatus currentStatus with
         | Some eventType =>
             insert_power_data fails InsertEvent
               (event_row previousStatus currentStatus eventType currentTime)
         | None => mret ()
         end
       else mret ()
     end)
    (λ error, mret ()).

Definition data_row (data : Reading) : Row :=
  {| timestamp := data_timestamp data;
     category := data_category data;
     source := data_source data;
     status := string_or_null (data_status data);
     consumption_value := number_or_null (data_value data);
     consumption_unit := string_or_null (data_unit data);
     period := string_or_null (data_period data);
     confidence := data_confidence data;
     metadata := MetaContext;
     fingerprint := data_fingerprint data |}.

(** One turn of the [for (const data of dataArray)] loop of [saveData];
    the counters are [(saved, duplicates)]. *)
Definition saveData_step (fails : Faults) (data : Reading) (counters : Z * Z) : M (Z * Z) :=
  try_catch
    (_ ← (if bool_decide (data_category data = availability)
             && bool_decide (data_source data = grid)
          then trackGridStatusChange fails data
          else mret ());
     try_catch
       (_ ← insert_power_data fails InsertData (data_row data);
        mret (fst counters + 1, snd counters))
       (λ err, match err with
               | UniqueConstraint => mret (fst counters, snd counters + 1)
               | _ => throw err
               end))
    (λ error, mret counters).

(** [saveData(dataArray)]; [fails k] rules the storage faults of the turn
    for the [k]-th datum. *)
Fixpoint saveData_loop (fails : nat → Faults) (k : nat) (dataArray : list Reading)
    (counters : Z * Z) : M (Z * Z) :=
  match dataArray with
  | [] => mret counters
  | data :: rest =>
      counters' ← saveData_step (fails k) data counters;
      saveData_loop fails (S k) rest counters'
  end.

Definition saveData (fails : nat → Faults) (dataArray : list Reading) : M (Z * Z) :=
  saveData_loop fails 0%nat dataArray (0, 0).

(** The event rows of a table, oldest first. *)
Definition events (rows : list Row) : list Row :=
  List.filter (λ r, bool_decide (category r = event)) rows.

(** ** Predicates used in the statements *)

(** A row the anchor query ranges over: a grid meter reading with a value,
    stamped within the day. *)
Definition anchor_candidate (dateStr : Z) (r : Row) : Prop :=
  category r = meter_reading ∧ source r = grid ∧ is_Some (consumption_value r)
  ∧ getMidnightTimestamp dateStr ≤ timestamp r < getMidnightTimestamp (dateStr + 1).

(** The row a projected reading comes from. *)
Definition projects_to (r : Row) (m : MeterReading) : Prop :=
  consumption_value r = Some (mr_consumption_value m)
  ∧ timestamp r = mr_timestamp m
  ∧ confidence r = mr_confidence m.


(** The score computed between the validation and the [result] literal of
    [calculateDailyConsumption] (see [calculateDailyConsumption_run]). *)
Definition score_of (m c : MeterReading) (cov : Coverage) : Q :=
  let s := Math_min (or_default (mr_confidence m) 0.8) (or_default (mr_confidence c) 0.8) in
  if hasGaps cov then (s * 0.7)%Q else s.

(** The [result] literal of [calculateDailyConsumption]. *)
Definition result_of (now dateStr : Z) (m c : MeterReading) (cov : Coverage) : DailyResult :=
  {| date := dateStr;
     midnightReading := mr_consumption_value m;
     midnightTimestamp := mr_timestamp m;
     currentReading := mr_consumption_value c;
     currentTimestamp := mr_timestamp c;
     calculatedConsumption := (mr_consumption_value c - mr_consumption_value m)%Q;
     isComplete := dateStr <? getTodayDate now;
     hasMonitoringGaps := hasGaps cov;
     confidenceScore := score_of m c cov;
     coverage := cov |}.

(** The row [saveDailyConsumption] writes for a result. *)
Definition row_of (data : DailyResult) : DailyRow :=
  {| midnight_reading := midnightReading data;
     midnight_timestamp := midnightTimestamp data;
     current_reading := currentReading data;
     current_timestamp := currentTimestamp data;
     calculated_consumption := calculatedConsumption data;
     is_complete := isComplete data;
     has_monitoring_gaps := hasMonitoringGaps data;
     confidence_score := confidenceScore data;
     notes := Some (recordCount (coverage data)) |}.

(** What a call hands back to a caller that only looks at a returned
    value. *)
Definition returned_value {A} (o : Outcome (option A)) : option A :=
  match o with
  | Returned r => r
  | Threw _ => None
  end.

Definition is_anchor_select (op : StoreOp) : bool :=
  match op with
  | SelectMidnight _ => true
  | _ => false
  end.

Definition is_upsert (op : StoreOp) : bool :=
  match op with
  | UpsertDaily _ => true
  | _ => false
  end.

(** The [n] calendar dates that start [i] days before today, oldest first. *)
Definition days_from (now i : Z) (n : nat) : list Z :=
  map (λ k, getTodayDate now - i + Z.of_nat k) (seq 0 n).

(** The last [days] calendar dates, oldest first, today being the last. *)
Definition last_days (now days : Z) : list Z :=
  days_from now (days - 1) (Z.to_nat days).

(** The loop variable along [n] turns of a batch that start at [i]. *)
Definition turns_from (i : Z) (n : nat) : list Z :=
  map (λ k, i - Z.of_nat k) (seq 0 n).

(** The turns of [backfillDailyConsumptions(days)]: [days - 1] down to 0. *)
Definition turns (days : Z) : list Z :=
  turns_from (days - 1) (Z.to_nat days).

(** The date turn [i] of a batch computes. *)
Definition turn_date (clock : Z → Tick) (i : Z) : Z :=
  toDateStr (at_date (clock i) - i * 24 * 60 * 60 * 1000).

(** What turn [i] of a batch gets from its computation on the store [st]. *)
Definition turn_result (fails : Z → Faults) (clock : Z → Tick) (st : Store) (i : Z)
    : option DailyResult :=
  returned_value
    (fst (calculateDailyConsumption (fails i) (at_test (clock i))
            (Some (turn_date clock i)) st)).

(** Every reading of the clock during a batch of [days] turns falls on the
    calendar day of [now]. *)
Definition same_day (now : Z) (clock : Z → Tick) (days : Z) : Prop :=
  ∀ i, 0 ≤ i < days →
       getTodayDate (at_date (clock i)) = getTodayDate now
       ∧ getTodayDate (at_test (clock i)) = getTodayDate now.

(** The clock that shows [now] at every reading. *)
Definition steady (now : Z) : Z → Tick := λ _, mkTick now now.

(** A confidence as the data model has it: absent, or within [[0, 1]]. *)
Definition unit_confidence (c : option Q) : Prop :=
  ∀ q, c = Some q → (0 <= q <= 1)%Q.

(** [c ?? d]: only an absent value takes the default. *)
Definition nullish_default (c : option Q) (d : Q) : Q :=
  match c with
  | Some q => q
  | None => d
  end.

(** The confidence formula with the nullish default. *)
Definition nullish_score (m c : MeterReading) (gaps : bool) : Q :=
  (Qmin (nullish_default (mr_confidence m) 0.8) (nullish_default (mr_confidence c) 0.8)
   * (if gaps then 0.7 else 1.0))%Q.

(** ** Sample stores *)

Definition meter_row (t : Z) (v : Q) (c : option Q) : Row :=
  {| timestamp := t; category := meter_reading; source := grid; status := None;
     consumption_value := Some v; consumption_unit := Some "KWH"; period := None;
     confidence := c; metadata := MetaContext; fingerprint := None |}.

Definition store_of (rows : list Row) : Store :=
  {| power_data := rows; daily_consumption := ∅; journal := [] |}.

Definition HOUR_MS : Z := 60 * 60 * 1000.
Definition MINUTE_MS : Z := 60 * 1000.

(** Day 0 has readings at 00:01 (100) and 23:58 (105); the next reading is
    taken on day 5 at 10:00 (200). *)
Definition two_day_rows : list Row :=
  [meter_row (1 * MINUTE_MS) 100 (Some 1%Q);
   meter_row (23 * HOUR_MS + 58 * MINUTE_MS) 105 (Some 1%Q);
   meter_row (5 * DAY_MS + 10 * HOUR_MS) 200 (Some 1%Q)].

(** Noon of day 5. *)
Definition noon_day5 : Z := 5 * DAY_MS + 12 * HOUR_MS.

(** The clock of a batch of two turns that straddles the midnight between
    day 5 and day 6: the first turn ([i = 1]) reads it a millisecond before
    that midnight, the second ([i = 0]) a millisecond after. *)
Definition across_midnight (i : Z) : Tick :=
  if i =? 1 then mkTick (6 * DAY_MS - 1) (6 * DAY_MS - 1)
  else mkTick (6 * DAY_MS + 1) (6 * DAY_MS + 1).

(** Day 0: anchor 100 at 00:01, then 95 at 10:00. *)
Definition falling_rows : list Row :=
  [meter_row (1 * MINUTE_MS) 100 (Some 1%Q); meter_row (10 * HOUR_MS) 95 (Some 1%Q)].

(** Day 0 sampled every two hours from 00:01 on, twelve readings from 100
    to 111. *)
Definition two_hourly_rows : list Row :=
  map (λ k, meter_row (1 * MINUTE_MS + Z.of_nat k * 2 * HOUR_MS)
              (inject_Z (100 + Z.of_nat k)) (Some 1%Q))
      (seq 0 12).

(** One reading whose confidence is [c]. *)
Definition single_row (c : option Q) : list Row :=
  [meter_row (1 * MINUTE_MS) 100 c].

(** Day 0: anchor 100 at 00:01, then 105 at 10:00. *)
Definition rising_rows : list Row :=
  [meter_row (1 * MINUTE_MS) 100 (Some 1%Q); meter_row (10 * HOUR_MS) 105 (Some 1%Q)].

(** The ledger after the upserts of a list of results, in order. *)
Definition upsert_all (results : list DailyResult) (ledger : gmap Z DailyRow)
    : gmap Z DailyRow :=
  foldl (λ l r, <[date r := row_of r]> l) ledger results.

(** ** Status readings *)

(** A grid availability datum as [extractPowerData] builds it: stamped, with
    its fingerprint generated from the datum and the stamp. *)
Definition grid_status_reading (t : Z) (s : string) : Reading :=
  let data := {| data_timestamp := t; data_category := availability;
                 data_source := grid; data_status := Some s; data_value := None;
                 data_unit := None; data_period := None; data_confidence := None;
                 data_fingerprint := None |} in
  {| data_timestamp := t; data_category := availability; data_source := grid;
     data_status := Some s; data_value := None; data_unit := None;
     data_period := None; data_confidence := Some 1%Q;
     data_fingerprint := Some (generateFingerprint data t) |}.

(** An event row of one of the two named transitions. *)
Definition canonical_event (r : Row) : Prop :=
  (status r = Some "interruption"
   ∧ ∃ t, metadata r = MetaEvent (Some "online") (Some "offline") "interruption" t)
  ∨ (status r = Some "restoration"
     ∧ ∃ t, metadata r = MetaEvent (Some "offline") (Some "online") "restoration" t).

(** A table that holds no grid availability row and no fingerprint of an
    availability or event key. *)
Definition no_status_history (rows : list Row) : Prop :=
  List.filter grid_availability rows = []
  ∧ ∀ f, fp_category f = availability ∨ fp_category f = event →
         fingerprint_taken (Some f) rows = false.

(** The fingerprint of the event [eventType] detected at [currentTime]. *)
Definition event_fingerprint (eventType : string) (currentTime : Z) : Fingerprint :=
  mkFingerprint event grid (PStatus eventType) (minute_of currentTime).

(** The table holds one grid availability row, of status [unknown]. *)
Definition unknown_rows : list Row :=
  [data_row (grid_status_reading (1 * MINUTE_MS) "unknown")].

(** ** The table after the tracker and after one [saveData] turn *)

Definition is_grid_availability (data : Reading) : bool :=
  bool_decide (data_category data = availability) && bool_decide (data_source data = grid).

(** [power_data] after [trackGridStatusChange]
    (see [trackGridStatusChange_rows]). *)
Definition track_rows (fails : Faults) (currentData : Reading) (rows : list Row) : list Row :=
  if fails SelectLastStatus then rows
  else match last_status_query rows with
  | None => rows
  | Some lastStatus =>
    if bool_decide (status lastStatus = data_status currentData) then rows
    else match classify (status lastStatus) (data_status currentData) with
    | None => rows
    | Some eventType =>
      if fails InsertEvent
         || fingerprint_taken
              (Some (event_fingerprint eventType (data_timestamp currentData))) rows
      then rows
      else rows ++ [event_row (status lastStatus) (data_status currentData) eventType
                      (data_timestamp currentData)]
    end
  end.

(** [power_data] after one turn of the [saveData] loop
    (see [saveData_step_rows]). *)
Definition step_rows (fails : Faults) (data : Reading) (rows : list Row) : list Row :=
  let rows1 := if is_grid_availability data then track_rows fails data rows else rows in
  if fails InsertData || fingerprint_taken (data_fingerprint data) rows1
  then rows1
  else rows1 ++ [data_row data].

(** [power_data] after the turns for [dataArray], the first being turn [k]
    (see [saveData_loop_rows]). *)
Fixpoint loop_rows (fails : nat → Faults) (k : nat) (dataArray : list Reading)
    (rows : list Row) : list Row :=
  match dataArray with
  | [] => rows
  | data :: rest => loop_rows fails (S k) rest (step_rows (fails k) data rows)
  end.

(** The table holds one grid availability row, of status [online]. *)
Definition online_rows : list Row :=
  [data_row (grid_status_reading 0 "online")].

From Stdlib Require Import Sorted.
From stdpp Require Import sorting.

#[local] Open Scope Z_scope.

(** * Further definitions: meter, ledger and batch predicates *)

(** A cumulative meter: among the grid meter readings with a value, a later
    stamp never carries a smaller value. *)
Definition monotone_meter (rows : list Row) : Prop :=
  ∀ r r' v v',
    In r rows → In r' rows →
    category r = meter_reading → source r = grid → consumption_value r = Some v →
    category r' = meter_reading → source r' = grid → consumption_value r' = Some v' →
    timestamp r ≤ timestamp r' → (v <= v')%Q.

(** Every row of the ledger records a consumption that is not negative. *)
Definition ledger_nonneg (ledger : gmap Z DailyRow) : Prop :=
  ∀ d row, ledger !! d = Some row → (0 <= calculated_consumption row)%Q.

(** The record [getTodayConsumption] builds from a result. *)
Definition today_of (result : DailyResult) : TodayConsumption :=
  {| tc_value := calculatedConsumption result;
     tc_timestamp := currentTimestamp result;
     tc_confidence := confidenceScore result;
     tc_isRealTimeCalculated := true;
     tc_midnightReading := midnightReading result;
     tc_currentReading := currentReading result;
     tc_hasGaps := hasMonitoringGaps result |}.

(** * Further definitions: validation and confidence of scraped data *)

(** A datum as the page scan of [extractPowerData] pushes it, before it is
    stamped: [context] is the text it was read from, [metadata_day] the
    [metadata.day] of a daily figure. *)
Record Scraped := mkScraped {
  raw_category : Category;
  raw_source : Source;
  raw_status : option string;
  raw_value : option Q;
  raw_unit : option string;
  raw_period : option string;
  raw_context : option string;
  raw_metadata_day : option Z
}.

(** [s.includes(sub)] *)
Definition includes (s sub : string) : bool :=
  match String.index 0 sub s with
  | Some _ => true
  | None => false
  end.

(** [data.context && data.context.includes(sub)] *)
Definition context_includes (context : option string) (sub : string) : bool :=
  match context with
  | Some s => negb (bool_decide (s = "")) && includes s sub
  | None => false
  end.

(** [if (b) confidence += k] *)
Definition add_if (b : bool) (k : Q) (confidence : Q) : Q :=
  if b then (confidence + k)%Q else confidence.

(** Comparisons of a possibly absent number with a constant: [undefined]
    compares false with everything. *)
Definition num_gt (v : option Q) (k : Q) : bool :=
  match v with Some q => Qltb k q | None => false end.
Definition num_lt (v : option Q) (k : Q) : bool :=
  match v with Some q => Qltb q k | None => false end.
Definition num_ge (v : option Q) (k : Q) : bool :=
  match v with Some q => Qle_bool k q | None => false end.
Definition num_le (v : option Q) (k : Q) : bool :=
  match v with Some q => Qle_bool q k | None => false end.

(** [x === 'text'] for a possibly absent string. *)
Definition str_is (x : option string) (text : string) : bool :=
  bool_decide (x = Some text).

(** [data.metadata?.day], as a condition. *)
Definition has_day (day : option Z) : bool :=
  match day with Some d => negb (d =? 0) | None => false end.

(** [calculateConfidence(data)].  The category tests of the source exclude
    one another; availability returns early. *)
Definition calculateConfidence (data : Scraped) : Q :=
  let confidence := 0.5%Q in
  let period := raw_period data in
  let unit := raw_unit data in
  let value := raw_value data in
  let context := raw_context data in
  match raw_category data with
  | availability =>
      let confidence := add_if (negb (str_is (raw_status data) "unknown")) 0.3 confidence in
      let confidence := add_if (context_includes context "LED") 0.2 confidence in
      Math_min confidence 1.0
  | consumption =>
      let confidence := add_if (str_is period "current_month" && str_is unit "KWH") 0.5 confidence in
      let confidence := add_if (str_is period "previous_month" && str_is unit "KWH") 0.5 confidence in
      let confidence := add_if (str_is period "today" && str_is unit "UNITS") 0.5 confidence in
      let confidence := add_if (str_is period "monthly_total" && str_is unit "KWH") 0.4 confidence in
      let confidence := add_if (str_is period "current_month" && str_is unit "UNITS") 0.4 confidence in
      let confidence := add_if (str_is period "daily" && has_day (raw_metadata_day data)) 0.3 confidence in
      let confidence := add_if (str_is period "previous_month" && str_is unit "UNITS") 0.3 confidence in
      let confidence := add_if (num_gt value 0) 0.1 confidence in
      let confidence := add_if (num_gt value 1) 0.1 confidence in
      let confidence := add_if (num_lt value 10000) 0.1 confidence in
      let confidence := add_if (context_includes context "Grid") 0.1 confidence in
      let confidence := add_if (context_includes context "Consumption") 0.1 confidence in
      let confidence := add_if (context_includes context "Month") 0.1 confidence in
      let confidence := add_if (context_includes context "Day") 0.1 confidence in
      let confidence := add_if (context_includes context "Today") 0.1 confidence in
      Math_min confidence 1.0
  | meter_reading =>
      let confidence := (confidence + 0.4)%Q in
      let confidence := add_if (context_includes context "Reading") 0.2 confidence in
      let confidence := add_if (num_gt value 1000) 0.1 confidence in
      Math_min confidence 1.0
  | balance =>
      let confidence := (confidence + 0.4)%Q in
      let confidence := add_if (context_includes context "Balance") 0.2 confidence in
      let confidence := add_if (str_is unit "INR") 0.1 confidence in
      Math_min confidence 1.0
  | event => Math_min confidence 1.0
  end.

(** [!data.value]: absent or zero. *)
Definition falsy_number (v : option Q) : bool :=
  match v with Some q => Qeq_bool q 0 | None => true end.

(** [isValidData(data)] *)
Definition isValidData (data : Reading) : bool :=
  let value := data_value data in
  let unit := data_unit data in
  match data_category data with
  | availability =>
      str_is (data_status data) "online" || str_is (data_status data) "offline"
      || str_is (data_status data) "unknown"
  | consumption =>
      if falsy_number value || num_le value 0 then false
      else if str_is (data_period data) "current_month"
      then num_ge value 10 && num_le value 1000 && (str_is unit "KWH" || str_is unit "UNITS")
      else if str_is (data_period data) "previous_month"
      then num_ge value 10 && num_le value 1000 && (str_is unit "KWH" || str_is unit "UNITS")
      else if str_is (data_period data) "today"
      then num_ge value 0 && num_le value 50 && str_is unit "UNITS"
      else if str_is (data_period data) "monthly_total"
      then num_ge value 10 && num_le value 5000 && str_is unit "KWH"
      else if str_is (data_period data) "daily"
      then num_ge value 0 && num_le value 100 && str_is unit "UNITS"
      else if str_is (data_period data) "detected"
      then num_ge value 0.1 && num_le value 50 && str_is unit "UNITS"
      else num_ge value 0.1 && num_le value 1000
  | meter_reading => num_ge value 0 && num_le value 100000 && str_is unit "KWH"
  | balance => num_ge value (-10000) && num_le value 50000 && str_is unit "INR"
  | event => true
  end.

(** The object [{...data, timestamp, confidence, fingerprint}] built at the
    end of [extractPowerData]. *)
Definition stamp (timestamp : Z) (data : Scraped) : Reading :=
  let bare := {| data_timestamp := timestamp; data_category := raw_category data;
                 data_source := raw_source data; data_status := raw_status data;
                 data_value := raw_value data; data_unit := raw_unit data;
                 data_period := raw_period data; data_confidence := None;
                 data_fingerprint := None |} in
  {| data_timestamp := timestamp; data_category := raw_category data;
     data_source := raw_source data; data_status := raw_status data;
     data_value := raw_value data; data_unit := raw_unit data;
     data_period := raw_period data;
     data_confidence := Some (calculateConfidence data);
     data_fingerprint := Some (generateFingerprint bare timestamp) |}.

(** The tail of [extractPowerData]: [powerData.map(...).filter(isValidData)]. *)
Definition processPowerData (timestamp : Z) (powerData : list Scraped) : list Reading :=
  List.filter isValidData (map (stamp timestamp) powerData).

(** Every meter-reading row carries a confidence between 0.9 and 1. *)
Definition confident_meter_rows (rows : list Row) : Prop :=
  ∀ r, In r rows → category r = meter_reading →
       ∃ q, confidence r = Some q ∧ (0.9 <= q <= 1)%Q.

(** A grid meter datum read off the page text. *)
Definition scraped_reading (v : Q) : Scraped :=
  {| raw_category := meter_reading; raw_source := grid; raw_status := None;
     raw_value := Some v; raw_unit := Some "KWH"; raw_period := Some "cumulative";
     raw_context := Some "Grid Reading: 14,591.00 KWH"; raw_metadata_day := None |}.

(** A grid LED datum. *)
Definition scraped_status (s : string) : Scraped :=
  {| raw_category := availability; raw_source := grid; raw_status := Some s;
     raw_value := None; raw_unit := None; raw_period := None;
     raw_context := Some "LED: Grid, Source: green.png"; raw_metadata_day := None |}.

(** * Further definitions: the counters of [saveData] and the stored rows *)

(** The counters [(saved, duplicates)] after one turn of the [saveData] loop
    (see [saveData_step_counters]). *)
Definition step_counters (fails : Faults) (data : Reading) (rows : list Row)
    (counters : Z * Z) : Z * Z :=
  let rows1 := if is_grid_availability data then track_rows fails data rows else rows in
  if fails InsertData then counters
  else if fingerprint_taken (data_fingerprint data) rows1
  then (fst counters, snd counters + 1)
  else (fst counters + 1, snd counters).

(** The counters after the turns for [dataArray], the first being turn [k]. *)
Fixpoint loop_counters (fails : nat → Faults) (k : nat) (dataArray : list Reading)
    (rows : list Row) (counters : Z * Z) : Z * Z :=
  match dataArray with
  | [] => counters
  | data :: rest =>
      loop_counters fails (S k) rest (step_rows (fails k) data rows)
        (step_counters (fails k) data rows counters)
  end.

(** The rows of a table that are not events. *)
Definition non_events (rows : list Row) : list Row :=
  List.filter (λ r, negb (bool_decide (category r = event))) rows.

(** No row repeats a fingerprint of a row stored before it. *)
Definition unique_fingerprints (rows : list Row) : Prop :=
  ∀ l1 r l2, rows = l1 ++ r :: l2 → fingerprint_taken (fingerprint r) l1 = false.

(** * Further definitions: the read accessors

    The two accessors below are embedded as the value their promise is
    fulfilled with, as a function of the table they read.  Each awaits an
    [initDatabase] first and rejects when its statement is rejected; that
    part is not repeated here. *)

(** [ORDER BY key ASC]: rows of equal key stay in the order they were
    stored. *)
Fixpoint insert_by {A} (key : A → Z) (x : A) (l : list A) : list A :=
  match l with
  | [] => [x]
  | y :: l' => if key x <=? key y then x :: y :: l' else y :: insert_by key x l'
  end.

Definition order_by {A} (key : A → Z) (rows : list A) : list A :=
  foldr (insert_by key) [] rows.

(** The rows of the ledger as [SELECT * FROM daily_consumption] sees them. *)
Definition ledger_rows (ledger : gmap Z DailyRow) : list (Z * DailyRow) :=
  map_to_list ledger.

(** [getDailyConsumptions(startDate = null, endDate = null)]: the defaults
    are seven days ago and today; the statement is
    [WHERE date >= ? AND date <= ? ORDER BY date DESC]. *)
Definition getDailyConsumptions (now : Z) (startDate endDate : option Z)
    (ledger : gmap Z DailyRow) : list (Z * DailyRow) :=
  let startDate := default (toDateStr (now - 7 * 24 * 60 * 60 * 1000)) startDate in
  let endDate := default (getTodayDate now) endDate in
  order_by (λ row, - fst row)
    (List.filter (λ row, (startDate <=? fst row) && (fst row <=? endDate))
       (ledger_rows ledger)).

(** An element of [allEvents]: [{timestamp, type: row.status, details}]. *)
Record GridEvent := mkGridEvent {
  ev_timestamp : Z;
  ev_type : option string;
  ev_details : Metadata
}.

Record GridEvents := mkGridEvents {
  lastInterruption : option Z;
  lastRestoration : option Z;
  allEvents : list GridEvent
}.

(** [WHERE category = 'event' AND source = 'grid'
     AND status IN ('interruption', 'restoration')] *)
Definition grid_event_row (r : Row) : bool :=
  bool_decide (category r = event) && bool_decide (source r = grid)
  && (bool_decide (status r = Some "interruption")
      || bool_decide (status r = Some "restoration")).

(** [getGridEvents()]: the ten latest grid events, latest first, and among
    them the first interruption and the first restoration. *)
Definition getGridEvents (rows : list Row) : GridEvents :=
  let selected :=
    firstn 10 (order_by (λ r, - timestamp r) (List.filter grid_event_row rows)) in
  let events :=
    map (λ row, {| ev_timestamp := timestamp row; ev_type := status row;
                   ev_details := metadata row |}) selected in
  let lastInterruption :=
    List.find (λ e, bool_decide (ev_type e = Some "interruption")) events in
  let lastRestoration :=
    List.find (λ e, bool_decide (ev_type e = Some "restoration")) events in
  {| lastInterruption := ev_timestamp <$> lastInterruption;
     lastRestoration := ev_timestamp <$> lastRestoration;
     allEvents := events |}.

(** The event made of a row, and the rows of the statement before its
    [LIMIT]. *)
Definition event_of (row : Row) : GridEvent :=
  {| ev_timestamp := timestamp row; ev_type := status row; ev_details := metadata row |}.

Definition latest_grid_events (rows : list Row) : list Row :=
  order_by (λ r, - timestamp r) (List.filter grid_event_row rows).


(** * Facts about the embedding *)

(** ** ORDER BY ... LIMIT 1 *)

Section OrderByLimit1.
Context {A : Type} (key : A → Z).

Lemma order_by_limit1_None (rows : list A) :
  order_by_limit1 key rows = None ↔ rows = [].
Proof.
  destruct rows as [|r rest]; simpl; [done|].
  split; [|done].
  destruct (order_by_limit1 key rest); [|done].
  by destruct (key r <=? key a).
Qed.

Lemma order_by_limit1_Some (rows : list A) (x : A) :
  order_by_limit1 key rows = Some x →
  In x rows ∧ ∀ y, In y rows → key x ≤ key y.
Proof.
  revert x. induction rows as [|r rest IH]; intros x; simpl; [done|].
  destruct (order_by_limit1 key rest) as [b|] eqn:Hrest.
  - destruct (IH b eq_refl) as [Hin Hmin].
    destruct (Z.leb_spec (key r) (key b)); intros [= <-].
    + split; [by left|]. intros y [<-|Hy]; [lia|]. specialize (Hmin y Hy). lia.
    + split; [by right|]. intros y [<-|Hy]; [lia|]. by apply Hmin.
  - apply order_by_limit1_None in Hrest as ->. intros [= <-].
    split; [by left|]. intros y [<-|[]]. lia.
Qed.

Lemma order_by_limit1_is_Some (rows : list A) :
  rows ≠ [] → ∃ x, order_by_limit1 key rows = Some x.
Proof.
  intros Hne. destruct (order_by_limit1 key rows) as [x|] eqn:E; [eauto|].
  by apply order_by_limit1_None in E.
Qed.
End OrderByLimit1.

(** ** Dates *)

Lemma DAY_MS_eq : DAY_MS = 86400000.
Proof. reflexivity. Qed.

Lemma toDateStr_dateGetTime (d : Z) : toDateStr (dateGetTime d) = d.
Proof. unfold toDateStr, dateGetTime. apply Z.div_mul. by rewrite DAY_MS_eq. Qed.

Lemma nextMidnightOf_succ (d : Z) : nextMidnightOf d = getMidnightTimestamp (d + 1).
Proof.
  unfold nextMidnightOf, getMidnightTimestamp, toDateStr, dateGetTime.
  f_equal. rewrite DAY_MS_eq.
  replace (d * 86400000 + 24 * 60 * 60 * 1000) with ((d + 1) * 86400000) by lia.
  by apply Z.div_mul.
Qed.

Lemma toDateStr_days_ago (now i : Z) :
  toDateStr (now - i * 24 * 60 * 60 * 1000) = getTodayDate now - i.
Proof.
  unfold getTodayDate, toDateStr. rewrite DAY_MS_eq.
  replace (now - i * 24 * 60 * 60 * 1000) with (now + (- i) * 86400000) by lia.
  rewrite Z.div_add by lia. lia.
Qed.

(** ** Rows selected by the meter-reading queries *)

Lemma grid_meter_reading_Some (r : Row) (m : MeterReading) :
  grid_meter_reading r = Some m ↔
  category r = meter_reading ∧ source r = grid ∧ projects_to r m.
Proof.
  unfold grid_meter_reading, projects_to.
  destruct (bool_decide_reflect (category r = meter_reading)) as [Hc|Hc]; simpl.
  2: { split; [done|]. by intros [? _]. }
  destruct (bool_decide_reflect (source r = grid)) as [Hs|Hs]; simpl.
  2: { split; [done|]. by intros (_ & ? & _). }
  destruct (consumption_value r) as [v|]; simpl.
  - split.
    + by intros [= <-].
    + intros (_ & _ & [= ->] & Ht & Hq). destruct m; simpl in *. by subst.
  - split; [done|]. by intros (_ & _ & ? & _).
Qed.

Lemma in_readings_of_day (d : Z) (rows : list Row) (m : MeterReading) :
  In m (readings_of_day d rows) ↔
  ∃ r, In r rows ∧ anchor_candidate d r ∧ projects_to r m.
Proof.
  unfold readings_of_day. rewrite filter_In, <- list_elem_of_In, list_elem_of_omap.
  unfold in_window. rewrite andb_true_iff, Z.leb_le, Z.ltb_lt, nextMidnightOf_succ.
  setoid_rewrite grid_meter_reading_Some. setoid_rewrite list_elem_of_In.
  unfold anchor_candidate, projects_to. split.
  - intros [(r & Hin & Hc & Hs & Hv & Ht & Hq) Hw].
    exists r. rewrite Hv, Ht. eauto 10.
  - intros (r & Hin & (Hc & Hs & _ & Hw) & Hv & Ht & Hq).
    rewrite <- Ht. eauto 10.
Qed.

(** ** Running the calculator *)

Ltac unfold_calculator :=
  unfold calculateDailyConsumption, initDatabase, getMidnightMeterReading,
    getLatestMeterReading, checkMonitoringCoverage, saveDailyConsumption,
    try_catch, sqlite, sqlite_resolve, throw, mbind, M_bind, mret, M_ret.

(** The control flow of one [calculateDailyConsumption] call, statement by
    statement. *)
Lemma calculateDailyConsumption_run (fails : Faults) (now : Z) (dateStr : option Z)
    (st : Store) :
  let d := default (getTodayDate now) dateStr in
  let rows := power_data st in
  calculateDailyConsumption fails now dateStr st =
  if fails CreateDailyTable
  then (Threw (SqliteError CreateDailyTable), journalled [CreateDailyTable] st)
  else
  let init := [CreateDailyTable; CreateDailyIndex] in
  if fails (SelectMidnight d)
  then (Returned None, journalled (init ++ [SelectMidnight d]) st)
  else match midnight_query d rows with
  | None => (Returned None, journalled (init ++ [SelectMidnight d]) st)
  | Some m =>
    if fails SelectLatest
    then (Returned None, journalled (init ++ [SelectMidnight d; SelectLatest]) st)
    else match latest_query rows with
    | None => (Returned None, journalled (init ++ [SelectMidnight d; SelectLatest]) st)
    | Some c =>
      let ops := init ++ [SelectMidnight d; SelectLatest; SelectCoverage d] in
      if fails (SelectCoverage d) then (Returned None, journalled ops st)
      else if Qltb (mr_consumption_value c - mr_consumption_value m) 0
      then (Returned None, journalled ops st)
      else if fails (UpsertDaily d)
      then (Returned None, journalled (ops ++ [UpsertDaily d]) st)
      else
        let result := result_of now d m c (coverage_query d rows) in
        (Returned (Some result),
         mkStore rows (<[d := row_of result]> (daily_consumption st))
           (journal st ++ ops ++ [UpsertDaily d]))
    end
  end.
Proof.
  intros d rows. unfold_calculator. fold d. unfold journalled. simpl. fold rows.
  destruct (fails CreateDailyTable); [done|]. simpl.
  destruct (fails (SelectMidnight d)); simpl; [by rewrite <- !app_assoc|].
  destruct (midnight_query d rows) as [m|]; simpl; [|by rewrite <- !app_assoc].
  destruct (fails SelectLatest); simpl; [by rewrite <- !app_assoc|].
  destruct (latest_query rows) as [c|]; simpl; [|by rewrite <- !app_assoc].
  destruct (fails (SelectCoverage d)); simpl; [by rewrite <- !app_assoc|].
  destruct (Qltb _ 0); simpl; [by rewrite <- !app_assoc|].
  destruct (fails (UpsertDaily d)); simpl; by rewrite <- !app_assoc.
Qed.

Lemma Qltb_lt (x y : Q) : Qltb x y = true ↔ (x < y)%Q.
Proof.
  unfold Qltb. rewrite negb_true_iff. split.
  - intros H. apply Qnot_le_lt. intros Hle. apply Qle_bool_iff in Hle. congruence.
  - intros H. destruct (Qle_bool y x) eqn:E; [|done].
    apply Qle_bool_iff in E. by apply Qlt_not_le in H.
Qed.

(** ** The midnight anchor *)

(** C2: the anchor query returns a candidate row of the day (grid meter
    reading, value present, stamped in [[midnight(d), midnight(d+1))]) whose
    distance to midnight(d) is least among all candidates, and it returns
    nothing exactly when the day has no candidate. *)
Theorem getMidnightMeterReading_closest (fails : Faults) (d : Z) (st : Store) :
  fails (SelectMidnight d) = false →
  ∃ res, fst (getMidnightMeterReading fails d st) = Returned res
    ∧ (res = None ↔ ∀ r, In r (power_data st) → ¬ anchor_candidate d r)
    ∧ (∀ m, res = Some m →
         ∃ r, In r (power_data st) ∧ anchor_candidate d r ∧ projects_to r m
           ∧ ∀ r', In r' (power_data st) → anchor_candidate d r' →
               Z.abs (timestamp r - getMidnightTimestamp d)
               ≤ Z.abs (timestamp r' - getMidnightTimestamp d)).
Proof.
  intros Hok. exists (midnight_query d (power_data st)).
  split; [by unfold getMidnightMeterReading, sqlite; rewrite Hok|].
  assert (Hcand : ∀ r, In r (power_data st) → anchor_candidate d r →
            ∃ m, In m (readings_of_day d (power_data st)) ∧ projects_to r m).
  { intros r Hin Hc. destruct Hc as (Hcat & Hsrc & [v Hv] & Hw).
    exists (mkMeterReading v (timestamp r) (confidence r)).
    split; [|done]. apply in_readings_of_day. exists r. repeat split; eauto; apply Hw. }
  unfold midnight_query. split; [split|].
  - intros Hnone r Hin Hc. apply order_by_limit1_None in Hnone.
    destruct (Hcand r Hin Hc) as (m & Hm & _). rewrite Hnone in Hm. destruct Hm.
  - intros Hnone. apply order_by_limit1_None.
    destruct (readings_of_day d (power_data st)) as [|m l] eqn:E; [done|].
    assert (Hm : In m (readings_of_day d (power_data st))) by (rewrite E; by left).
    apply in_readings_of_day in Hm as (r & Hin & Hc & _). by destruct (Hnone r Hin Hc).
  - intros m Hsome. apply order_by_limit1_Some in Hsome as [Hin Hmin].
    apply in_readings_of_day in Hin as (r & Hin & Hc & Hp).
    exists r. repeat split; try done; try apply Hc; try apply Hp.
    intros r' Hin' Hc'. destruct (Hcand r' Hin' Hc') as (m' & Hm' & Hp').
    specialize (Hmin m' Hm'). simpl in Hmin.
    destruct Hp as (_ & -> & _), Hp' as (_ & -> & _). exact Hmin.
Qed.

Lemma getMidnightMeterReading_closest_witness :
  ∃ res, fst (getMidnightMeterReading no_faults 0 (store_of two_day_rows)) = Returned res
    ∧ (res = None ↔ ∀ r, In r two_day_rows → ¬ anchor_candidate 0 r)
    ∧ (∀ m, res = Some m →
         ∃ r, In r two_day_rows ∧ anchor_candidate 0 r ∧ projects_to r m
           ∧ ∀ r', In r' two_day_rows → anchor_candidate 0 r' →
               Z.abs (timestamp r - getMidnightTimestamp 0)
               ≤ Z.abs (timestamp r' - getMidnightTimestamp 0)).
Proof.
  apply (getMidnightMeterReading_closest no_faults 0 (store_of two_day_rows)).
  reflexivity.
Defined.

(** What a successful call has computed. *)
Lemma calculateDailyConsumption_success (fails : Faults) (now : Z) (dateStr : option Z)
    (st : Store) (r : DailyResult) :
  fst (calculateDailyConsumption fails now dateStr st) = Returned (Some r) →
  let d := default (getTodayDate now) dateStr in
  ∃ m c, midnight_query d (power_data st) = Some m
    ∧ latest_query (power_data st) = Some c
    ∧ Qltb (mr_consumption_value c - mr_consumption_value m) 0 = false
    ∧ r = result_of now d m c (coverage_query d (power_data st)).
Proof.
  rewrite calculateDailyConsumption_run. simpl.
  repeat case_match; simpl; intros [= <-]; eauto 10.
Qed.

(** A day with twelve readings has no gap: consumption 11 at full
    confidence, and the ledger holds the row under the date. *)
Example full_day_without_gaps :
  let run := calculateDailyConsumption no_faults (23 * HOUR_MS) None
               (store_of two_hourly_rows) in
  ∃ r, fst run = Returned (Some r)
    ∧ date r = 0
    ∧ calculatedConsumption r = 11%Q
    ∧ hasMonitoringGaps r = false
    ∧ (confidenceScore r == 1)%Q
    ∧ isComplete r = false
    ∧ daily_consumption (snd run) !! 0 = Some (row_of r).
Proof.
  eexists. split; [vm_compute; reflexivity|]. by vm_compute.
Qed.

(** ** The current reading *)

(** The latest-reading query ranges over the whole table: it returns a grid
    meter reading with a value that no other such reading postdates. *)
Lemma latest_query_most_recent (rows : list Row) (c : MeterReading) :
  latest_query rows = Some c →
  ∃ r, In r rows ∧ category r = meter_reading ∧ source r = grid ∧ projects_to r c
    ∧ ∀ r', In r' rows → category r' = meter_reading → source r' = grid →
        is_Some (consumption_value r') → timestamp r' ≤ timestamp r.
Proof.
  unfold latest_query. intros H. apply order_by_limit1_Some in H as [Hin Hmin].
  apply list_elem_of_In, list_elem_of_omap in Hin as (r & Hr & Hc).
  apply grid_meter_reading_Some in Hc as (Hcat & Hsrc & Hp).
  exists r. split; [by apply list_elem_of_In|]. do 3 (split; [done|]).
  intros r' Hr' Hcat' Hsrc' [v Hv].
  assert (Hm : In (mkMeterReading v (timestamp r') (confidence r'))
                 (omap grid_meter_reading rows)).
  { apply list_elem_of_In, list_elem_of_omap. exists r'.
    split; [by apply list_elem_of_In|]. by apply grid_meter_reading_Some. }
  specialize (Hmin _ Hm). simpl in Hmin. destruct Hp as (_ & -> & _). lia.
Qed.

(** Whatever the date, a successful computation takes its current reading
    from the latest grid meter reading of the whole table. *)
Lemma currentReading_is_latest (fails : Faults) (now : Z) (dateStr : option Z)
    (st : Store) (r : DailyResult) :
  fst (calculateDailyConsumption fails now dateStr st) = Returned (Some r) →
  ∃ c, latest_query (power_data st) = Some c
    ∧ currentReading r = mr_consumption_value c
    ∧ currentTimestamp r = mr_timestamp c.
Proof.
  intros Hrun.
  apply calculateDailyConsumption_success in Hrun as (m & c & _ & Hc & _ & ->).
  by exists c.
Qed.

(** C1: on the store [two_day_rows], computing day 0 at noon of day 5
    succeeds with the reading of day 5 (200, stamped after the next
    midnight of day 0) as current reading, while the last reading taken
    before the next midnight of day 0 is 105 at 23:58. *)
Theorem past_day_uses_latest_overall :
  let run := calculateDailyConsumption no_faults noon_day5 (Some 0) (store_of two_day_rows) in
  (∃ r, fst run = Returned (Some r)
     ∧ currentReading r = 200%Q
     ∧ currentTimestamp r = 5 * DAY_MS + 10 * HOUR_MS
     ∧ getMidnightTimestamp (0 + 1) ≤ currentTimestamp r
     ∧ calculatedConsumption r = 100%Q
     ∧ isComplete r = true)
  ∧ order_by_limit1 (λ m, - mr_timestamp m) (readings_of_day 0 two_day_rows)
    = Some (mkMeterReading 105 (23 * HOUR_MS + 58 * MINUTE_MS) (Some 1%Q)).
Proof.
  split; [|reflexivity].
  eexists. split; [vm_compute; reflexivity|]. by vm_compute.
Qed.

(** ** Negative consumption *)

(** C3: when the fetched current reading is below the fetched anchor, the
    call hands back no result, and the only effect on the store is the
    journalling of statements none of which is the upsert: the ledger is
    left as it was. *)
Theorem negative_consumption_not_persisted (fails : Faults) (now : Z)
    (dateStr : option Z) (st : Store) (m c : MeterReading) :
  let d := default (getTodayDate now) dateStr in
  midnight_query d (power_data st) = Some m →
  latest_query (power_data st) = Some c →
  (mr_consumption_value c - mr_consumption_value m < 0)%Q →
  let run := calculateDailyConsumption fails now dateStr st in
  (∀ r, fst run ≠ Returned (Some r))
  ∧ (fails CreateDailyTable = false → fst run = Returned None)
  ∧ daily_consumption (snd run) = daily_consumption st
  ∧ ∃ ops, snd run = journalled ops st ∧ List.filter is_upsert ops = [].
Proof.
  intros d Hm Hc Hneg run. subst run.
  rewrite calculateDailyConsumption_run. simpl. fold d. rewrite Hm, Hc.
  apply Qltb_lt in Hneg. rewrite Hneg.
  repeat case_match; simpl; repeat split; try done; eauto.
Qed.

Lemma negative_consumption_not_persisted_witness :
  let run := calculateDailyConsumption no_faults (12 * HOUR_MS) None (store_of falling_rows) in
  (∀ r, fst run ≠ Returned (Some r))
  ∧ (no_faults CreateDailyTable = false → fst run = Returned None)
  ∧ daily_consumption (snd run) = ∅
  ∧ ∃ ops, snd run = journalled ops (store_of falling_rows) ∧ List.filter is_upsert ops = [].
Proof.
  apply (negative_consumption_not_persisted no_faults (12 * HOUR_MS) None
           (store_of falling_rows)
           (mkMeterReading 100 (1 * MINUTE_MS) (Some 1%Q))
           (mkMeterReading 95 (10 * HOUR_MS) (Some 1%Q)));
    reflexivity.
Defined.

(** ** The confidence score *)

(** With a stored confidence of exactly 0 the score is 0.8 × 0.7, not the 0
    that the nullish default gives. *)
Lemma zero_confidence_takes_default :
  let run := calculateDailyConsumption no_faults (12 * HOUR_MS) (Some 0)
               (store_of (single_row (Some 0%Q))) in
  ∃ r m c, fst run = Returned (Some r)
    ∧ midnight_query 0 (single_row (Some 0%Q)) = Some m
    ∧ latest_query (single_row (Some 0%Q)) = Some c
    ∧ mr_confidence m = Some 0%Q ∧ mr_confidence c = Some 0%Q
    ∧ (confidenceScore r == 0.56)%Q
    ∧ (nullish_score m c (hasMonitoringGaps r) == 0)%Q
    ∧ ¬ (confidenceScore r == nullish_score m c (hasMonitoringGaps r))%Q.
Proof.
  do 3 eexists. split; [vm_compute; reflexivity|].
  do 2 (split; [vm_compute; reflexivity|]). simpl.
  repeat split; try done.
Qed.

(** C4 (amended): a successful computation scores
    min(a || 0.8, c || 0.8), times 0.7 when the day has gaps, where [a] and
    [c] are the confidences of the anchor and of the current reading and
    [||] replaces an absent and a zero confidence alike. *)
Theorem confidenceScore_formula (fails : Faults) (now : Z) (dateStr : option Z)
    (st : Store) (r : DailyResult) :
  fst (calculateDailyConsumption fails now dateStr st) = Returned (Some r) →
  let d := default (getTodayDate now) dateStr in
  ∃ m c, midnight_query d (power_data st) = Some m
    ∧ latest_query (power_data st) = Some c
    ∧ hasMonitoringGaps r = hasGaps (coverage_query d (power_data st))
    ∧ (confidenceScore r ==
       Qmin (or_default (mr_confidence m) 0.8) (or_default (mr_confidence c) 0.8)
       * (if hasMonitoringGaps r then 0.7 else 1.0))%Q.
Proof.
  intros Hrun d.
  apply calculateDailyConsumption_success in Hrun as (m & c & Hm & Hc & _ & ->).
  exists m, c. do 3 (split; [done|]).
  unfold result_of, score_of, Math_min. cbn [confidenceScore hasMonitoringGaps].
  destruct (hasGaps _); ring.
Qed.

Lemma confidenceScore_formula_witness :
  ∃ m c, midnight_query 0 (single_row (Some 0%Q)) = Some m
    ∧ latest_query (single_row (Some 0%Q)) = Some c
    ∧ true = hasGaps (coverage_query 0 (single_row (Some 0%Q)))
    ∧ (0.8 * 0.7 ==
       Qmin (or_default (mr_confidence m) 0.8) (or_default (mr_confidence c) 0.8) * 0.7)%Q.
Proof.
  apply (confidenceScore_formula no_faults (12 * HOUR_MS) (Some 0)
           (store_of (single_row (Some 0%Q)))
           (result_of (12 * HOUR_MS) 0
              (mkMeterReading 100 (1 * MINUTE_MS) (Some 0%Q))
              (mkMeterReading 100 (1 * MINUTE_MS) (Some 0%Q))
              (coverage_query 0 (single_row (Some 0%Q))))).
  reflexivity.
Defined.

(** Stored confidences are used as they are: 2 gives a score above 1 and
    -1 a score below 0. *)
Lemma confidenceScore_not_clamped :
  (∃ r, fst (calculateDailyConsumption no_faults (12 * HOUR_MS) (Some 0)
               (store_of (single_row (Some 2%Q)))) = Returned (Some r)
     ∧ (confidenceScore r == 1.4)%Q ∧ ¬ (0 <= confidenceScore r <= 1)%Q)
  ∧ (∃ r, fst (calculateDailyConsumption no_faults (12 * HOUR_MS) (Some 0)
                 (store_of (single_row (Some (-1)%Q)))) = Returned (Some r)
       ∧ (confidenceScore r == -0.7)%Q ∧ ¬ (0 <= confidenceScore r <= 1)%Q).
Proof.
  split; eexists; (split; [vm_compute; reflexivity|]); simpl;
    (split; [done|]); intros [Hlo Hhi]; revert Hlo Hhi; unfold Qle; simpl; lia.
Qed.

Lemma or_default_unit (c : option Q) :
  unit_confidence c → (0 < or_default c 0.8 <= 1)%Q.
Proof.
  intros Hc. unfold or_default. destruct c as [q|]; [|lra].
  destruct (Hc q eq_refl) as [Hlo Hhi].
  destruct (Qeq_bool q 0) eqn:E; [lra|].
  split; [|done]. apply Qeq_bool_neq in E.
  apply Qle_lt_or_eq in Hlo as [Hlt|Heq]; [done|]. destruct E. by symmetry.
Qed.

(** C5 (amended): when the confidences of the anchor and of the current
    reading are absent or within [[0, 1]], the score of a successful
    computation lies in [[0, 1]]. *)
Theorem confidenceScore_bounded (fails : Faults) (now : Z) (dateStr : option Z)
    (st : Store) (r : DailyResult) :
  fst (calculateDailyConsumption fails now dateStr st) = Returned (Some r) →
  let d := default (getTodayDate now) dateStr in
  (∀ m, midnight_query d (power_data st) = Some m → unit_confidence (mr_confidence m)) →
  (∀ c, latest_query (power_data st) = Some c → unit_confidence (mr_confidence c)) →
  (0 <= confidenceScore r <= 1)%Q.
Proof.
  intros Hrun d Hanchor Hcurrent.
  apply calculateDailyConsumption_success in Hrun as (m & c & Hm & Hc & _ & ->).
  pose proof (or_default_unit _ (Hanchor m Hm)) as Ha.
  pose proof (or_default_unit _ (Hcurrent c Hc)) as Hb.
  unfold result_of, score_of, Math_min. cbn [confidenceScore].
  destruct (Q.min_spec (or_default (mr_confidence m) 0.8)
              (or_default (mr_confidence c) 0.8)) as [[_ Heq]|[_ Heq]];
    destruct (hasGaps _); rewrite Heq; lra.
Qed.

Lemma confidenceScore_bounded_witness :
  (0 <= confidenceScore
          (result_of (12 * HOUR_MS) 0
             (mkMeterReading 100 (1 * MINUTE_MS) (Some 1%Q))
             (mkMeterReading 105 (10 * HOUR_MS) (Some 1%Q))
             (coverage_query 0 rising_rows)) <= 1)%Q.
Proof.
  apply (confidenceScore_bounded no_faults (12 * HOUR_MS) (Some 0) (store_of rising_rows)).
  - reflexivity.
  - intros m [= <-] q [= <-]. split; discriminate.
  - intros c [= <-] q [= <-]. split; discriminate.
Defined.

(** ** Effects of one computation on the store *)

Lemma calculateDailyConsumption_power_data (fails : Faults) (now : Z)
    (dateStr : option Z) (st : Store) :
  power_data (snd (calculateDailyConsumption fails now dateStr st)) = power_data st.
Proof.
  rewrite calculateDailyConsumption_run. simpl. by repeat case_match.
Qed.

(** The outcome is a function of the readings: neither the ledger nor the
    journal is consulted. *)
Lemma calculateDailyConsumption_reads_power_data (fails : Faults) (now : Z)
    (dateStr : option Z) (st1 st2 : Store) :
  power_data st1 = power_data st2 →
  fst (calculateDailyConsumption fails now dateStr st1)
  = fst (calculateDailyConsumption fails now dateStr st2).
Proof.
  intros Heq. rewrite !calculateDailyConsumption_run. simpl. rewrite Heq.
  by repeat case_match.
Qed.

Lemma calculateDailyConsumption_ledger (fails : Faults) (now : Z)
    (dateStr : option Z) (st : Store) :
  let run := calculateDailyConsumption fails now dateStr st in
  daily_consumption (snd run)
  = match returned_value (fst run) with
    | Some r => <[date r := row_of r]> (daily_consumption st)
    | None => daily_consumption st
    end.
Proof.
  simpl. rewrite calculateDailyConsumption_run. simpl.
  repeat case_match; simpl in *; by simplify_eq.
Qed.

Lemma calculateDailyConsumption_journal (fails : Faults) (now d : Z) (st : Store) :
  fails CreateDailyTable = false →
  let run := calculateDailyConsumption fails now (Some d) st in
  (∃ r, fst run = Returned r)
  ∧ ∃ ops : list StoreOp, journal (snd run) = journal st ++ ops
      ∧ List.filter is_anchor_select ops = [SelectMidnight d].
Proof.
  intros Hinit. simpl. rewrite calculateDailyConsumption_run. simpl. rewrite Hinit.
  repeat case_match; simpl; (split; [eauto|]); eexists; (split; [reflexivity|]); done.
Qed.

(** ** Backfill *)

Lemma days_from_S (now i : Z) (n : nat) :
  days_from now i (S n) = (getTodayDate now - i) :: days_from now (i - 1) n.
Proof.
  unfold days_from. simpl. f_equal; [lia|].
  rewrite <- seq_shift, map_map. apply map_ext. intros k. lia.
Qed.

Lemma omap_pointwise {A B} (f g : A → option B) (l : list A) :
  (∀ x, f x = g x) → omap f l = omap g l.
Proof.
  intros Hfg. induction l as [|x l IH]; csimpl; [done|]. by rewrite Hfg, IH.
Qed.

Lemma omap_cons_eq {A B} (f : A → option B) (x : A) (l : list A) :
  omap f (x :: l) = match f x with Some y => y :: omap f l | None => omap f l end.
Proof. reflexivity. Qed.

Lemma turns_from_S (i : Z) (n : nat) :
  turns_from i (S n) = i :: turns_from (i - 1) n.
Proof.
  unfold turns_from. simpl. f_equal; [lia|].
  rewrite <- seq_shift, map_map. apply map_ext. intros k. lia.
Qed.

Lemma in_turns_from (i : Z) (n : nat) (j : Z) :
  In j (turns_from i n) ↔ i - Z.of_nat n < j ≤ i.
Proof.
  unfold turns_from. rewrite in_map_iff. split.
  - intros (k & <- & Hk). apply in_seq in Hk. lia.
  - intros Hj. exists (Z.to_nat (i - j)). split; [lia|]. apply in_seq. lia.
Qed.

Lemma in_turns (days j : Z) : In j (turns days) ↔ 0 ≤ j < days.
Proof. unfold turns. rewrite in_turns_from. lia. Qed.

Lemma turn_date_days_ago (clock : Z → Tick) (i : Z) :
  turn_date clock i = getTodayDate (at_date (clock i)) - i.
Proof.
  apply toDateStr_days_ago.
Qed.

(** While the clock stays on one calendar day, the turns of a batch compute
    the last [days] dates of that day. *)
Lemma same_day_dates (now : Z) (clock : Z → Tick) (days : Z) :
  same_day now clock days →
  map (turn_date clock) (turns days) = last_days now days.
Proof.
  intros Hday. unfold turns, last_days, turns_from, days_from.
  rewrite map_map. apply map_ext_in. intros k Hk. apply in_seq in Hk.
  rewrite turn_date_days_ago.
  destruct (Hday (days - 1 - Z.of_nat k)) as [-> _]; lia.
Qed.

Lemma backfill_loop_run (fails : Z → Faults) (clock : Z → Tick) (n : nat) :
  ∀ (i : Z) (results : list DailyResult) (st : Store),
  (∀ j, In j (turns_from i n) → fails j CreateDailyTable = false) →
  let found := omap (turn_result fails clock st) (turns_from i n) in
  ∃ ops : list StoreOp,
    backfill_loop fails clock i n results st
    = (Returned (results ++ found),
       mkStore (power_data st) (upsert_all found (daily_consumption st))
         (journal st ++ ops))
    ∧ List.filter is_anchor_select ops
      = map (λ j, SelectMidnight (turn_date clock j)) (turns_from i n).
Proof.
  induction n as [|n IH]; intros i results st Hinit found; subst found.
  - exists []. simpl. rewrite !app_nil_r. by destruct st.
  - rewrite turns_from_S in Hinit |- *. rewrite omap_cons_eq.
    cbn [backfill_loop map].
    change (toDateStr (at_date (clock i) - i * 24 * 60 * 60 * 1000))
      with (turn_date clock i).
    change (turn_result fails clock st i)
      with (returned_value
              (fst (calculateDailyConsumption (fails i) (at_test (clock i))
                      (Some (turn_date clock i)) st))).
    set (d := turn_date clock i) in *. set (now := at_test (clock i)) in *.
    unfold mbind, M_bind.
    destruct (calculateDailyConsumption_journal (fails i) now d st)
      as [[r Hr] (ops & Hj & Hops)]; [apply Hinit; by left|].
    pose proof (calculateDailyConsumption_power_data (fails i) now (Some d) st) as Hp.
    pose proof (calculateDailyConsumption_ledger (fails i) now (Some d) st) as Hl.
    destruct (calculateDailyConsumption (fails i) now (Some d) st) as [o st1] eqn:Hrun.
    simpl in Hr, Hj, Hp, Hl. subst o.
    destruct (IH (i - 1) (match r with Some r0 => results ++ [r0] | None => results end) st1)
      as (ops' & Hloop & Hops'); [intros j Hj'; apply Hinit; by right|].
    exists (ops ++ ops'). split.
    + rewrite Hloop, Hp, Hl, Hj, app_assoc.
      rewrite (omap_pointwise (turn_result fails clock st1) (turn_result fails clock st)).
      2: { intros j. unfold turn_result. f_equal.
           by apply calculateDailyConsumption_reads_power_data. }
      cbn [fst returned_value]. destruct r as [r0|]; [|done].
      by rewrite <- app_assoc.
    + rewrite List.filter_app, Hops, Hops'. done.
Qed.

(** What a batch does, whatever the clock shows: turn [i] computes the date
    that lies [i] days before the clock reading of that turn, and the batch
    returns exactly the results of the turns whose computation succeeds, in
    the order of the turns.  Each turn's result is the one its computation
    gives on the initial store; the ledger receives the upserts of the
    returned results. *)
Lemma backfill_run (fails : Z → Faults) (clock : Z → Tick) (days : Z) (st : Store) :
  (∀ i, 0 ≤ i < days → fails i CreateDailyTable = false) →
  let found := omap (turn_result fails clock st) (turns days) in
  let run := backfillDailyConsumptions fails clock days st in
  fst run = Returned found
  ∧ power_data (snd run) = power_data st
  ∧ daily_consumption (snd run) = upsert_all found (daily_consumption st)
  ∧ ∃ ops : list StoreOp, journal (snd run) = journal st ++ ops
      ∧ List.filter is_anchor_select ops
        = map (λ j, SelectMidnight (turn_date clock j)) (turns days).
Proof.
  intros Hinit found run. subst found run. unfold backfillDailyConsumptions.
  destruct (backfill_loop_run fails clock (Z.to_nat days) (days - 1) [] st)
    as (ops & -> & Hops).
  { intros j Hj. apply Hinit. by apply in_turns. }
  simpl. repeat split; try done. by exists ops.
Qed.

(** C8: a batch of two turns that takes its first turn a millisecond before
    the midnight between day 5 and day 6 and its second a millisecond after
    computes day 4 and day 6.  Day 5, one of the last two calendar dates
    at either reading and a date whose computation succeeds, is never
    computed: the batch returns nothing and leaves the ledger empty. *)
Theorem backfill_skips_day_across_midnight :
  let st := store_of two_day_rows in
  let run := backfillDailyConsumptions (λ _, no_faults) across_midnight 2 st in
  last_days (at_date (across_midnight 1)) 2 = [4; 5]
  ∧ last_days (at_date (across_midnight 0)) 2 = [5; 6]
  ∧ (∃ r, fst (calculateDailyConsumption no_faults (at_test (across_midnight 0))
                 (Some 5) st) = Returned (Some r))
  ∧ fst run = Returned []
  ∧ List.filter is_anchor_select (journal (snd run)) = [SelectMidnight 4; SelectMidnight 6]
  ∧ daily_consumption (snd run) = ∅.
Proof.
  cbv zeta. split; [reflexivity|]. split; [reflexivity|].
  split; [eexists; vm_compute; reflexivity|].
  split; [vm_compute; reflexivity|].
  split; [vm_compute; reflexivity|].
  vm_compute. reflexivity.
Qed.

(** On [two_day_rows], six turns at noon of day 5: days 1 to 4 have no
    anchor and are skipped, days 0 and 5 are returned. *)
Example backfill_two_day_rows :
  last_days noon_day5 6 = [0; 1; 2; 3; 4; 5]
  ∧ ∃ l, fst (backfillDailyConsumptions (λ _, no_faults) (steady noon_day5) 6
                (store_of two_day_rows)) = Returned l
      ∧ map date l = [0; 5].
Proof. split; [reflexivity|]. eexists. split; [vm_compute; reflexivity|reflexivity]. Qed.

(** ** Storage failures *)

(** A rejected anchor query, and a rejected upsert, come back as a normal
    no-result return; nothing is thrown. *)
Lemma storage_failure_absorbed :
  (let run := calculateDailyConsumption is_anchor_select (12 * HOUR_MS) (Some 0)
                (store_of rising_rows) in
   is_anchor_select (SelectMidnight 0) = true
   ∧ In (SelectMidnight 0) (journal (snd run))
   ∧ fst run = Returned None
   ∧ ¬ ∃ e, fst run = Threw e)
  ∧ (let run := calculateDailyConsumption is_upsert (12 * HOUR_MS) (Some 0)
                  (store_of rising_rows) in
     is_upsert (UpsertDaily 0) = true
     ∧ In (UpsertDaily 0) (journal (snd run))
     ∧ fst run = Returned None
     ∧ ¬ ∃ e, fst run = Threw e).
Proof.
  split; simpl; (split; [done|]); (split; [vm_compute; tauto|]);
    (split; [vm_compute; reflexivity|]); intros [e He]; vm_compute in He; discriminate.
Qed.

Lemma backfill_loop_aborts (fails : Z → Faults) (clock : Z → Tick) (i : Z) (n : nat)
    (results : list DailyResult) (st : Store) :
  fails i CreateDailyTable = true →
  backfill_loop fails clock i (S n) results st
  = (Threw (SqliteError CreateDailyTable), journalled [CreateDailyTable] st).
Proof.
  intros Hf. cbn [backfill_loop].
  unfold mbind, M_bind. rewrite calculateDailyConsumption_run. simpl. by rewrite Hf.
Qed.

(** A rejected table creation in any turn of the batch ends the batch. *)
Lemma backfill_loop_throws (fails : Z → Faults) (clock : Z → Tick) (n : nat) :
  ∀ (i : Z) (results : list DailyResult) (st : Store) (j : Z),
  In j (turns_from i n) →
  fails j CreateDailyTable = true →
  ∃ st', backfill_loop fails clock i n results st
         = (Threw (SqliteError CreateDailyTable), st').
Proof.
  induction n as [|n IH]; intros i results st j Hj Hf; [destruct Hj|].
  destruct (fails i CreateDailyTable) eqn:Hfirst.
  { rewrite backfill_loop_aborts by done. eauto. }
  rewrite turns_from_S in Hj. destruct Hj as [<-|Hj]; [congruence|].
  cbn [backfill_loop]. unfold mbind, M_bind.
  destruct (calculateDailyConsumption_journal _ (at_test (clock i))
              (toDateStr (at_date (clock i) - i * 24 * 60 * 60 * 1000)) st Hfirst)
    as [[r Hr] _].
  destruct (calculateDailyConsumption _ _ _ st) as [o st1].
  simpl in Hr. subst o. by apply (IH _ _ _ j).
Qed.

(** C9 (amended): inside one [calculateDailyConsumption] call, a rejected
    read or upsert is caught by the call itself and comes back as no-result,
    the ledger untouched; the call never throws unless the table creation
    of [initDatabase], awaited before the [try], is rejected, and that
    rejection is the one error the caller sees.  Backfill catches nothing
    itself: such a rejection in any of its turns ends the batch, whatever
    the clock shows. *)
Theorem storage_failures_caught_inside_call :
  (∀ (fails : Faults) (now : Z) (dateStr : option Z) (st : Store),
     let d := default (getTodayDate now) dateStr in
     let run := calculateDailyConsumption fails now dateStr st in
     (fails CreateDailyTable = true →
        fst run = Threw (SqliteError CreateDailyTable)
        ∧ daily_consumption (snd run) = daily_consumption st)
     ∧ (fails CreateDailyTable = false →
          (∃ r, fst run = Returned r)
          ∧ (fails (SelectMidnight d) || fails SelectLatest
             || fails (SelectCoverage d) || fails (UpsertDaily d) = true →
             fst run = Returned None
             ∧ daily_consumption (snd run) = daily_consumption st)))
  ∧ (∀ (fails : Z → Faults) (clock : Z → Tick) (days : Z) (st : Store) (i : Z),
       0 ≤ i < days →
       fails i CreateDailyTable = true →
       fst (backfillDailyConsumptions fails clock days st)
       = Threw (SqliteError CreateDailyTable)).
Proof.
  split.
  - intros fails now dateStr st d run. subst run.
    rewrite calculateDailyConsumption_run. simpl. fold d.
    split; intros ->; [done|]. split.
    + repeat case_match; eauto.
    + rewrite !orb_true_iff. intros Hf.
      repeat case_match; simpl; try done;
        destruct Hf as [[[Hf|Hf]|Hf]|Hf]; congruence.
  - intros fails clock days st i Hi Hf. unfold backfillDailyConsumptions.
    destruct (backfill_loop_throws fails clock (Z.to_nat days) (days - 1) [] st i)
      as [st' ->]; [by apply in_turns|done|].
    reflexivity.
Qed.

Lemma storage_failures_caught_inside_call_witness :
  let run := calculateDailyConsumption is_upsert (12 * HOUR_MS) (Some 0)
               (store_of rising_rows) in
  fst run = Returned None ∧ daily_consumption (snd run) = ∅.
Proof.
  pose proof (proj1 storage_failures_caught_inside_call is_upsert (12 * HOUR_MS) (Some 0)
                (store_of rising_rows)) as H.
  cbv zeta in H. destruct H as [_ H]. destruct (H eq_refl) as [_ H2].
  apply H2. reflexivity.
Defined.


(** ** Consumption at a time of a past date *)

Lemma getMidnightReading_undefined (fails : Faults) (dateStr : Z) (st : Store) :
  ¬ In "getMidnightReading" class_methods
  ∧ In "getMidnightMeterReading" class_methods
  ∧ call_reading_method fails "getMidnightReading" dateStr st
    = (Threw (TypeError "this.getMidnightReading is not a function"), st).
Proof.
  split; [|split; [|reflexivity]].
  - simpl. intros H. repeat destruct H as [H|H]; try discriminate. done.
  - simpl. tauto.
Qed.

(** C10: for a date other than today, [getConsumptionAtTime] returns null
    whatever the target time and the store hold: after the table creation
    no statement reaches the store, the call of the undefined
    [this.getMidnightReading] (or, for an invalid date object,
    [toISOString]) throws inside the [try] and the [catch] returns null. *)
Theorem getConsumptionAtTime_past_date_null (fails : Faults) (now : Z) (clock : Tick)
    (dateStr : Z) (targetTime : option Z) (st : Store) :
  dateStr ≠ getTodayDate now →
  fails CreateDailyTable = false →
  getConsumptionAtTime fails now clock dateStr targetTime st
  = (Returned None, journalled [CreateDailyTable; CreateDailyIndex] st)
  ∧ ¬ In "getMidnightReading" class_methods
  ∧ ∀ st', call_reading_method fails "getMidnightReading" dateStr st'
           = (Threw (TypeError "this.getMidnightReading is not a function"), st').
Proof.
  intros Hpast Hinit. split; [|split].
  - unfold getConsumptionAtTime, initDatabase, try_catch, sqlite, sqlite_resolve,
      mbind, M_bind, journalled.
    rewrite Hinit. cbn [power_data daily_consumption journal].
    rewrite bool_decide_eq_false_2 by done. rewrite <- app_assoc.
    destruct targetTime as [t|]; reflexivity.
  - apply (getMidnightReading_undefined fails dateStr st).
  - intros st'. apply getMidnightReading_undefined.
Qed.

Lemma getConsumptionAtTime_past_date_null_witness :
  getConsumptionAtTime no_faults noon_day5 (mkTick noon_day5 noon_day5) 0
    (Some (20 * HOUR_MS)) (store_of two_day_rows)
  = (Returned None, journalled [CreateDailyTable; CreateDailyIndex] (store_of two_day_rows))
  ∧ ¬ In "getMidnightReading" class_methods
  ∧ ∀ st', call_reading_method no_faults "getMidnightReading" 0 st'
           = (Threw (TypeError "this.getMidnightReading is not a function"), st').
Proof.
  apply (getConsumptionAtTime_past_date_null no_faults noon_day5
           (mkTick noon_day5 noon_day5) 0 (Some (20 * HOUR_MS)) (store_of two_day_rows)).
  - vm_compute. discriminate.
  - reflexivity.
Defined.

(** ** The status tracker *)

Lemma classify_Some (p c : option string) (e : string) :
  classify p c = Some e ↔
  (p = Some "online" ∧ c = Some "offline" ∧ e = "interruption")
  ∨ (p = Some "offline" ∧ c = Some "online" ∧ e = "restoration").
Proof.
  unfold classify. repeat case_bool_decide; simpl; subst; split.
  all: try (intros [= <-]); try discriminate; try tauto.
  all: intros [(? & ? & ?)|(? & ? & ?)]; by simplify_eq.
Qed.

(** The control flow of one [trackGridStatusChange] call. *)
Lemma trackGridStatusChange_run (fails : Faults) (currentData : Reading) (st : Store) :
  let rows := power_data st in
  let currentStatus := data_status currentData in
  let currentTime := data_timestamp currentData in
  trackGridStatusChange fails currentData st =
  if fails SelectLastStatus then (Returned (), journalled [SelectLastStatus] st)
  else match last_status_query rows with
  | None => (Returned (), journalled [SelectLastStatus] st)
  | Some lastStatus =>
    if bool_decide (status lastStatus = currentStatus)
    then (Returned (), journalled [SelectLastStatus] st)
    else match classify (status lastStatus) currentStatus with
    | None => (Returned (), journalled [SelectLastStatus] st)
    | Some eventType =>
      if fails InsertEvent
         || fingerprint_taken (Some (event_fingerprint eventType currentTime)) rows
      then (Returned (), journalled [SelectLastStatus; InsertEvent] st)
      else (Returned (),
            mkStore (rows ++ [event_row (status lastStatus) currentStatus eventType currentTime])
              (daily_consumption st) (journal st ++ [SelectLastStatus; InsertEvent]))
    end
  end.
Proof.
  intros rows currentStatus currentTime.
  unfold trackGridStatusChange, insert_power_data, try_catch, sqlite, mbind, M_bind,
    mret, M_ret, journalled. simpl. fold rows currentStatus currentTime.
  destruct (fails SelectLastStatus); [done|]. simpl.
  destruct (last_status_query rows) as [lastStatus|]; [|done]. simpl.
  destruct (bool_decide (status lastStatus = currentStatus)); [done|]. simpl.
  destruct (classify (status lastStatus) currentStatus) as [eventType|]; [|done].
  unfold sqlite. simpl. fold rows.
  destruct (fails InsertEvent); simpl; [by rewrite <- app_assoc|].
  unfold event_fingerprint.
  destruct (existsb _ rows); simpl; by rewrite <- app_assoc.
Qed.

#[local] Arguments fingerprint_taken : simpl never.
#[local] Arguments last_status_query : simpl never.

Lemma snoc_neq {A} (l : list A) (x : A) : l ++ [x] ≠ l.
Proof.
  intros H. apply (f_equal length) in H. rewrite length_app in H. simpl in H. lia.
Qed.

(** A prior status [unknown] differs from the current [online], and no
    event row is written. *)
Lemma differing_status_without_event :
  let currentData := grid_status_reading (20 * MINUTE_MS) "online" in
  let run := trackGridStatusChange no_faults currentData (store_of unknown_rows) in
  (∃ p, last_status_query unknown_rows = Some p
      ∧ status p = Some "unknown"
      ∧ status p ≠ data_status currentData)
  ∧ power_data (snd run) = unknown_rows
  ∧ events (power_data (snd run)) = [].
Proof.
  split; [|split; reflexivity].
  eexists. split; [reflexivity|]. split; [reflexivity|]. discriminate.
Qed.

(** C6 (amended): a call of the tracker writes an event row exactly when a
    prior grid availability row exists and the pair (prior status, current
    status) is online→offline or offline→online, and the store takes the
    insert (neither statement rejected, no event of that type already
    fingerprinted in that minute).  The row written is then the
    interruption, respectively restoration, event; nothing is written on a
    first-ever reading or when the status is unchanged. *)
Theorem event_emitted_iff_canonical_transition (fails : Faults) (currentData : Reading)
    (st : Store) :
  let rows := power_data st in
  let rows' := power_data (snd (trackGridStatusChange fails currentData st)) in
  let t := data_timestamp currentData in
  (rows' ≠ rows ↔
     fails SelectLastStatus = false ∧ fails InsertEvent = false
     ∧ ∃ p, last_status_query rows = Some p
         ∧ ((status p = Some "online" ∧ data_status currentData = Some "offline"
             ∧ fingerprint_taken (Some (event_fingerprint "interruption" t)) rows = false)
            ∨ (status p = Some "offline" ∧ data_status currentData = Some "online"
               ∧ fingerprint_taken (Some (event_fingerprint "restoration" t)) rows = false)))
  ∧ (rows' = rows
     ∨ rows' = rows ++ [event_row (Some "online") (Some "offline") "interruption" t]
     ∨ rows' = rows ++ [event_row (Some "offline") (Some "online") "restoration" t])
  ∧ (last_status_query rows = None → rows' = rows)
  ∧ (∀ p, last_status_query rows = Some p → status p = data_status currentData →
          rows' = rows).
Proof.
  intros rows rows' t. subst rows'. rewrite trackGridStatusChange_run. cbv zeta.
  fold rows t.
  destruct (fails SelectLastStatus) eqn:Hsel.
  { simpl. repeat split; try tauto. intros [[=] _]. }
  destruct (last_status_query rows) as [p|] eqn:Hlast.
  2: { simpl. repeat split; try tauto. by intros (_ & _ & p & [=] & _). }
  destruct (bool_decide_reflect (status p = data_status currentData)) as [Hsame|Hdiff].
  { simpl. repeat split; try tauto.
    intros (_ & _ & p' & [= <-] & [(H1 & H2 & _)|(H1 & H2 & _)]); congruence. }
  destruct (classify (status p) (data_status currentData)) as [e|] eqn:Hcl.
  2: { simpl. repeat split; try tauto; try done.
       intros (_ & _ & p' & [= <-] & [(H1 & H2 & _)|(H1 & H2 & _)]);
         rewrite H1, H2 in Hcl; discriminate. }
  apply classify_Some in Hcl as [(Hp & Hc & ->)|(Hp & Hc & ->)]; rewrite Hp, Hc in *.
  - destruct (fails InsertEvent) eqn:Hins.
    { simpl. repeat split; try tauto; try done. intros (_ & [=] & _). }
    destruct (fingerprint_taken (Some (event_fingerprint "interruption" t)) rows) eqn:Hfp.
    + simpl. repeat split; try tauto; try done.
      intros (_ & _ & p' & [= <-] & [(_ & _ & Hx)|(Hx & _)]); congruence.
    + simpl. repeat split; try tauto; try done.
      * exists p. split; [done|]. by left.
      * intros _. apply snoc_neq.
      * intros p0 [= <-] Hx. congruence.
  - destruct (fails InsertEvent) eqn:Hins.
    { simpl. repeat split; try tauto; try done. intros (_ & [=] & _). }
    destruct (fingerprint_taken (Some (event_fingerprint "restoration" t)) rows) eqn:Hfp.
    + simpl. repeat split; try tauto; try done.
      intros (_ & _ & p' & [= <-] & [(Hx & _)|(_ & _ & Hx)]); congruence.
    + simpl. repeat split; try tauto; try done.
      * exists p. split; [done|]. by right.
      * intros _. apply snoc_neq.
      * intros p0 [= <-] Hx. congruence.
Qed.

Lemma event_emitted_iff_canonical_transition_witness :
  power_data (snd (trackGridStatusChange no_faults
                     (grid_status_reading (5 * MINUTE_MS) "offline") (store_of online_rows)))
  ≠ online_rows.
Proof.
  pose proof (event_emitted_iff_canonical_transition no_faults
                (grid_status_reading (5 * MINUTE_MS) "offline") (store_of online_rows)) as H.
  cbv zeta in H. destruct H as [[_ H] _]. apply H.
  split; [reflexivity|]. split; [reflexivity|].
  eexists. split; [reflexivity|]. left. repeat split; reflexivity.
Defined.


(** ** The table along [saveData] *)

Lemma trackGridStatusChange_rows (fails : Faults) (currentData : Reading) (st : Store) :
  ∃ st', trackGridStatusChange fails currentData st = (Returned (), st')
    ∧ power_data st' = track_rows fails currentData (power_data st)
    ∧ daily_consumption st' = daily_consumption st.
Proof.
  rewrite trackGridStatusChange_run. unfold track_rows. cbv zeta.
  repeat case_match; eexists; split; try reflexivity; done.
Qed.

Lemma saveData_step_rows (fails : Faults) (data : Reading) (counters : Z * Z) (st : Store) :
  ∃ counters' st', saveData_step fails data counters st = (Returned counters', st')
    ∧ power_data st' = step_rows fails data (power_data st)
    ∧ daily_consumption st' = daily_consumption st.
Proof.
  unfold saveData_step, step_rows. fold (is_grid_availability data).
  assert (Htrack : ∃ st1,
            (if is_grid_availability data then trackGridStatusChange fails data else mret ()) st
            = (Returned (), st1)
            ∧ power_data st1
              = (if is_grid_availability data then track_rows fails data (power_data st)
                 else power_data st)
            ∧ daily_consumption st1 = daily_consumption st).
  { destruct (is_grid_availability data); [apply trackGridStatusChange_rows|].
    by exists st. }
  destruct Htrack as (st1 & Hrun & Hrows & Hledger).
  unfold try_catch at 1. unfold mbind, M_bind at 1. rewrite Hrun.
  unfold try_catch, mbind, M_bind, insert_power_data, sqlite, throw, mret, M_ret.
  cbn [power_data daily_consumption journal]. rewrite <- Hrows.
  destruct (fails InsertData); simpl; [by eauto|].
  destruct (fingerprint_taken (data_fingerprint data) (power_data st1)); simpl; by eauto.
Qed.

Lemma saveData_loop_rows (fails : nat → Faults) (dataArray : list Reading) :
  ∀ (k : nat) (counters : Z * Z) (st : Store),
  ∃ counters' st', saveData_loop fails k dataArray counters st = (Returned counters', st')
    ∧ power_data st' = loop_rows fails k dataArray (power_data st)
    ∧ daily_consumption st' = daily_consumption st.
Proof.
  induction dataArray as [|data rest IH]; intros k counters st; simpl.
  - by exists counters, st.
  - destruct (saveData_step_rows (fails k) data counters st) as (c1 & st1 & Hstep & Hrows & Hl).
    unfold mbind, M_bind. rewrite Hstep.
    destruct (IH (S k) c1 st1) as (c2 & st2 & Hloop & Hrows2 & Hl2).
    exists c2, st2. rewrite Hloop, Hrows2, Hrows, Hl2, Hl. done.
Qed.

Lemma track_rows_added (fails : Faults) (data : Reading) (rows : list Row) :
  ∃ added, track_rows fails data rows = rows ++ added
    ∧ ∀ r, In r added → category r = event ∧ canonical_event r.
Proof.
  unfold track_rows.
  repeat case_match; try (exists []; rewrite app_nil_r; split; [done|]; by intros ? []).
  eexists. split; [reflexivity|]. intros ev [<-|[]]. split; [done|].
  match goal with H : classify _ _ = Some _ |- _ =>
    apply classify_Some in H as [(-> & -> & ->)|(-> & -> & ->)] end.
  - left. simpl. eauto.
  - right. simpl. eauto.
Qed.

Lemma step_rows_added (fails : Faults) (data : Reading) (rows : list Row) :
  ∃ added, step_rows fails data rows = rows ++ added
    ∧ ∀ r, In r added → r = data_row data ∨ (category r = event ∧ canonical_event r).
Proof.
  unfold step_rows.
  assert (H1 : ∃ added,
            (if is_grid_availability data then track_rows fails data rows else rows)
            = rows ++ added
            ∧ ∀ r, In r added → category r = event ∧ canonical_event r).
  { destruct (is_grid_availability data); [apply track_rows_added|].
    exists []. rewrite app_nil_r. split; [done|]. by intros ? []. }
  destruct H1 as (added & -> & Hadded).
  destruct (fails InsertData || fingerprint_taken _ _).
  - exists added. split; [done|]. intros r Hr. right. by apply Hadded.
  - exists (added ++ [data_row data]). rewrite app_assoc. split; [done|].
    intros r Hr. apply in_app_or in Hr as [Hr|[<-|[]]]; [right; by apply Hadded|by left].
Qed.

Lemma loop_rows_added (fails : nat → Faults) (dataArray : list Reading) :
  ∀ (k : nat) (rows : list Row),
  ∃ added, loop_rows fails k dataArray rows = rows ++ added
    ∧ ∀ r, In r added →
        (∃ data, In data dataArray ∧ r = data_row data)
        ∨ (category r = event ∧ canonical_event r).
Proof.
  induction dataArray as [|data rest IH]; intros k rows; simpl.
  - exists []. rewrite app_nil_r. split; [done|]. by intros ? [].
  - destruct (step_rows_added (fails k) data rows) as (a1 & -> & Ha1).
    destruct (IH (S k) (rows ++ a1)) as (a2 & -> & Ha2).
    exists (a1 ++ a2). rewrite app_assoc. split; [done|].
    intros r Hr. apply in_app_or in Hr as [Hr|Hr].
    + destruct (Ha1 r Hr) as [->|Hev]; [left; eauto|by right].
    + destruct (Ha2 r Hr) as [(d & Hd & ->)|Hev]; [left; eauto|by right].
Qed.

Lemma fingerprint_taken_app (f : option Fingerprint) (l1 l2 : list Row) :
  fingerprint_taken f (l1 ++ l2) = fingerprint_taken f l1 || fingerprint_taken f l2.
Proof. unfold fingerprint_taken. destruct f; [apply existsb_app|done]. Qed.

Lemma events_app (l1 l2 : list Row) : events (l1 ++ l2) = events l1 ++ events l2.
Proof. apply List.filter_app. Qed.

Lemma track_rows_first (currentData : Reading) (rows : list Row) :
  last_status_query rows = None → track_rows no_faults currentData rows = rows.
Proof. intros H. unfold track_rows. simpl. by rewrite H. Qed.

Lemma track_rows_unchanged (currentData : Reading) (rows : list Row) (p : Row) :
  last_status_query rows = Some p → status p = data_status currentData →
  track_rows no_faults currentData rows = rows.
Proof.
  intros H Hs. unfold track_rows. simpl. rewrite H. by rewrite bool_decide_eq_true_2.
Qed.

Lemma track_rows_transition (currentData : Reading) (rows : list Row) (p : Row) (e : string) :
  last_status_query rows = Some p →
  status p ≠ data_status currentData →
  classify (status p) (data_status currentData) = Some e →
  fingerprint_taken (Some (event_fingerprint e (data_timestamp currentData))) rows = false →
  track_rows no_faults currentData rows
  = rows ++ [event_row (status p) (data_status currentData) e (data_timestamp currentData)].
Proof.
  intros H Hs Hc Hf. unfold track_rows. simpl. rewrite H.
  rewrite bool_decide_eq_false_2 by done. by rewrite Hc, Hf.
Qed.

Lemma step_rows_status (t : Z) (s : string) (rows : list Row) :
  step_rows no_faults (grid_status_reading t s) rows
  = let rows1 := track_rows no_faults (grid_status_reading t s) rows in
    if fingerprint_taken (data_fingerprint (grid_status_reading t s)) rows1
    then rows1
    else rows1 ++ [data_row (grid_status_reading t s)].
Proof. reflexivity. Qed.

(** ** Four readings: online, offline, offline, online *)

Section FourReadings.
Variables (rows0 : list Row) (t1 t2 t3 t4 : Z).
Hypothesis Hfresh : no_status_history rows0.
Hypothesis Hlt : t1 < t2.

Let G := grid_status_reading.
Let R (t : Z) (s : string) : Row := data_row (grid_status_reading t s).
Let E1 : Row := event_row (Some "online") (Some "offline") "interruption" t2.
Let E2 : Row := event_row (Some "offline") (Some "online") "restoration" t4.

Lemma taken_after_history (f : Fingerprint) (l : list Row) :
  fp_category f = availability ∨ fp_category f = event →
  fingerprint_taken (Some f) (rows0 ++ l) = fingerprint_taken (Some f) l.
Proof.
  intros Hf. rewrite fingerprint_taken_app. by rewrite (proj2 Hfresh f Hf).
Qed.

Lemma last_status_after_history (l : list Row) :
  last_status_query (rows0 ++ l)
  = order_by_limit1 (λ r, - timestamp r) (List.filter grid_availability l).
Proof.
  unfold last_status_query. by rewrite List.filter_app, (proj1 Hfresh).
Qed.

Lemma first_turn :
  step_rows no_faults (G t1 "online") rows0 = rows0 ++ [R t1 "online"].
Proof.
  rewrite step_rows_status. cbv zeta. rewrite track_rows_first.
  2: { unfold last_status_query. by rewrite (proj1 Hfresh). }
  change (data_fingerprint (grid_status_reading t1 "online"))
    with (Some (mkFingerprint availability grid (PStatus "online") (minute_of t1))).
  by rewrite (proj2 Hfresh) by (by left).
Qed.

Lemma second_turn :
  step_rows no_faults (G t2 "offline") (rows0 ++ [R t1 "online"])
  = rows0 ++ [R t1 "online"; E1; R t2 "offline"].
Proof.
  rewrite step_rows_status. cbv zeta.
  rewrite (track_rows_transition _ _ (R t1 "online") "interruption").
  - change (data_fingerprint (grid_status_reading t2 "offline"))
      with (Some (mkFingerprint availability grid (PStatus "offline") (minute_of t2))).
    rewrite <- app_assoc. rewrite taken_after_history by (by left).
    match goal with |- context [fingerprint_taken ?f ?l] =>
      change (fingerprint_taken f l) with false end.
    by rewrite <- app_assoc.
  - by rewrite last_status_after_history.
  - discriminate.
  - reflexivity.
  - by rewrite taken_after_history by (by right).
Qed.

(** The third row is stored unless it falls into the minute of the
    second, whose fingerprint it then shares. *)
Let X3 : list Row :=
  if bool_decide (minute_of t3 = minute_of t2) then [] else [R t3 "offline"].

Lemma third_turn :
  step_rows no_faults (G t3 "offline") (rows0 ++ [R t1 "online"; E1; R t2 "offline"])
  = rows0 ++ [R t1 "online"; E1; R t2 "offline"] ++ X3.
Proof.
  rewrite step_rows_status. cbv zeta.
  rewrite (track_rows_unchanged _ _ (R t2 "offline")).
  - change (data_fingerprint (grid_status_reading t3 "offline"))
      with (Some (mkFingerprint availability grid (PStatus "offline") (minute_of t3))).
    rewrite taken_after_history by (by left).
    unfold X3, fingerprint_taken, fingerprint_eqb. simpl.
    destruct (bool_decide (minute_of t3 = minute_of t2)); simpl; [done|].
    by rewrite <- app_assoc.
  - rewrite last_status_after_history. simpl.
    destruct (Z.leb_spec (- t1) (- t2)); [lia|done].
  - reflexivity.
Qed.

Lemma fourth_turn :
  ∃ X4, step_rows no_faults (G t4 "online")
          (rows0 ++ [R t1 "online"; E1; R t2 "offline"] ++ X3)
        = rows0 ++ [R t1 "online"; E1; R t2 "offline"] ++ X3 ++ [E2] ++ X4
    ∧ events X4 = [].
Proof.
  rewrite step_rows_status. cbv zeta.
  assert (Hlast : ∃ p, last_status_query (rows0 ++ [R t1 "online"; E1; R t2 "offline"] ++ X3)
                       = Some p ∧ status p = Some "offline").
  { rewrite last_status_after_history. unfold X3.
    destruct (bool_decide (minute_of t3 = minute_of t2)); simpl;
      repeat (match goal with
              | |- context [Z.leb ?a ?b] => destruct (Z.leb_spec a b); simpl in *
              end);
      try lia; eexists; split; reflexivity. }
  destruct Hlast as (p & Hp & Hs).
  rewrite (track_rows_transition _ _ p "restoration"); try done.
  - change (data_fingerprint (grid_status_reading t4 "online"))
      with (Some (mkFingerprint availability grid (PStatus "online") (minute_of t4))).
    rewrite Hs.
    change (event_row (Some "offline") (data_status (grid_status_reading t4 "online"))
              "restoration" (data_timestamp (grid_status_reading t4 "online"))) with E2.
    destruct (fingerprint_taken _ _).
    + exists []. split; [|done]. rewrite app_nil_r.
      by rewrite <- (app_assoc rows0), <- (app_assoc _ X3).
    + exists [R t4 "online"]. split; [|done].
      rewrite <- ?app_assoc. simpl. by rewrite <- ?app_assoc.
  - by rewrite Hs.
  - by rewrite Hs.
  - change (data_timestamp (grid_status_reading t4 "online")) with t4.
    rewrite taken_after_history by (by right).
    unfold X3. by destruct (bool_decide (minute_of t3 = minute_of t2)).
Qed.

Lemma four_readings_events :
  events (loop_rows (λ _, no_faults) 0
            [G t1 "online"; G t2 "offline"; G t3 "offline"; G t4 "online"] rows0)
  = events rows0 ++ [E1; E2].
Proof.
  cbn [loop_rows]. rewrite first_turn, second_turn, third_turn.
  destruct fourth_turn as (X4 & -> & HX4).
  rewrite !events_app, HX4. unfold X3.
  destruct (bool_decide (minute_of t3 = minute_of t2)); reflexivity.
Qed.
End FourReadings.

(** C7: whatever the storage faults, the event rows that [saveData] adds
    for a sequence of availability readings are interruption events of an
    online→offline transition or restoration events of an offline→online
    transition, and nothing else.  For the readings online, offline,
    offline, online, taken at [t1 < t2] and any [t3], [t4], saved without
    storage fault into a table without status history, exactly two events
    are added: the interruption at [t2] and the restoration at [t4]. *)
Theorem only_canonical_transitions_emit :
  (∀ (fails : nat → Faults) (dataArray : list Reading) (st : Store),
     Forall (λ data, data_category data = availability) dataArray →
     ∃ added,
       power_data (snd (saveData fails dataArray st)) = power_data st ++ added
       ∧ ∀ r, In r added → category r = event → canonical_event r)
  ∧ (∀ (st : Store) (t1 t2 t3 t4 : Z),
       no_status_history (power_data st) →
       t1 < t2 →
       events (power_data (snd (saveData (λ _, no_faults)
                 [grid_status_reading t1 "online"; grid_status_reading t2 "offline";
                  grid_status_reading t3 "offline"; grid_status_reading t4 "online"] st)))
       = events (power_data st)
         ++ [event_row (Some "online") (Some "offline") "interruption" t2;
             event_row (Some "offline") (Some "online") "restoration" t4]).
Proof.
  split.
  - intros fails dataArray st Havail. unfold saveData.
    destruct (saveData_loop_rows fails dataArray 0%nat (0, 0) st)
      as (c & st' & Hrun & Hrows & _).
    rewrite Hrun. cbn [snd]. rewrite Hrows.
    destruct (loop_rows_added fails dataArray 0%nat (power_data st)) as (added & -> & Hadded).
    exists added. split; [done|]. intros r Hr Hev.
    destruct (Hadded r Hr) as [(data & Hin & ->)|[_ Hc]]; [|done].
    rewrite Forall_forall in Havail. apply list_elem_of_In, Havail in Hin.
    simpl in Hev. congruence.
  - intros st t1 t2 t3 t4 Hfresh Hlt. unfold saveData.
    destruct (saveData_loop_rows (λ _, no_faults)
                [grid_status_reading t1 "online"; grid_status_reading t2 "offline";
                 grid_status_reading t3 "offline"; grid_status_reading t4 "online"]
                0%nat (0, 0) st) as (c & st' & Hrun & Hrows & _).
    rewrite Hrun. cbn [snd]. rewrite Hrows.
    by apply four_readings_events.
Qed.

Lemma only_canonical_transitions_emit_witness :
  events (power_data (snd (saveData (λ _, no_faults)
            [grid_status_reading 0 "online"; grid_status_reading (5 * MINUTE_MS) "offline";
             grid_status_reading (10 * MINUTE_MS) "offline";
             grid_status_reading (15 * MINUTE_MS) "online"] (store_of []))))
  = [] ++ [event_row (Some "online") (Some "offline") "interruption" (5 * MINUTE_MS);
           event_row (Some "offline") (Some "online") "restoration" (15 * MINUTE_MS)].
Proof.
  apply (proj2 only_canonical_transitions_emit (store_of []) 0 (5 * MINUTE_MS)
           (10 * MINUTE_MS) (15 * MINUTE_MS)).
  - split; [reflexivity|]. intros f Hf. reflexivity.
  - reflexivity.
Defined.

(** Online, offline and offline again within the same minute: one
    interruption, the duplicate reading is neither stored nor an event. *)
Example duplicate_offline_reading :
  let run := saveData (λ _, no_faults)
               [grid_status_reading 0 "online"; grid_status_reading (5 * MINUTE_MS) "offline";
                grid_status_reading (5 * MINUTE_MS + 1000) "offline"] (store_of []) in
  fst run = Returned (2, 1)
  ∧ map status (events (power_data (snd run))) = [Some "interruption"]
  ∧ length (power_data (snd run)) = 3%nat.
Proof. repeat split; reflexivity. Qed.

(** * Further properties of the calculator *)

(** ** Anchor and current reading *)

(** X1: the anchor of a computed record is stamped within the requested day
    and is the earliest grid meter reading with a value of that day: all
    candidates lie at or after midnight, so the closest one is the first. *)
Theorem anchor_is_earliest_of_day (fails : Faults) (now : Z) (dateStr : option Z)
    (st : Store) (r : DailyResult) :
  fst (calculateDailyConsumption fails now dateStr st) = Returned (Some r) →
  getMidnightTimestamp (date r) ≤ midnightTimestamp r < getMidnightTimestamp (date r + 1)
  ∧ ∀ r', In r' (power_data st) → anchor_candidate (date r) r' →
          midnightTimestamp r ≤ timestamp r'.
Proof.
  intros Hrun.
  apply calculateDailyConsumption_success in Hrun as (m & c & Hm & _ & _ & ->).
  cbn [date midnightTimestamp result_of].
  set (d := default (getTodayDate now) dateStr) in *.
  unfold midnight_query in Hm. apply order_by_limit1_Some in Hm as [Hin Hmin].
  pose proof Hin as Hin'.
  apply in_readings_of_day in Hin' as (r0 & _ & (_ & _ & _ & Hw) & (_ & Ht & _)).
  rewrite Ht in Hw. split; [done|].
  intros r' Hr' Hc'. pose proof Hc' as (Hcat & Hsrc & [v Hv] & Hw').
  assert (Hm' : In (mkMeterReading v (timestamp r') (confidence r'))
                  (readings_of_day d (power_data st))).
  { apply in_readings_of_day. exists r'. split; [done|]. split; [exact Hc'|].
    by repeat split. }
  specialize (Hmin _ Hm'). simpl in Hmin. lia.
Qed.

Lemma anchor_is_earliest_of_day_witness :
  getMidnightTimestamp 0 ≤ 1 * MINUTE_MS < getMidnightTimestamp (0 + 1)
  ∧ ∀ r', In r' rising_rows → anchor_candidate 0 r' → 1 * MINUTE_MS ≤ timestamp r'.
Proof.
  apply (anchor_is_earliest_of_day no_faults (12 * HOUR_MS) (Some 0) (store_of rising_rows)
           (result_of (12 * HOUR_MS) 0
              (mkMeterReading 100 (1 * MINUTE_MS) (Some 1%Q))
              (mkMeterReading 105 (10 * HOUR_MS) (Some 1%Q))
              (coverage_query 0 rising_rows))).
  reflexivity.
Defined.

(** X2: the current reading of a computed record is never older than its
    anchor, whatever the requested date. *)
Theorem current_not_older_than_anchor (fails : Faults) (now : Z) (dateStr : option Z)
    (st : Store) (r : DailyResult) :
  fst (calculateDailyConsumption fails now dateStr st) = Returned (Some r) →
  midnightTimestamp r ≤ currentTimestamp r.
Proof.
  intros Hrun.
  apply calculateDailyConsumption_success in Hrun as (m & c & Hm & Hc & _ & ->).
  cbn [midnightTimestamp currentTimestamp result_of].
  unfold midnight_query in Hm. apply order_by_limit1_Some in Hm as [Hin _].
  apply in_readings_of_day in Hin as (r0 & Hr0 & (Hcat & Hsrc & Hv & _) & (_ & Ht & _)).
  apply latest_query_most_recent in Hc as (rc & _ & _ & _ & (_ & Htc & _) & Hmax).
  rewrite <- Ht, <- Htc. by apply Hmax.
Qed.

Lemma current_not_older_than_anchor_witness :
  1 * MINUTE_MS ≤ 5 * DAY_MS + 10 * HOUR_MS.
Proof.
  apply (current_not_older_than_anchor no_faults noon_day5 (Some 0) (store_of two_day_rows)
           (result_of noon_day5 0
              (mkMeterReading 100 (1 * MINUTE_MS) (Some 1%Q))
              (mkMeterReading 200 (5 * DAY_MS + 10 * HOUR_MS) (Some 1%Q))
              (coverage_query 0 two_day_rows))).
  reflexivity.
Defined.

(** An anchor comes with a latest reading that is not older, and both stem
    from rows of the table. *)
Lemma anchor_then_latest (d : Z) (rows : list Row) (m : MeterReading) :
  midnight_query d rows = Some m →
  ∃ c r0 rc, latest_query rows = Some c
    ∧ In r0 rows ∧ anchor_candidate d r0 ∧ projects_to r0 m
    ∧ In rc rows ∧ category rc = meter_reading ∧ source rc = grid ∧ projects_to rc c
    ∧ timestamp r0 ≤ timestamp rc.
Proof.
  intros Hm. unfold midnight_query in Hm. apply order_by_limit1_Some in Hm as [Hin _].
  apply in_readings_of_day in Hin as (r0 & Hr0 & Hc0 & Hp0).
  destruct (order_by_limit1_is_Some (λ m, - mr_timestamp m) (omap grid_meter_reading rows))
    as [c Hc].
  { intros Hnil. destruct Hc0 as (Hcat & Hsrc & [v Hv] & _).
    assert (Hin : mkMeterReading v (timestamp r0) (confidence r0)
                  ∈ omap grid_meter_reading rows).
    { apply list_elem_of_omap. exists r0. split; [by apply list_elem_of_In|].
      by apply grid_meter_reading_Some. }
    rewrite Hnil in Hin. by apply not_elem_of_nil in Hin. }
  fold (latest_query rows) in Hc.
  destruct (latest_query_most_recent rows c Hc) as (rc & Hrc & Hcat & Hsrc & Hpc & Hmax).
  exists c, r0, rc. repeat split; try done; try apply Hc0; try apply Hp0; try apply Hpc.
  apply Hmax; [done|apply Hc0..].
Qed.

(** X3: on a cumulative meter whose stored values never decrease with time,
    and with a storage layer that rejects nothing, a computation yields a
    record exactly when the day has an anchor: the negative-consumption
    exit is never taken. *)
Theorem monotone_meter_always_computes (fails : Faults) (now : Z) (dateStr : option Z)
    (st : Store) :
  monotone_meter (power_data st) →
  (∀ op, fails op = false) →
  let d := default (getTodayDate now) dateStr in
  (∀ m, midnight_query d (power_data st) = Some m →
        ∃ r, fst (calculateDailyConsumption fails now dateStr st) = Returned (Some r)
          ∧ midnightReading r = mr_consumption_value m
          ∧ (0 <= calculatedConsumption r)%Q)
  ∧ (midnight_query d (power_data st) = None →
     fst (calculateDailyConsumption fails now dateStr st) = Returned None).
Proof.
  intros Hmono Hok d. rewrite calculateDailyConsumption_run. cbv zeta. fold d.
  rewrite !Hok. split.
  - intros m Hm. rewrite Hm.
    destruct (anchor_then_latest d _ m Hm)
      as (c & r0 & rc & Hc & Hr0 & Hc0 & Hp0 & Hrc & Hcat & Hsrc & Hpc & Hle).
    rewrite Hc.
    assert (Hval : (mr_consumption_value m <= mr_consumption_value c)%Q).
    { destruct Hc0 as (Hcat0 & Hsrc0 & _ & _).
      apply (Hmono r0 rc); try done; [apply Hp0|apply Hpc]. }
    destruct (Qltb _ 0) eqn:Hneg.
    { apply Qltb_lt in Hneg. lra. }
    eexists. split; [reflexivity|]. split; [reflexivity|].
    cbn [calculatedConsumption result_of]. lra.
  - intros Hm. by rewrite Hm.
Qed.

Lemma monotone_meter_always_computes_witness :
  (∀ m, midnight_query 0 rising_rows = Some m →
        ∃ r, fst (calculateDailyConsumption no_faults (12 * HOUR_MS) None
                    (store_of rising_rows)) = Returned (Some r)
          ∧ midnightReading r = mr_consumption_value m
          ∧ (0 <= calculatedConsumption r)%Q)
  ∧ (midnight_query 0 rising_rows = None →
     fst (calculateDailyConsumption no_faults (12 * HOUR_MS) None (store_of rising_rows))
     = Returned None).
Proof.
  apply (monotone_meter_always_computes no_faults (12 * HOUR_MS) None (store_of rising_rows)).
  - intros r r' v v' Hr Hr' _ _ Hv _ _ Hv' Ht.
    destruct Hr as [<-|[<-|[]]], Hr' as [<-|[<-|[]]];
      injection Hv as <-; injection Hv' as <-;
      first [vm_compute in Ht; congruence | discriminate].
  - reflexivity.
Defined.

(** ** The ledger *)

Lemma success_nonneg (fails : Faults) (now : Z) (dateStr : option Z) (st : Store)
    (r : DailyResult) :
  fst (calculateDailyConsumption fails now dateStr st) = Returned (Some r) →
  (0 <= calculatedConsumption r)%Q.
Proof.
  intros Hrun.
  apply calculateDailyConsumption_success in Hrun as (m & c & _ & _ & Hneg & ->).
  cbn [calculatedConsumption result_of].
  destruct (Qlt_le_dec (mr_consumption_value c - mr_consumption_value m) 0) as [Hlt|Hle];
    [|done].
  apply Qltb_lt in Hlt. congruence.
Qed.

Lemma calculateDailyConsumption_keeps_nonneg (fails : Faults) (now : Z)
    (dateStr : option Z) (st : Store) :
  ledger_nonneg (daily_consumption st) →
  ledger_nonneg (daily_consumption (snd (calculateDailyConsumption fails now dateStr st))).
Proof.
  intros Hinv. rewrite calculateDailyConsumption_ledger.
  destruct (fst (calculateDailyConsumption fails now dateStr st)) as [[r|]|e] eqn:Hrun;
    simpl; try done.
  intros d row. destruct (decide (date r = d)) as [<-|Hne].
  - rewrite lookup_insert_eq. intros [= <-]. simpl. by eapply success_nonneg.
  - rewrite lookup_insert_ne by done. apply Hinv.
Qed.

Lemma backfill_loop_keeps_nonneg (fails : Z → Faults) (clock : Z → Tick) (n : nat) :
  ∀ (i : Z) (results : list DailyResult) (st : Store),
  ledger_nonneg (daily_consumption st) →
  ledger_nonneg (daily_consumption (snd (backfill_loop fails clock i n results st))).
Proof.
  induction n as [|n IH]; intros i results st Hinv; [done|].
  cbn [backfill_loop]. unfold mbind, M_bind.
  pose proof (calculateDailyConsumption_keeps_nonneg
                (fails i) (at_test (clock i))
                (Some (toDateStr (at_date (clock i) - i * 24 * 60 * 60 * 1000))) st Hinv)
    as Hstep.
  destruct (calculateDailyConsumption _ _ _ st) as [[r|e] st1]; [|done].
  by apply IH.
Qed.

(** X4: every record a computation returns has a consumption that is not
    negative, and a ledger whose rows are all non-negative stays so under a
    single computation and under a whole backfill, whatever the storage
    layer rejects and whatever the clock shows. *)
Theorem ledger_never_negative :
  (∀ (fails : Faults) (now : Z) (dateStr : option Z) (st : Store) (r : DailyResult),
     fst (calculateDailyConsumption fails now dateStr st) = Returned (Some r) →
     (0 <= calculatedConsumption r)%Q)
  ∧ (∀ (fails : Faults) (now : Z) (dateStr : option Z) (st : Store),
       ledger_nonneg (daily_consumption st) →
       ledger_nonneg
         (daily_consumption (snd (calculateDailyConsumption fails now dateStr st))))
  ∧ (∀ (fails : Z → Faults) (clock : Z → Tick) (days : Z) (st : Store),
       ledger_nonneg (daily_consumption st) →
       ledger_nonneg
         (daily_consumption (snd (backfillDailyConsumptions fails clock days st)))).
Proof.
  split; [exact success_nonneg|]. split; [exact calculateDailyConsumption_keeps_nonneg|].
  intros fails clock days st. apply backfill_loop_keeps_nonneg.
Qed.

Lemma ledger_never_negative_witness :
  ledger_nonneg
    (daily_consumption
       (snd (backfillDailyConsumptions (λ _, no_faults) across_midnight 2
               (store_of two_day_rows)))).
Proof.
  apply (proj2 (proj2 ledger_never_negative) (λ _, no_faults) across_midnight 2
           (store_of two_day_rows)).
  intros d row Hd. cbn [daily_consumption store_of] in Hd. by rewrite lookup_empty in Hd.
Defined.

(** X5: a computation touches the ledger only under its own date: every
    other date keeps its row, a returned record is the row found under the
    date afterwards, and without a returned record the ledger is as before.
    The readings are never written. *)
Theorem computation_writes_own_date (fails : Faults) (now : Z) (dateStr : option Z)
    (st : Store) :
  let d := default (getTodayDate now) dateStr in
  let run := calculateDailyConsumption fails now dateStr st in
  (∀ d', d' ≠ d → daily_consumption (snd run) !! d' = daily_consumption st !! d')
  ∧ (∀ r, fst run = Returned (Some r) →
          date r = d ∧ daily_consumption (snd run) !! d = Some (row_of r))
  ∧ ((∀ r, fst run ≠ Returned (Some r)) →
     daily_consumption (snd run) = daily_consumption st)
  ∧ power_data (snd run) = power_data st.
Proof.
  intros d run. subst run.
  split; [|split; [|split]].
  - intros d' Hne. rewrite calculateDailyConsumption_ledger.
    destruct (fst (calculateDailyConsumption fails now dateStr st)) as [[r|]|e] eqn:Hrun;
      simpl; try done.
    apply calculateDailyConsumption_success in Hrun as (m & c & _ & _ & _ & ->).
    cbn [date result_of]. by rewrite lookup_insert_ne.
  - intros r Hrun. rewrite calculateDailyConsumption_ledger, Hrun. simpl.
    apply calculateDailyConsumption_success in Hrun as (m & c & _ & _ & _ & ->).
    cbn [date result_of]. split; [done|]. by rewrite lookup_insert_eq.
  - intros Hnone. rewrite calculateDailyConsumption_ledger.
    destruct (fst (calculateDailyConsumption fails now dateStr st)) as [[r|]|e] eqn:Hrun;
      simpl; try done.
    by destruct (Hnone r).
  - apply calculateDailyConsumption_power_data.
Qed.

Lemma computation_writes_own_date_witness :
  let run := calculateDailyConsumption no_faults noon_day5 (Some 0) (store_of two_day_rows) in
  daily_consumption (snd run) !! 3 = daily_consumption (store_of two_day_rows) !! 3.
Proof.
  pose proof (computation_writes_own_date no_faults noon_day5 (Some 0)
                (store_of two_day_rows)) as H.
  cbv zeta in H. destruct H as [H _]. cbv zeta. apply H.
  cbn [default from_option id]. lia.
Defined.

(** X6: computing a date again at a later time, on unchanged readings and
    whatever the ledger and the storage faults then are, returns the record
    of the first computation with its completeness flag brought up to date
    and nothing else changed; the second computation does return a record
    when the storage layer rejects nothing; and a record once complete
    stays complete as the clock advances. *)
Theorem recomputation_changes_only_isComplete (fails1 fails2 : Faults) (now1 now2 d : Z)
    (st1 st2 : Store) (r1 : DailyResult) :
  power_data st2 = power_data st1 →
  fst (calculateDailyConsumption fails1 now1 (Some d) st1) = Returned (Some r1) →
  let run2 := calculateDailyConsumption fails2 now2 (Some d) st2 in
  ((∀ op, fails2 op = false) → ∃ r2, fst run2 = Returned (Some r2))
  ∧ ∀ r2, fst run2 = Returned (Some r2) →
      r2 = {| date := date r1;
              midnightReading := midnightReading r1;
              midnightTimestamp := midnightTimestamp r1;
              currentReading := currentReading r1;
              currentTimestamp := currentTimestamp r1;
              calculatedConsumption := calculatedConsumption r1;
              isComplete := d <? getTodayDate now2;
              hasMonitoringGaps := hasMonitoringGaps r1;
              confidenceScore := confidenceScore r1;
              coverage := coverage r1 |}
      ∧ (now1 ≤ now2 → isComplete r1 = true → isComplete r2 = true).
Proof.
  intros Hrows Hrun1 run2. subst run2.
  apply calculateDailyConsumption_success in Hrun1 as (m & c & Hm & Hc & Hneg & ->).
  cbn [default from_option id] in Hm. split.
  - intros Hok. rewrite calculateDailyConsumption_run. cbv zeta.
    cbn [default from_option id]. rewrite !Hok, Hrows, Hm, Hc, Hneg. eauto.
  - intros r2 Hrun2.
    apply calculateDailyConsumption_success in Hrun2 as (m' & c' & Hm' & Hc' & _ & ->).
    cbn [default from_option id] in Hm'. rewrite Hrows in Hm', Hc'.
    rewrite Hrows. simplify_eq. split; [reflexivity|].
    cbn [isComplete result_of default from_option id]. rewrite !Z.ltb_lt.
    intros Hle Hlt.
    assert (getTodayDate now1 ≤ getTodayDate now2); [|lia].
    unfold getTodayDate, toDateStr. apply Z.div_le_mono; [rewrite DAY_MS_eq; lia|done].
Qed.

Lemma recomputation_changes_only_isComplete_witness :
  ∃ r2, fst (calculateDailyConsumption no_faults noon_day5 (Some 0)
               (store_of two_day_rows)) = Returned (Some r2).
Proof.
  assert (H1 : ∃ r1, fst (calculateDailyConsumption no_faults (12 * HOUR_MS) (Some 0)
                            (store_of two_day_rows)) = Returned (Some r1)).
  { eexists. vm_compute. reflexivity. }
  destruct H1 as [r1 H1].
  destruct (recomputation_changes_only_isComplete no_faults no_faults (12 * HOUR_MS)
              noon_day5 0 (store_of two_day_rows) (store_of two_day_rows) r1 eq_refl H1)
    as [H _].
  apply H. reflexivity.
Defined.

(** ** Coverage *)

Lemma in_coverage_rows (d : Z) (rows : list Row) (r : Row) :
  In r (coverage_rows d rows) ↔
  In r rows ∧ category r = meter_reading ∧ source r = grid
  ∧ getMidnightTimestamp d ≤ timestamp r < getMidnightTimestamp (d + 1).
Proof.
  unfold coverage_rows, in_window. rewrite filter_In, !andb_true_iff,
    !bool_decide_eq_true, Z.leb_le, Z.ltb_lt, nextMidnightOf_succ. tauto.
Qed.

(** X7: the coverage of a computed record counts at least the anchor's row;
    its first record is stamped within the day at or before the anchor, its
    last record at or after the anchor and before the next midnight; and the
    gap flag is raised exactly below twelve counted rows. *)
Theorem coverage_brackets_anchor (fails : Faults) (now : Z) (dateStr : option Z)
    (st : Store) (r : DailyResult) :
  fst (calculateDailyConsumption fails now dateStr st) = Returned (Some r) →
  1 ≤ recordCount (coverage r)
  ∧ (hasMonitoringGaps r = true ↔ recordCount (coverage r) < 12)
  ∧ ∃ t1 t2, firstRecord (coverage r) = Some t1 ∧ lastRecord (coverage r) = Some t2
      ∧ getMidnightTimestamp (date r) ≤ t1 ≤ midnightTimestamp r
      ∧ midnightTimestamp r ≤ t2 < getMidnightTimestamp (date r + 1).
Proof.
  intros Hrun.
  apply calculateDailyConsumption_success in Hrun as (m & c & Hm & _ & _ & ->).
  set (d := default (getTodayDate now) dateStr) in *.
  destruct (anchor_then_latest d _ m Hm) as (_ & r0 & _ & _ & Hr0 & Hc0 & Hp0 & _).
  assert (Hcov : In r0 (coverage_rows d (power_data st))).
  { apply in_coverage_rows. destruct Hc0 as (? & ? & _ & ?). done. }
  destruct Hp0 as (_ & Ht0 & _).
  cbn [coverage hasMonitoringGaps date midnightTimestamp result_of].
  unfold coverage_query. cbn [recordCount hasGaps firstRecord lastRecord].
  split; [|split].
  - destruct (coverage_rows d (power_data st)); [destruct Hcov|]. simpl length. lia.
  - apply Z.ltb_lt.
  - destruct (order_by_limit1_is_Some timestamp (coverage_rows d (power_data st)))
      as [x1 Hx1]; [by intros E; rewrite E in Hcov|].
    destruct (order_by_limit1_is_Some (λ r, - timestamp r) (coverage_rows d (power_data st)))
      as [x2 Hx2]; [by intros E; rewrite E in Hcov|].
    rewrite Hx1, Hx2. exists (timestamp x1), (timestamp x2).
    apply order_by_limit1_Some in Hx1 as [Hin1 Hmin1].
    apply order_by_limit1_Some in Hx2 as [Hin2 Hmin2].
    apply in_coverage_rows in Hin1 as (_ & _ & _ & Hw1).
    apply in_coverage_rows in Hin2 as (_ & _ & _ & Hw2).
    specialize (Hmin1 r0 Hcov). specialize (Hmin2 r0 Hcov). simpl in Hmin2.
    rewrite <- Ht0. repeat split; try done; lia.
Qed.

Lemma coverage_brackets_anchor_witness :
  let r := result_of (12 * HOUR_MS) 0
             (mkMeterReading 100 (1 * MINUTE_MS) (Some 1%Q))
             (mkMeterReading 105 (10 * HOUR_MS) (Some 1%Q))
             (coverage_query 0 rising_rows) in
  1 ≤ recordCount (coverage r)
  ∧ (hasMonitoringGaps r = true ↔ recordCount (coverage r) < 12)
  ∧ ∃ t1 t2, firstRecord (coverage r) = Some t1 ∧ lastRecord (coverage r) = Some t2
      ∧ getMidnightTimestamp (date r) ≤ t1 ≤ midnightTimestamp r
      ∧ midnightTimestamp r ≤ t2 < getMidnightTimestamp (date r + 1).
Proof.
  apply (coverage_brackets_anchor no_faults (12 * HOUR_MS) (Some 0) (store_of rising_rows)).
  reflexivity.
Defined.

(** ** Today's consumption *)

Lemma getTodayConsumption_run (fails : Faults) (clock : Tick) (st : Store) :
  getTodayConsumption fails clock st
  = let run := calculateDailyConsumption fails (at_test clock)
                 (Some (getTodayDate (at_date clock))) st in
    (match fst run with
     | Returned (Some r) => Returned (Some (today_of r))
     | Returned None => Returned None
     | Threw e => Threw e
     end, snd run).
Proof.
  unfold getTodayConsumption, mbind, M_bind. cbv zeta.
  destruct (calculateDailyConsumption _ _ _ _) as [[[r|]|e] st']; reflexivity.
Qed.

(** X8: what [getTodayConsumption] returns is the value of the latest grid
    meter reading minus the value of the anchor of the day it read off the
    clock on entry, never negative, stamped with the time of the latest
    reading and flagged as calculated in real time; the same figure is then
    in the ledger under that day, marked complete exactly when the clock has
    passed midnight between the entry and the completeness test of the
    awaited computation. *)
Theorem getTodayConsumption_is_persisted (fails : Faults) (clock : Tick) (st : Store)
    (tc : TodayConsumption) :
  fst (getTodayConsumption fails clock st) = Returned (Some tc) →
  let today := getTodayDate (at_date clock) in
  (∃ m c, midnight_query today (power_data st) = Some m
     ∧ latest_query (power_data st) = Some c
     ∧ tc_midnightReading tc = mr_consumption_value m
     ∧ tc_currentReading tc = mr_consumption_value c
     ∧ tc_timestamp tc = mr_timestamp c
     ∧ tc_value tc = (mr_consumption_value c - mr_consumption_value m)%Q)
  ∧ (0 <= tc_value tc)%Q
  ∧ tc_isRealTimeCalculated tc = true
  ∧ ∃ row, daily_consumption (snd (getTodayConsumption fails clock st)) !! today
           = Some row
      ∧ calculated_consumption row = tc_value tc
      ∧ confidence_score row = tc_confidence tc
      ∧ has_monitoring_gaps row = tc_hasGaps tc
      ∧ (is_complete row = true ↔ today < getTodayDate (at_test clock)).
Proof.
  rewrite getTodayConsumption_run. cbv zeta. cbn [fst snd].
  set (today := getTodayDate (at_date clock)).
  destruct (fst (calculateDailyConsumption fails (at_test clock) (Some today) st))
    as [[r|]|e] eqn:Hrun; try discriminate.
  intros [= <-].
  pose proof (success_nonneg _ _ _ _ _ Hrun) as Hnn.
  pose proof (calculateDailyConsumption_ledger fails (at_test clock) (Some today) st)
    as Hledger.
  cbv zeta in Hledger. rewrite Hrun in Hledger. cbn [returned_value] in Hledger.
  apply calculateDailyConsumption_success in Hrun as (m & c & Hm & Hc & _ & Hr).
  cbn [default from_option id] in Hm, Hr.
  split; [exists m, c; by rewrite Hr|]. split; [done|]. split; [done|].
  exists (row_of r). rewrite Hledger. split.
  { rewrite Hr. cbn [date result_of]. apply lookup_insert_eq. }
  repeat split; try done.
  - rewrite Hr. cbn [row_of is_complete isComplete result_of]. by rewrite Z.ltb_lt.
  - rewrite Hr. cbn [row_of is_complete isComplete result_of]. by rewrite Z.ltb_lt.
Qed.

Lemma getTodayConsumption_is_persisted_witness :
  let clock := mkTick (12 * HOUR_MS) (12 * HOUR_MS + 5) in
  let tc := today_of (result_of (12 * HOUR_MS + 5) 0
                        (mkMeterReading 100 (1 * MINUTE_MS) (Some 1%Q))
                        (mkMeterReading 105 (10 * HOUR_MS) (Some 1%Q))
                        (coverage_query 0 rising_rows)) in
  let today := getTodayDate (at_date clock) in
  (∃ m c, midnight_query today rising_rows = Some m
     ∧ latest_query rising_rows = Some c
     ∧ tc_midnightReading tc = mr_consumption_value m
     ∧ tc_currentReading tc = mr_consumption_value c
     ∧ tc_timestamp tc = mr_timestamp c
     ∧ tc_value tc = (mr_consumption_value c - mr_consumption_value m)%Q)
  ∧ (0 <= tc_value tc)%Q
  ∧ tc_isRealTimeCalculated tc = true
  ∧ ∃ row, daily_consumption
             (snd (getTodayConsumption no_faults clock (store_of rising_rows))) !! today
           = Some row
      ∧ calculated_consumption row = tc_value tc
      ∧ confidence_score row = tc_confidence tc
      ∧ has_monitoring_gaps row = tc_hasGaps tc
      ∧ (is_complete row = true ↔ today < getTodayDate (at_test clock)).
Proof.
  apply (getTodayConsumption_is_persisted no_faults
           (mkTick (12 * HOUR_MS) (12 * HOUR_MS + 5)) (store_of rising_rows)).
  reflexivity.
Defined.

(** ** Consumption at a time *)

Lemma bind_run {A B} (m : M A) (f : A → M B) (st : Store) :
  (m ≫= f) st
  = match m st with
    | (Returned a, st') => f a st'
    | (Threw e, st') => (Threw e, st')
    end.
Proof. reflexivity. Qed.

Lemma initDatabase_run (fails : Faults) (st : Store) :
  initDatabase fails st
  = if fails CreateDailyTable
    then (Threw (SqliteError CreateDailyTable), journalled [CreateDailyTable] st)
    else (Returned (), journalled [CreateDailyTable; CreateDailyIndex] st).
Proof.
  unfold initDatabase, sqlite, sqlite_resolve. rewrite bind_run.
  destruct (fails CreateDailyTable); [done|].
  unfold journalled. simpl. by rewrite <- app_assoc.
Qed.

Lemma getConsumptionAtTime_run (fails : Faults) (now : Z) (clock : Tick) (dateStr : Z)
    (targetTime : option Z) (st : Store) :
  getConsumptionAtTime fails now clock dateStr targetTime st
  = match initDatabase fails st with
    | (Returned _, st1) =>
        try_catch
          (if bool_decide (dateStr = getTodayDate now) then getTodayConsumption fails clock
           else
             targetTimestamp ← toISOString targetTime;
             midnightReading ← call_reading_method fails "getMidnightReading" dateStr;
             mret None)
          (λ error, mret None) st1
    | (Threw e, st') => (Threw e, st')
    end.
Proof.
  unfold getConsumptionAtTime. rewrite bind_run.
  destruct (initDatabase fails st) as [[[]|e] st1]; [|done].
  unfold try_catch. destruct (bool_decide (dateStr = getTodayDate now)); [done|].
  destruct targetTime; reflexivity.
Qed.

(** X9: [getConsumptionAtTime] rejects exactly when the table creation is
    rejected; otherwise, asked for today, it behaves as [getTodayConsumption]
    run after the two statements of [initDatabase].  Whatever the
    arguments, a record it returns is today's, calculated in real time: the
    historical record (confidence 0.9, not real time) is never produced. *)
Theorem getConsumptionAtTime_only_real_time (fails : Faults) (now : Z) (clock : Tick)
    (dateStr : Z) (targetTime : option Z) (st : Store) :
  let run := getConsumptionAtTime fails now clock dateStr targetTime st in
  (fails CreateDailyTable = true →
   run = (Threw (SqliteError CreateDailyTable), journalled [CreateDailyTable] st))
  ∧ (fails CreateDailyTable = false → dateStr = getTodayDate now →
     run = getTodayConsumption fails clock
             (journalled [CreateDailyTable; CreateDailyIndex] st))
  ∧ (∀ tc, fst run = Returned (Some tc) →
           dateStr = getTodayDate now ∧ tc_isRealTimeCalculated tc = true).
Proof.
  intros run. subst run. rewrite getConsumptionAtTime_run, initDatabase_run.
  destruct (fails CreateDailyTable) eqn:Hinit.
  { split; [done|]. split; [done|]. intros tc [=]. }
  set (st1 := journalled [CreateDailyTable; CreateDailyIndex] st).
  unfold try_catch.
  destruct (bool_decide_reflect (dateStr = getTodayDate now)) as [->|Hpast].
  - rewrite getTodayConsumption_run. cbv zeta.
    rewrite (calculateDailyConsumption_run fails (at_test clock)
               (Some (getTodayDate (at_date clock))) st1).
    cbv zeta. rewrite Hinit.
    split; [done|]. split.
    + intros _ _. repeat case_match; simplify_eq/=; reflexivity.
    + intros tc. repeat case_match; simplify_eq/=; intros [= <-]; done.
  - split; [done|]. split; [done|].
    intros tc. unfold toISOString, call_reading_method, throw, mbind, M_bind. simpl.
    destruct targetTime; simpl; discriminate.
Qed.

Lemma getConsumptionAtTime_only_real_time_witness :
  getConsumptionAtTime no_faults (12 * HOUR_MS) (mkTick (12 * HOUR_MS) (12 * HOUR_MS + 5)) 0
    (Some (11 * HOUR_MS)) (store_of rising_rows)
  = getTodayConsumption no_faults (mkTick (12 * HOUR_MS) (12 * HOUR_MS + 5))
      (journalled [CreateDailyTable; CreateDailyIndex] (store_of rising_rows)).
Proof.
  pose proof (getConsumptionAtTime_only_real_time no_faults (12 * HOUR_MS)
                (mkTick (12 * HOUR_MS) (12 * HOUR_MS + 5)) 0
                (Some (11 * HOUR_MS)) (store_of rising_rows)) as H.
  cbv zeta in H. destruct H as (_ & H & _). apply H; reflexivity.
Defined.

(** ** Backfill batches *)

Lemma backfill_loop_length (fails : Z → Faults) (clock : Z → Tick) (n : nat) :
  ∀ (i : Z) (results l : list DailyResult) (st : Store),
  fst (backfill_loop fails clock i n results st) = Returned l →
  (length l ≤ length results + n)%nat.
Proof.
  induction n as [|n IH]; intros i results l st; cbn [backfill_loop].
  - intros [= <-]. lia.
  - unfold mbind, M_bind.
    destruct (calculateDailyConsumption _ _ _ st) as [[r|e] st1]; [|discriminate].
    intros Hl. apply IH in Hl. destruct r; rewrite ?length_app in Hl; simpl in Hl; lia.
Qed.

(** X10: a backfill over no days (any [days] below 1) returns the empty list
    without a single statement reaching the store, and a backfill that
    returns never returns more records than days, whatever the storage
    layer rejects and whatever the clock shows. *)
Theorem backfill_bounds (fails : Z → Faults) (clock : Z → Tick) (days : Z) (st : Store) :
  (days ≤ 0 → backfillDailyConsumptions fails clock days st = (Returned [], st))
  ∧ (∀ l, fst (backfillDailyConsumptions fails clock days st) = Returned l →
          (length l ≤ Z.to_nat days)%nat).
Proof.
  unfold backfillDailyConsumptions. split.
  - intros Hdays. replace (Z.to_nat days) with 0%nat by lia. reflexivity.
  - intros l Hl. by apply backfill_loop_length in Hl.
Qed.

Lemma backfill_bounds_witness :
  backfillDailyConsumptions (λ _, no_faults) (steady noon_day5) (-3) (store_of two_day_rows)
  = (Returned [], store_of two_day_rows).
Proof.
  apply (proj1 (backfill_bounds (λ _, no_faults) (steady noon_day5) (-3)
                  (store_of two_day_rows))).
  lia.
Defined.

Lemma days_from_bounds (now i : Z) (n : nat) (d : Z) :
  In d (days_from now i n) → getTodayDate now - i ≤ d < getTodayDate now - i + Z.of_nat n.
Proof.
  unfold days_from. rewrite in_map_iff. intros (k & <- & Hk). apply in_seq in Hk. lia.
Qed.

Lemma omap_dates_sublist (f : Z → option DailyResult) (g : Z → Z) (l : list Z) :
  (∀ i r, f i = Some r → date r = g i) →
  sublist (map date (omap f l)) (map g l).
Proof.
  intros Hf. induction l as [|i l IH]; [constructor|].
  rewrite omap_cons_eq. destruct (f i) as [r|] eqn:E.
  - simpl. rewrite (Hf i r E). by constructor.
  - simpl. by constructor.
Qed.

Lemma success_date (fails : Faults) (now d : Z) (st : Store) (r : DailyResult) :
  returned_value (fst (calculateDailyConsumption fails now (Some d) st)) = Some r →
  date r = d
  ∧ isComplete r = (d <? getTodayDate now)
  ∧ ∃ c, latest_query (power_data st) = Some c
      ∧ currentReading r = mr_consumption_value c
      ∧ currentTimestamp r = mr_timestamp c.
Proof.
  destruct (fst (calculateDailyConsumption fails now (Some d) st)) as [[r'|]|e] eqn:Hrun;
    try discriminate.
  intros [= ->].
  apply calculateDailyConsumption_success in Hrun as (m & c & _ & Hc & _ & ->).
  split; [done|]. split; [done|]. by exists c.
Qed.

Lemma in_turn_results (fails : Z → Faults) (clock : Z → Tick) (st : Store) (days : Z)
    (r : DailyResult) :
  In r (omap (turn_result fails clock st) (turns days)) →
  ∃ i, 0 ≤ i < days ∧ turn_result fails clock st i = Some r.
Proof.
  intros Hr. apply list_elem_of_In, list_elem_of_omap in Hr as (i & Hi & Hf).
  exists i. split; [by apply in_turns, list_elem_of_In|done].
Qed.

Lemma same_day_sublist (fails : Z → Faults) (clock : Z → Tick) (st : Store)
    (now days : Z) :
  same_day now clock days →
  sublist (map date (omap (turn_result fails clock st) (turns days))) (last_days now days).
Proof.
  intros Hday. rewrite <- (same_day_dates now clock days Hday).
  apply omap_dates_sublist. intros i r Hf. by apply success_date in Hf as [? _].
Qed.

(** X11: when no table creation is rejected and every reading of the clock
    during the batch falls on one calendar day, the records of a backfill
    come in the order of the calendar, one per date of the last [days] days
    at most; each is complete unless it is that day's; and all of them
    carry one and the same current reading, the latest of the whole
    table. *)
Theorem backfill_batch_shape (fails : Z → Faults) (clock : Z → Tick) (now days : Z)
    (st : Store) :
  (∀ i, 0 ≤ i < days → fails i CreateDailyTable = false) →
  same_day now clock days →
  ∃ l, fst (backfillDailyConsumptions fails clock days st) = Returned l
    ∧ sublist (map date l) (last_days now days)
    ∧ (∀ r, In r l → (isComplete r = true ↔ date r ≠ getTodayDate now))
    ∧ (∀ r, In r l →
         ∃ c, latest_query (power_data st) = Some c
           ∧ currentReading r = mr_consumption_value c
           ∧ currentTimestamp r = mr_timestamp c).
Proof.
  intros Hinit Hday.
  destruct (backfill_run fails clock days st Hinit) as (-> & _).
  eexists. split; [reflexivity|].
  split; [by apply same_day_sublist|]. split.
  - intros r Hr. apply in_turn_results in Hr as (i & Hi & Hf).
    apply success_date in Hf as (-> & -> & _).
    rewrite turn_date_days_ago. destruct (Hday i Hi) as [-> ->].
    rewrite Z.ltb_lt. lia.
  - intros r Hr. apply in_turn_results in Hr as (i & Hi & Hf).
    by apply success_date in Hf as (_ & _ & ?).
Qed.

Lemma backfill_batch_shape_witness :
  ∃ l, fst (backfillDailyConsumptions (λ _, no_faults) (steady noon_day5) 6
              (store_of two_day_rows))
       = Returned l
    ∧ sublist (map date l) (last_days noon_day5 6)
    ∧ (∀ r, In r l → (isComplete r = true ↔ date r ≠ getTodayDate noon_day5))
    ∧ (∀ r, In r l →
         ∃ c, latest_query two_day_rows = Some c
           ∧ currentReading r = mr_consumption_value c
           ∧ currentTimestamp r = mr_timestamp c).
Proof.
  apply (backfill_batch_shape (λ _, no_faults) (steady noon_day5) noon_day5 6
           (store_of two_day_rows)).
  - reflexivity.
  - intros i Hi. split; reflexivity.
Defined.

(** X26: when no table creation is rejected, turn [i] of a backfill computes
    the date that lies [i] days before the clock reading of that turn, one
    computation per turn, and the batch returns exactly the records of the
    turns whose computation succeeds, in the order of the turns; a turn
    without record takes nothing from the others, each record being the one
    its computation gives on the readings as they are.  The ledger receives
    the returned records.  While the clock stays on one calendar day, the
    dates computed are the last [days] calendar dates, oldest first. *)
Theorem backfill_collects_successes (fails : Z → Faults) (clock : Z → Tick) (days : Z)
    (st : Store) :
  (∀ i, 0 ≤ i < days → fails i CreateDailyTable = false) →
  let found := omap (turn_result fails clock st) (turns days) in
  let run := backfillDailyConsumptions fails clock days st in
  fst run = Returned found
  ∧ power_data (snd run) = power_data st
  ∧ daily_consumption (snd run) = upsert_all found (daily_consumption st)
  ∧ (∃ ops : list StoreOp, journal (snd run) = journal st ++ ops
       ∧ List.filter is_anchor_select ops
         = map (λ i, SelectMidnight (turn_date clock i)) (turns days))
  ∧ (∀ now, same_day now clock days →
            map (turn_date clock) (turns days) = last_days now days).
Proof.
  intros Hinit found run. subst found run.
  destruct (backfill_run fails clock days st Hinit) as (H1 & H2 & H3 & H4).
  repeat split; try done. intros now. apply same_day_dates.
Qed.

Lemma backfill_collects_successes_witness :
  let found := omap (turn_result (λ _, no_faults) (steady noon_day5) (store_of two_day_rows))
                 (turns 6) in
  let run := backfillDailyConsumptions (λ _, no_faults) (steady noon_day5) 6
               (store_of two_day_rows) in
  fst run = Returned found
  ∧ power_data (snd run) = two_day_rows
  ∧ daily_consumption (snd run) = upsert_all found ∅
  ∧ (∃ ops : list StoreOp, journal (snd run) = [] ++ ops
       ∧ List.filter is_anchor_select ops
         = map (λ i, SelectMidnight (turn_date (steady noon_day5) i)) (turns 6))
  ∧ (∀ now, same_day now (steady noon_day5) 6 →
            map (turn_date (steady noon_day5)) (turns 6) = last_days now 6).
Proof.
  apply (backfill_collects_successes (λ _, no_faults) (steady noon_day5) 6
           (store_of two_day_rows)).
  reflexivity.
Defined.

(** * Validation and confidence of scraped data *)

Lemma add_if_lower (b : bool) (k c lo : Q) :
  (0 <= k)%Q → (lo <= c)%Q → (lo <= add_if b k c)%Q.
Proof. intros Hk Hc. unfold add_if. destruct b; lra. Qed.

Lemma Math_min_one_bounds (c lo : Q) :
  (lo <= c)%Q → (lo <= 1)%Q → (lo <= Math_min c 1.0 <= 1)%Q.
Proof.
  intros Hc Hlo. unfold Math_min.
  destruct (Q.min_spec c 1.0) as [[Hlt ->]|[Hle ->]]; lra.
Qed.

Lemma calculateConfidence_range (data : Scraped) :
  (0.5 <= calculateConfidence data <= 1)%Q.
Proof.
  unfold calculateConfidence. destruct (raw_category data); cbv zeta;
    (apply Math_min_one_bounds; [|lra]); repeat apply add_if_lower; lra.
Qed.

Lemma calculateConfidence_meter (data : Scraped) :
  raw_category data = meter_reading ∨ raw_category data = balance →
  (0.9 <= calculateConfidence data <= 1)%Q.
Proof.
  intros Hcat. split; [|apply calculateConfidence_range].
  unfold calculateConfidence. destruct Hcat as [->| ->]; cbv zeta;
    (apply Math_min_one_bounds; [|lra]); repeat apply add_if_lower; lra.
Qed.

(** X12: the confidence assigned to a scraped datum lies between 0.5 and 1;
    it is at least 0.9 for a meter reading and for a balance, and at least
    0.8 for an availability datum whose status is not unknown. *)
Theorem calculateConfidence_bounds (data : Scraped) :
  (0.5 <= calculateConfidence data <= 1)%Q
  ∧ (raw_category data = meter_reading ∨ raw_category data = balance →
     (0.9 <= calculateConfidence data)%Q)
  ∧ (raw_category data = availability → raw_status data ≠ Some "unknown" →
     (0.8 <= calculateConfidence data)%Q).
Proof.
  split; [apply calculateConfidence_range|]. split.
  - intros Hcat. by apply calculateConfidence_meter.
  - intros Hcat Hs. unfold calculateConfidence. rewrite Hcat. cbv zeta.
    apply Math_min_one_bounds; [|lra].
    apply add_if_lower; [lra|]. unfold str_is.
    rewrite bool_decide_eq_false_2 by done. simpl. lra.
Qed.

Lemma calculateConfidence_bounds_witness :
  (0.9 <= calculateConfidence (scraped_reading 14591))%Q
  ∧ (0.8 <= calculateConfidence (scraped_status "online"))%Q.
Proof.
  destruct (calculateConfidence_bounds (scraped_reading 14591)) as (_ & H1 & _).
  destruct (calculateConfidence_bounds (scraped_status "online")) as (_ & _ & H2).
  split; [apply H1; by left|apply H2; [reflexivity|discriminate]].
Defined.

Lemma num_ge_true (v : option Q) (k : Q) :
  num_ge v k = true ↔ ∃ q, v = Some q ∧ (k <= q)%Q.
Proof.
  unfold num_ge. destruct v as [q|].
  - rewrite Qle_bool_iff. split; [eauto|]. by intros (? & [= <-] & ?).
  - split; [done|]. by intros (? & [=] & _).
Qed.

Lemma num_le_true (v : option Q) (k : Q) :
  num_le v k = true ↔ ∃ q, v = Some q ∧ (q <= k)%Q.
Proof.
  unfold num_le. destruct v as [q|].
  - rewrite Qle_bool_iff. split; [eauto|]. by intros (? & [= <-] & ?).
  - split; [done|]. by intros (? & [=] & _).
Qed.

Lemma in_processPowerData (t : Z) (powerData : list Scraped) (data : Reading) :
  In data (processPowerData t powerData) ↔
  ∃ raw, In raw powerData ∧ data = stamp t raw ∧ isValidData (stamp t raw) = true.
Proof.
  unfold processPowerData. rewrite filter_In, in_map_iff. split.
  - intros [(raw & <- & Hraw) Hv]. eauto.
  - intros (raw & Hraw & -> & Hv). eauto.
Qed.

(** X13: every reading that leaves the page scan is stamped with the time of
    the scan, carries a confidence between 0.5 and 1 and a fingerprint of
    its own category, source and minute; an availability reading has one of
    the three statuses, a meter reading a value between 0 and 100000 in KWH
    with a confidence of at least 0.9, a consumption reading a positive
    value. *)
Theorem processed_readings_well_formed (t : Z) (powerData : list Scraped)
    (data : Reading) :
  In data (processPowerData t powerData) →
  data_timestamp data = t
  ∧ (∃ q, data_confidence data = Some q ∧ (0.5 <= q <= 1)%Q)
  ∧ (∃ f, data_fingerprint data = Some f ∧ fp_minute f = minute_of t
        ∧ fp_category f = data_category data ∧ fp_source f = data_source data)
  ∧ (data_category data = availability →
     data_status data = Some "online" ∨ data_status data = Some "offline"
     ∨ data_status data = Some "unknown")
  ∧ (data_category data = meter_reading →
     ∃ v q, data_value data = Some v ∧ (0 <= v <= 100000)%Q
       ∧ data_unit data = Some "KWH"
       ∧ data_confidence data = Some q ∧ (0.9 <= q <= 1)%Q)
  ∧ (data_category data = consumption →
     ∃ v, data_value data = Some v ∧ (0 < v)%Q).
Proof.
  intros Hin. apply in_processPowerData in Hin as (raw & _ & -> & Hvalid).
  split; [done|]. split; [|split; [|split; [|split]]].
  - eexists. split; [reflexivity|]. apply calculateConfidence_range.
  - eexists. split; [reflexivity|]. done.
  - intros Hcat. unfold isValidData in Hvalid. cbn [data_category stamp] in Hcat, Hvalid.
    rewrite Hcat in Hvalid. cbn [data_status stamp] in *.
    unfold str_is in Hvalid. rewrite !orb_true_iff, !bool_decide_eq_true in Hvalid. tauto.
  - intros Hcat. unfold isValidData in Hvalid. cbn [data_category stamp] in Hcat, Hvalid.
    rewrite Hcat in Hvalid. cbv zeta in Hvalid. cbn [data_value data_unit stamp] in *.
    rewrite !andb_true_iff in Hvalid. destruct Hvalid as [[Hge Hle] Hunit].
    apply num_ge_true in Hge as (v & Hv & Hge). apply num_le_true in Hle as (v' & Hv' & Hle).
    rewrite Hv in Hv'. injection Hv' as <-.
    exists v, (calculateConfidence raw). split; [done|]. split; [done|].
    split; [by apply bool_decide_eq_true in Hunit|]. split; [done|].
    apply calculateConfidence_meter. by left.
  - intros Hcat. unfold isValidData in Hvalid. cbn [data_category stamp] in Hcat, Hvalid.
    rewrite Hcat in Hvalid. cbv zeta in Hvalid. cbn [data_value stamp] in *.
    destruct (raw_value raw) as [v|]; [|discriminate].
    exists v. split; [done|].
    destruct (falsy_number (Some v) || num_le (Some v) 0) eqn:E; [discriminate|].
    apply orb_false_iff in E as [_ E]. unfold num_le in E.
    apply Qnot_le_lt. intros Hle. apply Qle_bool_iff in Hle. congruence.
Qed.

Lemma processed_readings_well_formed_witness :
  let data := stamp (5 * MINUTE_MS) (scraped_reading 14591) in
  data_timestamp data = 5 * MINUTE_MS
  ∧ (∃ q, data_confidence data = Some q ∧ (0.5 <= q <= 1)%Q)
  ∧ (∃ f, data_fingerprint data = Some f ∧ fp_minute f = minute_of (5 * MINUTE_MS)
        ∧ fp_category f = data_category data ∧ fp_source f = data_source data)
  ∧ (data_category data = availability →
     data_status data = Some "online" ∨ data_status data = Some "offline"
     ∨ data_status data = Some "unknown")
  ∧ (data_category data = meter_reading →
     ∃ v q, data_value data = Some v ∧ (0 <= v <= 100000)%Q
       ∧ data_unit data = Some "KWH"
       ∧ data_confidence data = Some q ∧ (0.9 <= q <= 1)%Q)
  ∧ (data_category data = consumption →
     ∃ v, data_value data = Some v ∧ (0 < v)%Q).
Proof.
  apply (processed_readings_well_formed (5 * MINUTE_MS)
           [scraped_status "weird"; scraped_reading 14591]).
  vm_compute. tauto.
Defined.

(** X14: a meter reading of exactly 0 passes the validation but is stored
    with a NULL value ([data.value || null]): appending its row changes
    neither the anchor of any day nor the latest reading, while the coverage
    of its own day counts one row more. *)
Theorem zero_reading_is_invisible (t d : Z) (raw : Scraped) (v : Q) (rows : list Row) :
  raw_category raw = meter_reading → raw_source raw = grid →
  raw_value raw = Some v → raw_unit raw = Some "KWH" → (v == 0)%Q →
  getMidnightTimestamp d ≤ t < getMidnightTimestamp (d + 1) →
  let row := data_row (stamp t raw) in
  isValidData (stamp t raw) = true
  ∧ consumption_value row = None
  ∧ (∀ d', midnight_query d' (rows ++ [row]) = midnight_query d' rows)
  ∧ latest_query (rows ++ [row]) = latest_query rows
  ∧ recordCount (coverage_query d (rows ++ [row]))
    = recordCount (coverage_query d rows) + 1.
Proof.
  intros Hcat Hsrc Hv Hunit Hzero Hwin row.
  assert (Hnull : consumption_value row = None).
  { subst row. cbn [data_row consumption_value stamp data_value]. rewrite Hv.
    unfold number_or_null. by rewrite (proj2 (Qeq_bool_iff v 0) Hzero). }
  assert (Hproj : omap grid_meter_reading (rows ++ [row]) = omap grid_meter_reading rows).
  { rewrite omap_app. rewrite omap_cons_eq. unfold grid_meter_reading at 2.
    rewrite Hnull. destruct (_ && _); simpl; by rewrite app_nil_r. }
  split; [|split; [done|split; [|split]]].
  - unfold isValidData. cbn [data_category data_value data_unit stamp].
    rewrite Hcat, Hv, Hunit. cbv zeta. unfold num_ge, num_le, str_is.
    rewrite bool_decide_eq_true_2 by done.
    rewrite !andb_true_iff, !Qle_bool_iff. split; [split|done]; rewrite Hzero; lra.
  - intros d'. unfold midnight_query, readings_of_day. by rewrite Hproj.
  - unfold latest_query. by rewrite Hproj.
  - unfold coverage_query. cbn [recordCount]. unfold coverage_rows.
    rewrite List.filter_app, length_app.
    replace (List.filter _ [row]) with [row]; [simpl; lia|].
    simpl. unfold in_window. rewrite nextMidnightOf_succ.
    subst row. cbn [data_row timestamp category source stamp data_timestamp
                      data_category data_source].
    rewrite Hcat, Hsrc.
    rewrite (proj2 (Z.leb_le _ _)) by lia. rewrite (proj2 (Z.ltb_lt _ _)) by lia.
    reflexivity.
Qed.

Lemma zero_reading_is_invisible_witness :
  let row := data_row (stamp (13 * HOUR_MS) (scraped_reading 0)) in
  isValidData (stamp (13 * HOUR_MS) (scraped_reading 0)) = true
  ∧ consumption_value row = None
  ∧ (∀ d', midnight_query d' (rising_rows ++ [row]) = midnight_query d' rising_rows)
  ∧ latest_query (rising_rows ++ [row]) = latest_query rising_rows
  ∧ recordCount (coverage_query 0 (rising_rows ++ [row]))
    = recordCount (coverage_query 0 rising_rows) + 1.
Proof.
  apply (zero_reading_is_invisible (13 * HOUR_MS) 0 (scraped_reading 0) 0 rising_rows);
    try reflexivity.
  vm_compute. split; [discriminate|reflexivity].
Defined.

(** X15: saving the readings of a page scan keeps every meter-reading row of
    the table at a confidence between 0.9 and 1, whatever the storage layer
    rejects. *)
Theorem scan_keeps_meter_confidence (fails : nat → Faults) (t : Z)
    (powerData : list Scraped) (st : Store) :
  confident_meter_rows (power_data st) →
  confident_meter_rows
    (power_data (snd (saveData fails (processPowerData t powerData) st))).
Proof.
  intros Hinv. unfold saveData.
  destruct (saveData_loop_rows fails (processPowerData t powerData) 0%nat (0, 0) st)
    as (c & st' & Hrun & Hrows & _).
  rewrite Hrun. cbn [snd]. rewrite Hrows.
  destruct (loop_rows_added fails (processPowerData t powerData) 0%nat (power_data st))
    as (added & -> & Hadded).
  intros r Hr Hcat. apply in_app_or in Hr as [Hr|Hr]; [by apply Hinv|].
  destruct (Hadded r Hr) as [(data & Hin & ->)|[Hev _]]; [|congruence].
  apply in_processPowerData in Hin as (raw & _ & -> & _).
  exists (calculateConfidence raw). split; [done|].
  apply calculateConfidence_meter. left. exact Hcat.
Qed.

Lemma scan_keeps_meter_confidence_witness :
  confident_meter_rows
    (power_data (snd (saveData (λ _, no_faults)
                        (processPowerData (5 * MINUTE_MS) [scraped_reading 14591])
                        (store_of [])))).
Proof.
  apply (scan_keeps_meter_confidence (λ _, no_faults) (5 * MINUTE_MS)
           [scraped_reading 14591] (store_of [])).
  intros r [].
Defined.

(** X16: on a table whose meter-reading rows carry confidences between 0.9
    and 1, the 0.8 default never applies: the score of a computed record is
    the smaller of the two stored confidences, times 0.7 when the day has
    gaps, and lies between 0.63 and 1. *)
Theorem confident_rows_score (fails : Faults) (now : Z) (dateStr : option Z)
    (st : Store) (r : DailyResult) :
  confident_meter_rows (power_data st) →
  fst (calculateDailyConsumption fails now dateStr st) = Returned (Some r) →
  let d := default (getTodayDate now) dateStr in
  ∃ m c a b, midnight_query d (power_data st) = Some m
    ∧ latest_query (power_data st) = Some c
    ∧ mr_confidence m = Some a ∧ mr_confidence c = Some b
    ∧ (confidenceScore r == Qmin a b * (if hasMonitoringGaps r then 0.7 else 1.0))%Q
    ∧ (0.63 <= confidenceScore r <= 1)%Q.
Proof.
  intros Hinv Hrun d.
  apply calculateDailyConsumption_success in Hrun as (m & c & Hm & Hc & _ & ->).
  fold d in Hm |- *.
  destruct (anchor_then_latest d _ m Hm)
    as (c' & r0 & rc & Hc' & Hr0 & Hc0 & Hp0 & Hrc & Hcat & _ & Hpc & _).
  rewrite Hc in Hc'. injection Hc' as <-.
  destruct (Hinv r0 Hr0 (proj1 Hc0)) as (a & Ha & Hab).
  destruct (Hinv rc Hrc Hcat) as (b & Hb & Hbb).
  destruct Hp0 as (_ & _ & Hma), Hpc as (_ & _ & Hcb).
  rewrite Ha in Hma. rewrite Hb in Hcb.
  exists m, c, a, b. do 2 (split; [done|]). do 2 (split; [done|]).
  unfold result_of, score_of, Math_min. cbn [confidenceScore hasMonitoringGaps].
  rewrite <- Hma, <- Hcb. unfold or_default.
  assert (Ea : Qeq_bool a 0 = false).
  { destruct (Qeq_bool a 0) eqn:E; [|done]. apply Qeq_bool_iff in E. lra. }
  assert (Eb : Qeq_bool b 0 = false).
  { destruct (Qeq_bool b 0) eqn:E; [|done]. apply Qeq_bool_iff in E. lra. }
  rewrite Ea, Eb.
  destruct (Q.min_spec a b) as [[_ Hmin]|[_ Hmin]];
    destruct (hasGaps _); rewrite Hmin; split; try ring; lra.
Qed.

Lemma confident_rows_score_witness :
  ∃ m c a b, midnight_query 0 rising_rows = Some m
    ∧ latest_query rising_rows = Some c
    ∧ mr_confidence m = Some a ∧ mr_confidence c = Some b
    ∧ (confidenceScore
         (result_of (12 * HOUR_MS) 0
            (mkMeterReading 100 (1 * MINUTE_MS) (Some 1%Q))
            (mkMeterReading 105 (10 * HOUR_MS) (Some 1%Q))
            (coverage_query 0 rising_rows))
       == Qmin a b * 0.7)%Q
    ∧ (0.63 <= confidenceScore
                 (result_of (12 * HOUR_MS) 0
                    (mkMeterReading 100 (1 * MINUTE_MS) (Some 1%Q))
                    (mkMeterReading 105 (10 * HOUR_MS) (Some 1%Q))
                    (coverage_query 0 rising_rows)) <= 1)%Q.
Proof.
  apply (confident_rows_score no_faults (12 * HOUR_MS) (Some 0) (store_of rising_rows)).
  - intros r Hr _. exists 1%Q. split; [|split; discriminate].
    destruct Hr as [<-|[<-|[]]]; reflexivity.
  - reflexivity.
Defined.

(** * Further properties of [saveData] *)

Lemma saveData_step_counters (fails : Faults) (data : Reading) (counters : Z * Z)
    (st : Store) :
  ∃ st', saveData_step fails data counters st
         = (Returned (step_counters fails data (power_data st) counters), st')
    ∧ power_data st' = step_rows fails data (power_data st)
    ∧ daily_consumption st' = daily_consumption st.
Proof.
  unfold saveData_step, step_rows, step_counters. fold (is_grid_availability data).
  assert (Htrack : ∃ st1,
            (if is_grid_availability data then trackGridStatusChange fails data else mret ()) st
            = (Returned (), st1)
            ∧ power_data st1
              = (if is_grid_availability data then track_rows fails data (power_data st)
                 else power_data st)
            ∧ daily_consumption st1 = daily_consumption st).
  { destruct (is_grid_availability data); [apply trackGridStatusChange_rows|].
    by exists st. }
  destruct Htrack as (st1 & Hrun & Hrows & Hledger).
  unfold try_catch at 1. unfold mbind, M_bind at 1. rewrite Hrun.
  unfold try_catch, mbind, M_bind, insert_power_data, sqlite, throw, mret, M_ret.
  cbn [power_data daily_consumption journal journalled]. rewrite <- Hrows.
  destruct (fails InsertData); simpl; [by eauto|].
  destruct (fingerprint_taken (data_fingerprint data) (power_data st1)); simpl; by eauto.
Qed.

Lemma saveData_loop_counters (fails : nat → Faults) (dataArray : list Reading) :
  ∀ (k : nat) (counters : Z * Z) (st : Store),
  ∃ st', saveData_loop fails k dataArray counters st
         = (Returned (loop_counters fails k dataArray (power_data st) counters), st')
    ∧ power_data st' = loop_rows fails k dataArray (power_data st)
    ∧ daily_consumption st' = daily_consumption st.
Proof.
  induction dataArray as [|data rest IH]; intros k counters st; simpl.
  - by exists st.
  - destruct (saveData_step_counters (fails k) data counters st) as (st1 & Hstep & Hrows & Hl).
    rewrite bind_run, Hstep.
    destruct (IH (S k) (step_counters (fails k) data (power_data st) counters) st1)
      as (st2 & Hloop & Hrows2 & Hl2).
    exists st2. rewrite Hloop, Hrows2, Hrows, Hl2, Hl. done.
Qed.

Lemma non_events_app (l1 l2 : list Row) :
  non_events (l1 ++ l2) = non_events l1 ++ non_events l2.
Proof. apply List.filter_app. Qed.

Lemma non_events_of_events (l : list Row) :
  (∀ r, In r l → category r = event) → non_events l = [].
Proof.
  intros H. induction l as [|r l IH]; [done|]. simpl.
  rewrite (H r) by (by left). simpl. apply IH. intros r' Hr'. apply H. by right.
Qed.

Lemma track_rows_non_events (fails : Faults) (data : Reading) (rows : list Row) :
  non_events (track_rows fails data rows) = non_events rows.
Proof.
  destruct (track_rows_added fails data rows) as (added & -> & Hadded).
  rewrite non_events_app, (non_events_of_events added), app_nil_r; [done|].
  intros r Hr. by apply Hadded.
Qed.

Lemma loop_counters_account (fails : nat → Faults) (dataArray : list Reading) :
  ∀ (k : nat) (rows : list Row) (counters : Z * Z),
  let counters' := loop_counters fails k dataArray rows counters in
  fst counters ≤ fst counters' ∧ snd counters ≤ snd counters'
  ∧ (fst counters' - fst counters) + (snd counters' - snd counters)
    ≤ Z.of_nat (length dataArray)
  ∧ ((∀ j, fails j InsertData = false) →
     (fst counters' - fst counters) + (snd counters' - snd counters)
     = Z.of_nat (length dataArray))
  ∧ (Forall (λ data, data_category data ≠ event) dataArray →
     Z.of_nat (length (non_events (loop_rows fails k dataArray rows)))
     = Z.of_nat (length (non_events rows)) + (fst counters' - fst counters)).
Proof.
  induction dataArray as [|data rest IH]; intros k rows counters; cbn [loop_counters loop_rows].
  - cbv zeta. simpl. repeat split; intros; lia.
  - specialize (IH (S k) (step_rows (fails k) data rows)
                  (step_counters (fails k) data rows counters)).
    cbv zeta in IH |- *. destruct IH as (IH1 & IH2 & IH3 & IH4 & IH5).
    set (c1 := step_counters (fails k) data rows counters) in *.
    set (rows1 := if is_grid_availability data then track_rows (fails k) data rows else rows).
    assert (Hne1 : non_events rows1 = non_events rows).
    { subst rows1. destruct (is_grid_availability data); [apply track_rows_non_events|done]. }
    assert (Hstep : (c1 = counters ∧ step_rows (fails k) data rows = rows1
                     ∧ fails k InsertData = true)
                    ∨ (c1 = (fst counters, snd counters + 1)
                       ∧ step_rows (fails k) data rows = rows1)
                    ∨ (c1 = (fst counters + 1, snd counters)
                       ∧ step_rows (fails k) data rows = rows1 ++ [data_row data])).
    { subst c1. unfold step_counters, step_rows. fold rows1.
      destruct (fails k InsertData); [by left|]. simpl.
      destruct (fingerprint_taken _ rows1); [right; by left|right; by right]. }
    rewrite length_cons, Nat2Z.inj_succ.
    destruct Hstep as [(Hc & Hr & Hf)|[(Hc & Hr)|(Hc & Hr)]]; rewrite Hc in *; rewrite Hr in *;
      cbn [fst snd] in *.
    + repeat split; try lia.
      * intros Hok. rewrite Hok in Hf. discriminate.
      * intros Hall. apply Forall_cons in Hall as [_ Hall]. rewrite IH5, Hne1 by done. lia.
    + repeat split; try lia.
      * intros Hok. specialize (IH4 Hok). lia.
      * intros Hall. apply Forall_cons in Hall as [_ Hall]. rewrite IH5, Hne1 by done. lia.
    + repeat split; try lia.
      * intros Hok. specialize (IH4 Hok). lia.
      * intros Hall. apply Forall_cons in Hall as [Hd Hall]. rewrite IH5 by done.
        rewrite non_events_app, length_app, Hne1. simpl.
        rewrite bool_decide_eq_false_2 by done. simpl. lia.
Qed.

(** X17: [saveData] always resolves, never touches the ledger, and its
    counters add up: saved and duplicates are not negative and together do
    not exceed the number of readings; they equal it when no insert of a
    reading is rejected by the storage layer; and, for a batch without
    event data, saved is exactly the number of non-event rows the table
    has gained. *)
Theorem saveData_accounting (fails : nat → Faults) (dataArray : list Reading)
    (st : Store) :
  ∃ saved duplicates st',
    saveData fails dataArray st = (Returned (saved, duplicates), st')
    ∧ daily_consumption st' = daily_consumption st
    ∧ 0 ≤ saved ∧ 0 ≤ duplicates
    ∧ saved + duplicates ≤ Z.of_nat (length dataArray)
    ∧ ((∀ k, fails k InsertData = false) →
       saved + duplicates = Z.of_nat (length dataArray))
    ∧ (Forall (λ data, data_category data ≠ event) dataArray →
       Z.of_nat (length (non_events (power_data st')))
       = Z.of_nat (length (non_events (power_data st))) + saved).
Proof.
  unfold saveData.
  destruct (saveData_loop_counters fails dataArray 0%nat (0, 0) st)
    as (st' & Hrun & Hrows & Hledger).
  destruct (loop_counters_account fails dataArray 0%nat (power_data st) (0, 0))
    as (H1 & H2 & H3 & H4 & H5).
  destruct (loop_counters fails 0 dataArray (power_data st) (0, 0)) as [saved duplicates].
  cbn [fst snd] in *.
  exists saved, duplicates, st'. split; [done|]. split; [done|].
  repeat split; try lia.
  - intros Hok. specialize (H4 Hok). lia.
  - intros Hall. rewrite Hrows, (H5 Hall). lia.
Qed.

Lemma saveData_accounting_witness :
  ∃ saved duplicates st',
    saveData (λ _, no_faults)
      [grid_status_reading 0 "online"; grid_status_reading 1000 "online"] (store_of [])
    = (Returned (saved, duplicates), st')
    ∧ daily_consumption st' = ∅
    ∧ 0 ≤ saved ∧ 0 ≤ duplicates
    ∧ saved + duplicates ≤ 2
    ∧ ((∀ k : nat, no_faults InsertData = false) → saved + duplicates = 2)
    ∧ (Forall (λ data, data_category data ≠ event)
         [grid_status_reading 0 "online"; grid_status_reading 1000 "online"] →
       Z.of_nat (length (non_events (power_data st'))) = 0 + saved).
Proof.
  apply (saveData_accounting (λ _, no_faults)
           [grid_status_reading 0 "online"; grid_status_reading 1000 "online"]
           (store_of [])).
Defined.

(** ** Fingerprints *)

Lemma unique_fingerprints_snoc (rows : list Row) (x : Row) :
  unique_fingerprints rows →
  fingerprint_taken (fingerprint x) rows = false →
  unique_fingerprints (rows ++ [x]).
Proof.
  intros Hu Hx l1 r l2 Heq.
  destruct l2 as [|y l2 _] using rev_ind.
  - apply app_inj_tail in Heq as [-> ->]. done.
  - rewrite app_comm_cons, app_assoc in Heq. apply app_inj_tail in Heq as [Heq _].
    by apply (Hu l1 r l2).
Qed.

Lemma track_rows_unique (fails : Faults) (data : Reading) (rows : list Row) :
  unique_fingerprints rows → unique_fingerprints (track_rows fails data rows).
Proof.
  intros Hu. unfold track_rows. repeat case_match; try done.
  apply unique_fingerprints_snoc; [done|].
  match goal with H : _ || _ = false |- _ => apply orb_false_iff in H as [_ H] end.
  done.
Qed.

Lemma step_rows_unique (fails : Faults) (data : Reading) (rows : list Row) :
  unique_fingerprints rows → unique_fingerprints (step_rows fails data rows).
Proof.
  intros Hu. unfold step_rows.
  set (rows1 := if is_grid_availability data then track_rows fails data rows else rows).
  assert (Hu1 : unique_fingerprints rows1).
  { subst rows1. destruct (is_grid_availability data); [by apply track_rows_unique|done]. }
  destruct (fails InsertData || fingerprint_taken (data_fingerprint data) rows1) eqn:E;
    [done|].
  apply orb_false_iff in E as [_ E]. by apply unique_fingerprints_snoc.
Qed.

(** X18: a table in which no row repeats an earlier fingerprint stays so
    under [saveData], events included, whatever the storage layer rejects. *)
Theorem saveData_keeps_fingerprints_unique (fails : nat → Faults)
    (dataArray : list Reading) (st : Store) :
  unique_fingerprints (power_data st) →
  unique_fingerprints (power_data (snd (saveData fails dataArray st))).
Proof.
  intros Hu. unfold saveData.
  destruct (saveData_loop_rows fails dataArray 0%nat (0, 0) st)
    as (c & st' & Hrun & Hrows & _).
  rewrite Hrun. cbn [snd]. rewrite Hrows. clear Hrun Hrows.
  generalize 0%nat. revert Hu. generalize (power_data st).
  induction dataArray as [|data rest IH]; intros rows Hu k; [done|].
  cbn [loop_rows]. apply IH. by apply step_rows_unique.
Qed.

Lemma saveData_keeps_fingerprints_unique_witness :
  unique_fingerprints
    (power_data (snd (saveData (λ _, no_faults)
                        [grid_status_reading 0 "online"; grid_status_reading 1000 "online"]
                        (store_of [])))).
Proof.
  apply (saveData_keeps_fingerprints_unique (λ _, no_faults)
           [grid_status_reading 0 "online"; grid_status_reading 1000 "online"]
           (store_of [])).
  intros l1 r l2 Heq. by destruct l1.
Defined.

Lemma fingerprint_eqb_refl (f : Fingerprint) : fingerprint_eqb f f = true.
Proof.
  unfold fingerprint_eqb. rewrite !andb_true_iff, !bool_decide_eq_true.
  repeat split; try done.
  destruct (fp_payload f) as [s|v|]; simpl; [by apply bool_decide_eq_true_2| |done].
  apply Qeq_bool_iff. reflexivity.
Qed.

Lemma fingerprint_taken_snoc_self (row : Row) (rows : list Row) (f : Fingerprint) :
  fingerprint row = Some f → fingerprint_taken (Some f) (rows ++ [row]) = true.
Proof.
  intros Hf. rewrite fingerprint_taken_app. apply orb_true_iff. right.
  unfold fingerprint_taken. simpl. by rewrite Hf, fingerprint_eqb_refl.
Qed.

Lemma fingerprint_taken_mono (f : option Fingerprint) (rows added : list Row) :
  fingerprint_taken f rows = true → fingerprint_taken f (rows ++ added) = true.
Proof. intros H. by rewrite fingerprint_taken_app, H. Qed.

Lemma step_rows_extends (fails : Faults) (data : Reading) (rows : list Row) :
  ∃ added, step_rows fails data rows = rows ++ added.
Proof. destruct (step_rows_added fails data rows) as (added & -> & _). eauto. Qed.

Lemma loop_rows_extends (fails : nat → Faults) (dataArray : list Reading) (k : nat)
    (rows : list Row) :
  ∃ added, loop_rows fails k dataArray rows = rows ++ added.
Proof. destruct (loop_rows_added fails dataArray k rows) as (added & -> & _). eauto. Qed.

(** Without a rejected insert, every fingerprinted reading of the batch has
    its fingerprint in the table afterwards. *)
Lemma loop_rows_takes_fingerprints (fails : nat → Faults) (dataArray : list Reading) :
  ∀ (k : nat) (rows : list Row),
  (∀ j, fails j InsertData = false) →
  ∀ data f, In data dataArray → data_fingerprint data = Some f →
    fingerprint_taken (Some f) (loop_rows fails k dataArray rows) = true.
Proof.
  induction dataArray as [|d rest IH]; intros k rows Hok data f Hin Hf; [destruct Hin|].
  cbn [loop_rows]. destruct Hin as [->|Hin]; [|by eapply IH].
  destruct (loop_rows_extends fails rest (S k) (step_rows (fails k) data rows))
    as (added & ->).
  apply fingerprint_taken_mono. unfold step_rows. rewrite Hok. simpl.
  destruct (fingerprint_taken (data_fingerprint data) _) eqn:E.
  - by rewrite Hf in E.
  - apply fingerprint_taken_snoc_self. done.
Qed.

(** With every fingerprint of the batch taken already, all readings count as
    duplicates and only event rows can be added. *)
Lemma loop_all_duplicates (fails : nat → Faults) (dataArray : list Reading) :
  ∀ (k : nat) (rows : list Row) (counters : Z * Z),
  (∀ j, fails j InsertData = false) →
  (∀ data, In data dataArray → fingerprint_taken (data_fingerprint data) rows = true) →
  loop_counters fails k dataArray rows counters
  = (fst counters, snd counters + Z.of_nat (length dataArray))
  ∧ non_events (loop_rows fails k dataArray rows) = non_events rows.
Proof.
  induction dataArray as [|d rest IH]; intros k rows counters Hok Htaken;
    cbn [loop_counters loop_rows].
  - simpl. split; [|done]. destruct counters. simpl. f_equal. lia.
  - set (rows1 := if is_grid_availability d then track_rows (fails k) d rows else rows).
    assert (Hext : ∃ added, rows1 = rows ++ added ∧ non_events rows1 = non_events rows).
    { subst rows1. destruct (is_grid_availability d).
      - destruct (track_rows_added (fails k) d rows) as (added & Heq & _).
        exists added. split; [done|]. apply track_rows_non_events.
      - exists []. by rewrite app_nil_r. }
    destruct Hext as (added & Hrows1 & Hne).
    assert (Hd : fingerprint_taken (data_fingerprint d) rows1 = true).
    { rewrite Hrows1. apply fingerprint_taken_mono, Htaken. by left. }
    assert (Hstep : step_rows (fails k) d rows = rows1).
    { unfold step_rows. fold rows1. by rewrite Hok, Hd. }
    assert (Hcount : step_counters (fails k) d rows counters
                     = (fst counters, snd counters + 1)).
    { unfold step_counters. fold rows1. by rewrite Hok, Hd. }
    rewrite Hstep, Hcount.
    destruct (IH (S k) rows1 (fst counters, snd counters + 1) Hok) as [-> ->].
    { intros data Hin. rewrite Hrows1. apply fingerprint_taken_mono, Htaken. by right. }
    cbn [fst snd]. split; [|done]. rewrite length_cons. f_equal. lia.
Qed.

Lemma stamp_same_minute (t t' : Z) (raw : Scraped) :
  minute_of t = minute_of t' →
  data_fingerprint (stamp t' raw) = data_fingerprint (stamp t raw)
  ∧ isValidData (stamp t' raw) = isValidData (stamp t raw).
Proof.
  intros Hmin. split; [|reflexivity].
  unfold stamp, generateFingerprint. cbn [data_fingerprint]. by rewrite Hmin.
Qed.

(** X19: scanning the same page data again within the same minute stores
    nothing new: when no insert of a reading is rejected, the second
    [saveData] reports no saved reading and every reading as a duplicate,
    and the non-event rows of the table are those the first left. *)
Theorem rescan_within_minute_is_duplicate (fails1 fails2 : nat → Faults) (t t' : Z)
    (powerData : list Scraped) (st : Store) :
  minute_of t = minute_of t' →
  (∀ k, fails1 k InsertData = false) →
  (∀ k, fails2 k InsertData = false) →
  let st1 := snd (saveData fails1 (processPowerData t powerData) st) in
  let run2 := saveData fails2 (processPowerData t' powerData) st1 in
  fst run2 = Returned (0, Z.of_nat (length (processPowerData t' powerData)))
  ∧ non_events (power_data (snd run2)) = non_events (power_data st1).
Proof.
  intros Hmin Hok1 Hok2 st1 run2. subst run2. unfold saveData in *.
  destruct (saveData_loop_rows fails1 (processPowerData t powerData) 0%nat (0, 0) st)
    as (c1 & st1' & Hrun1 & Hrows1 & _).
  assert (Hst1 : power_data st1
                 = loop_rows fails1 0 (processPowerData t powerData) (power_data st)).
  { subst st1. by rewrite Hrun1. }
  destruct (saveData_loop_counters fails2 (processPowerData t' powerData) 0%nat (0, 0) st1)
    as (st2 & Hrun2 & Hrows2 & _).
  rewrite Hrun2. cbn [fst snd]. rewrite Hrows2.
  destruct (loop_all_duplicates fails2 (processPowerData t' powerData) 0%nat
              (power_data st1) (0, 0) Hok2) as [-> ->]; [|done].
  intros data Hin. apply in_processPowerData in Hin as (raw & Hraw & -> & Hvalid).
  destruct (stamp_same_minute t t' raw Hmin) as [Hfp Hv].
  rewrite Hfp, Hst1.
  apply (loop_rows_takes_fingerprints fails1 _ 0%nat _ Hok1 (stamp t raw)); [|reflexivity].
  apply in_processPowerData. exists raw. by rewrite <- Hv.
Qed.

Lemma rescan_within_minute_is_duplicate_witness :
  let st1 := snd (saveData (λ _, no_faults)
                    (processPowerData (5 * MINUTE_MS) [scraped_reading 14591])
                    (store_of [])) in
  let run2 := saveData (λ _, no_faults)
                (processPowerData (5 * MINUTE_MS + 20000) [scraped_reading 14591]) st1 in
  fst run2
  = Returned (0, Z.of_nat (length (processPowerData (5 * MINUTE_MS + 20000)
                                     [scraped_reading 14591])))
  ∧ non_events (power_data (snd run2)) = non_events (power_data st1).
Proof.
  apply (rescan_within_minute_is_duplicate (λ _, no_faults) (λ _, no_faults)
           (5 * MINUTE_MS) (5 * MINUTE_MS + 20000) [scraped_reading 14591] (store_of []));
    reflexivity.
Defined.

(** * The read accessors *)

(** ** ORDER BY *)

Section OrderBy.
Context {A : Type} (key : A → Z).

Lemma insert_by_Permutation (x : A) (l : list A) : insert_by key x l ≡ₚ x :: l.
Proof.
  induction l as [|y l IH]; simpl; [done|].
  destruct (key x <=? key y); [done|]. rewrite IH. apply Permutation_swap.
Qed.

Lemma order_by_Permutation (l : list A) : order_by key l ≡ₚ l.
Proof.
  induction l as [|x l IH]; simpl; [done|].
  unfold order_by in *. simpl. by rewrite insert_by_Permutation, IH.
Qed.

Lemma in_order_by (l : list A) (x : A) : In x (order_by key l) ↔ In x l.
Proof. rewrite <- !list_elem_of_In. by rewrite order_by_Permutation. Qed.

Lemma insert_by_sorted (x : A) (l : list A) :
  StronglySorted (λ a b, key a ≤ key b) l →
  StronglySorted (λ a b, key a ≤ key b) (insert_by key x l).
Proof.
  induction 1 as [|y l Hl IH Hy]; simpl; [repeat constructor|].
  destruct (Z.leb_spec (key x) (key y)).
  - constructor; [by constructor|]. constructor; [done|].
    eapply Forall_impl; [exact Hy|]. simpl. intros; lia.
  - constructor; [done|].
    rewrite Forall_forall. intros z Hz.
    apply list_elem_of_In in Hz. rewrite <- list_elem_of_In, insert_by_Permutation in Hz.
    apply elem_of_cons in Hz as [->|Hz]; [lia|].
    rewrite Forall_forall in Hy. by apply Hy.
Qed.

Lemma order_by_sorted (l : list A) :
  StronglySorted (λ a b, key a ≤ key b) (order_by key l).
Proof.
  induction l as [|x l IH]; [constructor|]. by apply insert_by_sorted.
Qed.

(** The first row of the sorted table is the one [LIMIT 1] returns. *)
Lemma insert_by_head (x : A) (l : list A) :
  head (insert_by key x l)
  = match head l with
    | None => Some x
    | Some b => if key x <=? key b then Some x else Some b
    end.
Proof. destruct l as [|y l]; simpl; [done|]. by destruct (key x <=? key y). Qed.

Lemma order_by_head (l : list A) : head (order_by key l) = order_by_limit1 key l.
Proof.
  induction l as [|x l IH]; [done|].
  change (order_by key (x :: l)) with (insert_by key x (order_by key l)).
  by rewrite insert_by_head, IH.
Qed.
End OrderBy.

Lemma filter_fst_NoDup {B} (p : Z * B → bool) (l : list (Z * B)) :
  NoDup (l.*1) → NoDup ((List.filter p l).*1).
Proof.
  induction l as [|x l IH]; [done|].
  rewrite fmap_cons, NoDup_cons. intros [Hx Hnd]. cbn [List.filter].
  destruct (p x); [|by apply IH].
  rewrite fmap_cons, NoDup_cons. split; [|by apply IH].
  intros Hin. apply Hx. apply list_elem_of_fmap in Hin as (y & Hy & Hin).
  apply list_elem_of_In, filter_In in Hin as [Hin _].
  apply list_elem_of_fmap. exists y. split; [done|]. by apply list_elem_of_In.
Qed.

Lemma sorted_NoDup_strict {B} (l : list (Z * B)) :
  StronglySorted (λ a b, - fst a ≤ - fst b) l →
  NoDup (l.*1) →
  StronglySorted (λ a b, fst b < fst a) l.
Proof.
  induction 1 as [|x l Hl IH Hx]; intros Hnd; [constructor|].
  rewrite fmap_cons, NoDup_cons in Hnd. destruct Hnd as [Hnx Hnd].
  constructor; [by apply IH|].
  rewrite Forall_forall in Hx |- *. intros y Hy. specialize (Hx y Hy). simpl in Hx.
  assert (fst y ≠ fst x); [|lia].
  intros Heq. apply Hnx. rewrite <- Heq. apply list_elem_of_fmap. eauto.
Qed.

Lemma in_getDailyConsumptions (now : Z) (startDate endDate : option Z)
    (ledger : gmap Z DailyRow) (d : Z) (row : DailyRow) :
  In (d, row) (getDailyConsumptions now startDate endDate ledger)
  ↔ ledger !! d = Some row
    ∧ default (getTodayDate now - 7) startDate ≤ d ≤ default (getTodayDate now) endDate.
Proof.
  unfold getDailyConsumptions. cbv zeta.
  replace (toDateStr (now - 7 * 24 * 60 * 60 * 1000)) with (getTodayDate now - 7)
    by (symmetry; apply toDateStr_days_ago).
  rewrite in_order_by, filter_In. unfold ledger_rows.
  rewrite <- list_elem_of_In, elem_of_map_to_list. cbn [fst].
  rewrite andb_true_iff, !Z.leb_le. tauto.
Qed.

(** X20: the listing of [getDailyConsumptions] holds exactly the ledger rows
    whose date lies between the start and the end date, both included, each
    once and in strictly descending order of date; without arguments the
    range runs from seven days ago to today. *)
Theorem getDailyConsumptions_listing (now : Z) (startDate endDate : option Z)
    (ledger : gmap Z DailyRow) :
  let s := default (getTodayDate now - 7) startDate in
  let e := default (getTodayDate now) endDate in
  (∀ d row, In (d, row) (getDailyConsumptions now startDate endDate ledger)
            ↔ ledger !! d = Some row ∧ s ≤ d ≤ e)
  ∧ StronglySorted (λ a b, fst b < fst a)
      (getDailyConsumptions now startDate endDate ledger).
Proof.
  intros s e. split; [intros d row; apply in_getDailyConsumptions|].
  unfold getDailyConsumptions. cbv zeta.
  apply sorted_NoDup_strict; [apply order_by_sorted|].
  rewrite order_by_Permutation.
  apply (filter_fst_NoDup _ (ledger_rows ledger)). apply NoDup_fst_map_to_list.
Qed.

Lemma days_from_NoDup (now : Z) (n : nat) : ∀ i, NoDup (days_from now i n).
Proof.
  induction n as [|n IH]; intros i; [constructor|].
  rewrite days_from_S. apply NoDup_cons. split; [|apply IH].
  intros Hin. apply list_elem_of_In, days_from_bounds in Hin. lia.
Qed.

Lemma upsert_all_snoc (l : list DailyResult) (x : DailyResult) (ledger : gmap Z DailyRow) :
  upsert_all (l ++ [x]) ledger = <[date x := row_of x]> (upsert_all l ledger).
Proof. unfold upsert_all. by rewrite foldl_app. Qed.

Lemma upsert_all_lookup (l : list DailyResult) (ledger : gmap Z DailyRow) (r : DailyResult) :
  NoDup (map date l) → In r l → upsert_all l ledger !! date r = Some (row_of r).
Proof.
  induction l as [|x l IH] using rev_ind; intros Hnd Hin; [destruct Hin|].
  rewrite upsert_all_snoc. rewrite map_app in Hnd. simpl in Hnd.
  apply NoDup_app in Hnd as (Hnd & Hdisj & _).
  apply in_app_or in Hin as [Hin|[->|[]]]; [|apply lookup_insert_eq].
  rewrite lookup_insert_ne; [by apply IH|].
  intros Heq. apply (Hdisj (date r)).
  - apply list_elem_of_In, in_map. done.
  - rewrite <- Heq. apply list_elem_of_singleton. done.
Qed.

(** X21: after a backfill during which no table creation is rejected and
    the clock stays on one calendar day, every record it returned is found
    by [getDailyConsumptions()] in the ledger the batch left, under its date
    and with the figures returned, provided the listing is asked on that
    day or later and the oldest date of the batch is then at most seven
    days old. *)
Theorem backfilled_records_are_listed (fails : Z → Faults) (clock : Z → Tick)
    (now later days : Z) (st : Store) :
  (∀ i, 0 ≤ i < days → fails i CreateDailyTable = false) →
  same_day now clock days →
  getTodayDate now ≤ getTodayDate later →
  getTodayDate later - getTodayDate now + days ≤ 8 →
  let run := backfillDailyConsumptions fails clock days st in
  ∃ l, fst run = Returned l
    ∧ ∀ r, In r l →
        In (date r, row_of r)
           (getDailyConsumptions later None None (daily_consumption (snd run))).
Proof.
  intros Hinit Hday Hlater Hweek run. subst run.
  destruct (backfill_run fails clock days st Hinit) as (-> & _ & -> & _).
  eexists. split; [reflexivity|].
  pose proof (same_day_sublist fails clock st now days Hday) as Hsub.
  intros r Hr. apply in_getDailyConsumptions. split.
  - apply upsert_all_lookup; [|done].
    eapply sublist_NoDup; [|exact Hsub]. apply days_from_NoDup.
  - cbn [default from_option id].
    assert (Hd : In (date r) (last_days now days)).
    { apply list_elem_of_In. eapply elem_of_sublist; [|exact Hsub].
      apply list_elem_of_In, in_map. done. }
    apply days_from_bounds in Hd. lia.
Qed.

Lemma backfilled_records_are_listed_witness :
  let run := backfillDailyConsumptions (λ _, no_faults) (steady noon_day5) 6
               (store_of two_day_rows) in
  ∃ l, fst run = Returned l
    ∧ ∀ r, In r l →
        In (date r, row_of r)
           (getDailyConsumptions (noon_day5 + 2 * DAY_MS) None None
              (daily_consumption (snd run))).
Proof.
  apply (backfilled_records_are_listed (λ _, no_faults) (steady noon_day5) noon_day5
           (noon_day5 + 2 * DAY_MS) 6 (store_of two_day_rows)).
  - reflexivity.
  - intros i Hi. split; reflexivity.
  - vm_compute. discriminate.
  - vm_compute. discriminate.
Defined.

(** ** Grid events: [getGridEvents] *)

Lemma find_map {A B} (f : A → B) (p : B → bool) (l : list A) :
  List.find p (map f l) = f <$> List.find (λ x, p (f x)) l.
Proof. induction l as [|x l IH]; simpl; [done|]. by destruct (p (f x)). Qed.

(** The first match within a prefix of a sorted list precedes every match
    of the whole list. *)
Lemma find_take_sorted {A} (key : A → Z) (p : A → bool) (l : list A) :
  StronglySorted (λ a b, key a ≤ key b) l →
  ∀ n x, List.find p (take n l) = Some x →
  ∀ y, In y l → p y = true → key x ≤ key y.
Proof.
  induction 1 as [|a l Hl IH Ha]; intros n x Hfind y Hy Hp; [destruct Hy|].
  destruct n as [|n]; [discriminate|]. simpl in Hfind.
  destruct (p a) eqn:Hpa.
  - injection Hfind as <-. destruct Hy as [->|Hy]; [lia|].
    rewrite Forall_forall in Ha. apply Ha. by apply list_elem_of_In.
  - destruct Hy as [->|Hy]; [congruence|]. by apply (IH n).
Qed.

Lemma getGridEvents_allEvents (rows : list Row) :
  allEvents (getGridEvents rows) = map event_of (take 10 (latest_grid_events rows)).
Proof. reflexivity. Qed.

Lemma getGridEvents_lastInterruption (rows : list Row) :
  lastInterruption (getGridEvents rows)
  = timestamp <$> List.find (λ r, bool_decide (status r = Some "interruption"))
                    (take 10 (latest_grid_events rows)).
Proof.
  unfold getGridEvents. cbv zeta. cbn [lastInterruption].
  rewrite (find_map (λ row, mkGridEvent (timestamp row) (status row) (metadata row))).
  by destruct (List.find _ _).
Qed.

Lemma getGridEvents_lastRestoration (rows : list Row) :
  lastRestoration (getGridEvents rows)
  = timestamp <$> List.find (λ r, bool_decide (status r = Some "restoration"))
                    (take 10 (latest_grid_events rows)).
Proof.
  unfold getGridEvents. cbv zeta. cbn [lastRestoration].
  rewrite (find_map (λ row, mkGridEvent (timestamp row) (status row) (metadata row))).
  by destruct (List.find _ _).
Qed.

Lemma in_latest_grid_events (rows : list Row) (r : Row) :
  In r (latest_grid_events rows) ↔ In r rows ∧ grid_event_row r = true.
Proof. unfold latest_grid_events. by rewrite in_order_by, filter_In. Qed.

Lemma latest_grid_events_sorted (rows : list Row) :
  StronglySorted (λ a b, timestamp b ≤ timestamp a) (latest_grid_events rows).
Proof.
  unfold latest_grid_events.
  induction (order_by_sorted (λ r, - timestamp r) (List.filter grid_event_row rows))
    as [|a l Hl IH Ha]; constructor; [exact IH|].
  eapply Forall_impl; [exact Ha|]. intros b. simpl. lia.
Qed.

Lemma in_take {A} (n : nat) (l : list A) (x : A) : In x (take n l) → In x l.
Proof. intros H. rewrite <- (firstn_skipn n l). apply in_or_app. by left. Qed.

(** The latest stored event of a type, as far as the ten rows read show it. *)
Lemma last_of_type (ty : string) (rows : list Row) (t : Z) :
  timestamp <$> List.find (λ r, bool_decide (status r = Some ty))
                  (take 10 (latest_grid_events rows)) = Some t →
  (∃ r, In r rows ∧ grid_event_row r = true ∧ status r = Some ty ∧ timestamp r = t)
  ∧ ∀ r, In r rows → grid_event_row r = true → status r = Some ty → timestamp r ≤ t.
Proof.
  intros H. destruct (List.find _ _) as [x|] eqn:Hfind; [|discriminate].
  injection H as <-. split.
  - apply find_some in Hfind as [Hin Hty].
    apply in_take, in_latest_grid_events in Hin as [Hin Hg].
    apply bool_decide_eq_true in Hty. by exists x.
  - intros r Hr Hg Hty.
    pose proof (find_take_sorted (λ r, - timestamp r) _ _
                  (order_by_sorted _ _) _ _ Hfind r) as Hle.
    simpl in Hle. cut (- timestamp x ≤ - timestamp r); [lia|].
    apply Hle; [by apply in_latest_grid_events|by apply bool_decide_eq_true].
Qed.

Lemma none_of_type (ty : string) (rows : list Row) :
  timestamp <$> List.find (λ r, bool_decide (status r = Some ty))
                  (take 10 (latest_grid_events rows)) = None →
  (length (List.filter grid_event_row rows) ≤ 10)%nat →
  ∀ r, In r rows → grid_event_row r = true → status r ≠ Some ty.
Proof.
  intros H Hlen r Hr Hg Hty.
  destruct (List.find _ _) as [x|] eqn:Hfind; [discriminate|].
  rewrite firstn_all2 in Hfind.
  - eapply find_none in Hfind; [|by apply in_latest_grid_events].
    by apply bool_decide_eq_false in Hfind.
  - unfold latest_grid_events. by rewrite order_by_Permutation.
Qed.

(** X22: [getGridEvents] lists the ten latest stored grid events, or all of
    them when fewer are stored: each listed event is a stored grid
    interruption or restoration, the list runs from the latest to the
    earliest, and a stored grid event that is not listed is no later than
    any listed one. *)
Theorem getGridEvents_ten_latest (rows : list Row) :
  let all := allEvents (getGridEvents rows) in
  length all = Nat.min 10 (length (List.filter grid_event_row rows))
  ∧ StronglySorted (λ a b, ev_timestamp b ≤ ev_timestamp a) all
  ∧ (∀ e, In e all →
       (ev_type e = Some "interruption" ∨ ev_type e = Some "restoration")
       ∧ ∃ r, In r rows ∧ category r = event ∧ source r = grid ∧ e = event_of r)
  ∧ (∀ r, In r rows → grid_event_row r = true →
       In (event_of r) all ∨ ∀ e, In e all → timestamp r ≤ ev_timestamp e).
Proof.
  intros all. subst all. rewrite getGridEvents_allEvents.
  split; [|split; [|split]].
  - rewrite length_map, length_firstn. unfold latest_grid_events.
    by rewrite order_by_Permutation.
  - apply (StronglySorted_fmap _ (λ a b, timestamp b ≤ timestamp a)); [done|].
    rewrite <- (firstn_skipn 10 (latest_grid_events rows)) at 1.
    eapply StronglySorted_app_1_l.
    rewrite firstn_skipn at 1.
    rewrite firstn_skipn. apply latest_grid_events_sorted.
  - intros e He. apply in_map_iff in He as (r & <- & Hr).
    apply in_take, in_latest_grid_events in Hr as [Hr Hg].
    unfold grid_event_row in Hg.
    rewrite !andb_true_iff, orb_true_iff, !bool_decide_eq_true in Hg.
    destruct Hg as [[Hc Hs] Hst]. split; [exact Hst|]. by exists r.
  - intros r Hr Hg.
    assert (Hin : In r (latest_grid_events rows)) by by apply in_latest_grid_events.
    rewrite <- (firstn_skipn 10 (latest_grid_events rows)) in Hin.
    apply in_app_or in Hin as [Hin|Hin]; [left; by apply in_map|].
    right. intros e He. apply in_map_iff in He as (r' & <- & Hr').
    pose proof (latest_grid_events_sorted rows) as Hs.
    rewrite <- (firstn_skipn 10 (latest_grid_events rows)) in Hs.
    apply (StronglySorted_app_1_elem_of _ _ _ r' r) in Hs; [exact Hs| |];
      by apply list_elem_of_In.
Qed.

Lemma getGridEvents_ten_latest_witness :
  In (event_of (event_row (Some "online") (Some "offline") "interruption" (5 * MINUTE_MS)))
     (allEvents (getGridEvents
        (online_rows
         ++ [event_row (Some "online") (Some "offline") "interruption" (5 * MINUTE_MS)])))
  ∧ (ev_type (event_of (event_row (Some "online") (Some "offline") "interruption"
                          (5 * MINUTE_MS))) = Some "interruption"
     ∨ ev_type (event_of (event_row (Some "online") (Some "offline") "interruption"
                            (5 * MINUTE_MS))) = Some "restoration").
Proof.
  pose proof (getGridEvents_ten_latest
                (online_rows
                 ++ [event_row (Some "online") (Some "offline") "interruption"
                       (5 * MINUTE_MS)])) as H.
  cbv zeta in H. destruct H as (_ & _ & H & _).
  split; [left; reflexivity|]. apply H. left. reflexivity.
Defined.

(** X23: when [getGridEvents] reports a last interruption (restoration), a
    grid interruption (restoration) with that timestamp is stored and no
    stored one is later. *)
Theorem getGridEvents_last_is_latest (rows : list Row) (t : Z) :
  (lastInterruption (getGridEvents rows) = Some t →
     (∃ r, In r rows ∧ grid_event_row r = true
           ∧ status r = Some "interruption" ∧ timestamp r = t)
     ∧ ∀ r, In r rows → grid_event_row r = true →
            status r = Some "interruption" → timestamp r ≤ t)
  ∧ (lastRestoration (getGridEvents rows) = Some t →
     (∃ r, In r rows ∧ grid_event_row r = true
           ∧ status r = Some "restoration" ∧ timestamp r = t)
     ∧ ∀ r, In r rows → grid_event_row r = true →
            status r = Some "restoration" → timestamp r ≤ t).
Proof.
  rewrite getGridEvents_lastInterruption, getGridEvents_lastRestoration.
  split; apply last_of_type.
Qed.

(** X24: with at most ten grid events stored, a null [lastInterruption]
    means that no grid interruption is stored, and a null [lastRestoration]
    that no grid restoration is. *)
Theorem getGridEvents_null_means_none (rows : list Row) :
  (length (List.filter grid_event_row rows) ≤ 10)%nat →
  (lastInterruption (getGridEvents rows) = None →
     ∀ r, In r rows → grid_event_row r = true → status r ≠ Some "interruption")
  ∧ (lastRestoration (getGridEvents rows) = None →
     ∀ r, In r rows → grid_event_row r = true → status r ≠ Some "restoration").
Proof.
  intros Hlen.
  rewrite getGridEvents_lastInterruption, getGridEvents_lastRestoration.
  split; intros H; by apply none_of_type.
Qed.

Lemma getGridEvents_last_is_latest_witness :
  ∃ r, In r (online_rows
             ++ [event_row (Some "online") (Some "offline") "interruption" (5 * MINUTE_MS)])
    ∧ grid_event_row r = true
    ∧ status r = Some "interruption" ∧ timestamp r = 5 * MINUTE_MS.
Proof.
  pose proof (getGridEvents_last_is_latest
                (online_rows
                 ++ [event_row (Some "online") (Some "offline") "interruption"
                       (5 * MINUTE_MS)])
                (5 * MINUTE_MS)) as H.
  destruct H as [H _]. apply H. reflexivity.
Defined.

Lemma getGridEvents_null_means_none_witness :
  status (event_row (Some "online") (Some "offline") "interruption" (5 * MINUTE_MS))
  ≠ Some "restoration".
Proof.
  pose proof (getGridEvents_null_means_none
                (online_rows
                 ++ [event_row (Some "online") (Some "offline") "interruption"
                       (5 * MINUTE_MS)])) as H.
  destruct H as [_ H]; [vm_compute; lia|].
  apply H; [reflexivity| |reflexivity].
  right. left. reflexivity.
Defined.

(** A row that sorts before every row of the table comes first, though it
    was stored last. *)
Lemma order_by_snoc_first {A} (key : A → Z) (l : list A) (x : A) :
  (∀ y, In y l → key x < key y) →
  order_by key (l ++ [x]) = x :: order_by key l.
Proof.
  induction l as [|y l IH]; intros Hlt; [done|].
  change (order_by key ((y :: l) ++ [x]))
    with (insert_by key y (order_by key (l ++ [x]))).
  rewrite IH by (intros z Hz; apply Hlt; by right).
  cbn [insert_by].
  destruct (Z.leb_spec (key y) (key x)) as [Hle|_]; [|done].
  specialize (Hlt y (or_introl eq_refl)). lia.
Qed.

Lemma track_rows_emits (fails : Faults) (currentData : Reading) (rows : list Row)
    (p : Row) (e : string) :
  fails SelectLastStatus = false →
  fails InsertEvent = false →
  last_status_query rows = Some p →
  classify (status p) (data_status currentData) = Some e →
  fingerprint_taken (Some (event_fingerprint e (data_timestamp currentData))) rows = false →
  track_rows fails currentData rows
  = rows ++ [event_row (status p) (data_status currentData) e (data_timestamp currentData)].
Proof.
  intros Hf1 Hf2 Hp Hc Ht. unfold track_rows. rewrite Hf1, Hp, Hc, Hf2, Ht.
  rewrite bool_decide_eq_false_2; [done|].
  apply classify_Some in Hc as [(-> & -> & _)|(-> & -> & _)]; discriminate.
Qed.

(** X25: an event that [trackGridStatusChange] stores with a timestamp later
    than every stored grid event is what [getGridEvents] reports next: it
    heads [allEvents], and its timestamp is [lastInterruption] or
    [lastRestoration] according to its type. *)
Theorem emitted_event_is_reported (fails : Faults) (currentData : Reading) (st : Store)
    (p : Row) (e : string) :
  fails SelectLastStatus = false →
  fails InsertEvent = false →
  last_status_query (power_data st) = Some p →
  classify (status p) (data_status currentData) = Some e →
  fingerprint_taken (Some (event_fingerprint e (data_timestamp currentData)))
    (power_data st) = false →
  (∀ r, In r (power_data st) → grid_event_row r = true →
        timestamp r < data_timestamp currentData) →
  let report :=
    getGridEvents (power_data (snd (trackGridStatusChange fails currentData st))) in
  head (allEvents report)
  = Some (event_of (event_row (status p) (data_status currentData) e
                      (data_timestamp currentData)))
  ∧ (e = "interruption" → lastInterruption report = Some (data_timestamp currentData))
  ∧ (e = "restoration" → lastRestoration report = Some (data_timestamp currentData)).
Proof.
  intros Hf1 Hf2 Hp Hc Ht Hlater report. subst report.
  destruct (trackGridStatusChange_rows fails currentData st) as (st' & -> & Hrows & _).
  cbn [snd]. rewrite Hrows, (track_rows_emits _ _ _ p e) by done.
  set (ev := event_row _ _ _ _).
  assert (Hev : grid_event_row ev = true).
  { apply classify_Some in Hc as [(_ & _ & ->)|(_ & _ & ->)]; reflexivity. }
  assert (Hlatest : latest_grid_events (power_data st ++ [ev])
                    = ev :: latest_grid_events (power_data st)).
  { unfold latest_grid_events. rewrite List.filter_app. cbn [List.filter]. rewrite Hev.
    apply order_by_snoc_first. intros y Hy. apply filter_In in Hy as [Hy Hg].
    specialize (Hlater y Hy Hg). subst ev. cbn [timestamp event_row]. lia. }
  rewrite getGridEvents_allEvents, getGridEvents_lastInterruption,
    getGridEvents_lastRestoration, Hlatest.
  split; [reflexivity|].
  split; intros ->; reflexivity.
Qed.

Lemma emitted_event_is_reported_witness :
  let report :=
    getGridEvents (power_data (snd (trackGridStatusChange no_faults
                     (grid_status_reading (5 * MINUTE_MS) "offline")
                     (store_of online_rows)))) in
  head (allEvents report)
  = Some (event_of (event_row (Some "online") (Some "offline") "interruption"
                      (5 * MINUTE_MS)))
  ∧ ("interruption" = "interruption" → lastInterruption report = Some (5 * MINUTE_MS))
  ∧ ("interruption" = "restoration" → lastRestoration report = Some (5 * MINUTE_MS)).
Proof.
  apply (emitted_event_is_reported no_faults
           (grid_status_reading (5 * MINUTE_MS) "offline") (store_of online_rows)
           (data_row (grid_status_reading 0 "online")) "interruption");
    try reflexivity.
  intros r [<-|[]]. discriminate.
Defined.
